(** * movies/views.py: title heuristics, listings, downloads and install tracking

    A shallow embedding of the request handlers of [movies/views.py] and of
    the library calls they rely on (Python's [str], [int] and [re], Django's
    [Paginator] and the ORM calls on the tables), followed by the properties
    of the handlers.

    Conventions of the embedding.
    - A Python [str] is a [string] at the interface of a handler and a
      [list ascii] inside; a character stands for the code point of the same
      number, so the embedding covers titles and headers made of the first
      256 code points, with Python's classification of those code points.
    - [int(...)] raises [ValueError] on a number of more than 4300 digits,
      the limit of the interpreter unless it is started with another one;
      the views catch that exception wherever they convert a number.
    - An exception is a value of an error type; a handler that catches it
      does so by pattern matching. A row written before an exception leaves
      a view stays written (the database commits each write).
    - [django.utils.timezone.utc] exists, as lines 94 and 177 of the views
      need it to: the release of Django is one before 5.0.
    - The URL patterns of the project, which [redirect] consults, and the
      reading of the scheme of a URL are inputs of [download_movie].
    - The clock ([timezone.now()]) is an input of the handler. *)

From Stdlib Require Import ZArith Ascii String List Bool Lia.
From stdpp Require Import gmap strings list sorting.

Open Scope Z_scope.

(** ** Python's [str], [int] and [re] on the first 256 code points *)

Module Py.

Definition str := list ascii.

Definition of_string (s : string) : str := list_ascii_of_string s.
Definition to_string (s : str) : string := string_of_list_ascii s.

Definition code (c : ascii) : N := N_of_ascii c.

Definition between (lo hi : N) (c : ascii) : bool :=
  ((lo <=? code c) && (code c <=? hi))%N.

(** [\d] of a [str] pattern: the decimal digits. *)
Definition is_digit (c : ascii) : bool := between 48 57 c.

(** [\s] of a [str] pattern and the characters [str.strip()] removes:
    tab to carriage return, the four separators 28..31, the space, NEL and
    the no-break space. *)
Definition is_space (c : ascii) : bool :=
  between 9 13 c || between 28 32 c
  || (code c =? 133)%N || (code c =? 160)%N.

Definition is_alpha (c : ascii) : bool :=
  between 65 90 c || between 97 122 c
  || (code c =? 170)%N || (code c =? 181)%N || (code c =? 186)%N
  || between 192 214 c || between 216 246 c || between 248 255 c.

(** Superscript digits and vulgar fractions count as alphanumeric. *)
Definition is_numeric (c : ascii) : bool :=
  is_digit c || (code c =? 178)%N || (code c =? 179)%N
  || (code c =? 185)%N || between 188 190 c.

(** [\w]: alphanumeric or the underscore. *)
Definition is_word (c : ascii) : bool :=
  is_alpha c || is_numeric c || (code c =? 95)%N.

(** [str.lower()], character by character. *)
Definition lower_char (c : ascii) : ascii :=
  if between 65 90 c || between 192 214 c || between 216 222 c
  then ascii_of_N (code c + 32) else c.

Definition lower (s : str) : str := map lower_char s.

Fixpoint lstrip (s : str) : str :=
  match s with
  | c :: rest => if is_space c then lstrip rest else s
  | [] => []
  end.

Definition rstrip (s : str) : str := rev (lstrip (rev s)).

(** [str.strip()] *)
Definition strip (s : str) : str := rstrip (lstrip s).

Fixpoint starts_with (p s : str) : bool :=
  match p, s with
  | [], _ => true
  | a :: p', b :: s' => Ascii.eqb a b && starts_with p' s'
  | _ :: _, [] => false
  end.

(** [sub in s] *)
Fixpoint contains (sub s : str) : bool :=
  starts_with sub s
  || match s with
     | _ :: rest => contains sub rest
     | [] => false
     end.

(** [s.replace(old, '')]: the occurrences of [old] are removed from left
    to right without overlap. [skip] counts the characters of the current
    occurrence still to drop. *)
Fixpoint remove_go (old : str) (skip : nat) (s : str) : str :=
  match s with
  | [] => []
  | c :: rest =>
      match skip with
      | S k => remove_go old k rest
      | O => if starts_with old s
             then remove_go old (pred (length old)) rest
             else c :: remove_go old O rest
      end
  end.

Definition remove_all (old s : str) : str :=
  match old with
  | [] => s
  | _ :: _ => remove_go old O s
  end.

(** [s.split(sep)[0]] for a one-character separator. *)
Fixpoint split_head (sep : ascii) (s : str) : str :=
  match s with
  | [] => []
  | c :: rest => if Ascii.eqb c sep then [] else c :: split_head sep rest
  end.

(** *** [int] *)

Definition digit_value (c : ascii) : Z := Z.of_N (code c) - 48.

(** Value of a run of digits read from the left, [acc] being the value of
    the digits already read. *)
Fixpoint digits_value (acc : Z) (s : str) : Z :=
  match s with
  | [] => acc
  | c :: rest => digits_value (10 * acc + digit_value c) rest
  end.

(** The whitespace [int] skips around the number in an ASCII string. *)
Definition is_c_space (c : ascii) : bool :=
  between 9 13 c || (code c =? 32)%N.

(** [sys.get_int_max_str_digits()]: the largest number of digits [int]
    converts. The views do not change the limit of the interpreter. *)
Definition int_max_str_digits : Z := 4300.

(** The value [int] returns for the digits it has scanned; it raises when
    there are too many of them. *)
Definition int_within_limit (digits acc : Z) : option Z :=
  if digits >? int_max_str_digits then None else Some acc.

(** Digits possibly grouped by single underscores, up to the end of the
    string or to trailing whitespace. [digits] counts the digits scanned
    and [sep] tells whether the previous character was an underscore. *)
Fixpoint int_body (acc digits : Z) (sep : bool) (s : str) : option Z :=
  match s with
  | [] => if sep then None else int_within_limit digits acc
  | c :: rest =>
      if is_digit c
      then int_body (10 * acc + digit_value c) (digits + 1) false rest
      else if (code c =? 95)%N then
        if sep then None else int_body acc digits true rest
      else if sep then None
      else if forallb is_c_space s then int_within_limit digits acc else None
  end.

Fixpoint skip_c_space (s : str) : str :=
  match s with
  | c :: rest => if is_c_space c then skip_c_space rest else s
  | [] => []
  end.

Definition int_unsigned (s : str) : option Z :=
  match s with
  | c :: _ => if is_digit c then int_body 0 0 false s else None
  | [] => None
  end.

(** [int(s)] for a [str]: [None] stands for [ValueError]. In a string
    that is not ASCII, the whitespace characters from 127 on are first
    turned into spaces. *)
Definition int (s : str) : option Z :=
  let s1 := if forallb (fun c => (code c <? 128)%N) s then s
            else map (fun c => if (127 <=? code c)%N && is_space c
                               then " "%char else c) s in
  match skip_c_space s1 with
  | "+"%char :: rest => int_unsigned rest
  | "-"%char :: rest => Z.opp <$> int_unsigned rest
  | s2 => int_unsigned s2
  end.

(** *** [re] *)

(** The patterns of the views use literals, character classes, a greedy
    optional group, a greedy repetition of a class, one capturing group,
    [\b] and [^]. *)
Inductive regex : Type :=
| Eps
| Lit (c : ascii)
| Class (p : ascii -> bool)
| Cat (r1 r2 : regex)
| Opt (r : regex)
| Star (p : ascii -> bool)
| Group (r : regex)
| WordB
| Bol.

Definition Plus (p : ascii -> bool) : regex := Cat (Class p) (Star p).

(** A literal word. *)
Fixpoint Word (s : str) : regex :=
  match s with
  | [] => Eps
  | c :: rest => Cat (Lit c) (Word rest)
  end.

(** A match object: [group(0)] and [group(1)]. *)
Record match_obj : Type := MatchObj { group0 : str; group1 : option str }.

(** The text between two cursors, the second being a suffix of the first. *)
Definition consumed (from to : str) : str :=
  take (length from - length to)%nat from.

(** A continuation receives the characters before the cursor (last one
    first), the characters after it and the text of group 1. *)
Definition cont : Type := str -> str -> option str -> option match_obj.

Definition at_boundary (before after : str) : bool :=
  xorb (match before with c :: _ => is_word c | [] => false end)
       (match after with c :: _ => is_word c | [] => false end).

Fixpoint star (p : ascii -> bool) (k : cont)
    (before after : str) (cap : option str) : option match_obj :=
  match after with
  | c :: rest =>
      if p c then
        match star p k (c :: before) rest cap with
        | Some m => Some m
        | None => k before after cap
        end
      else k before after cap
  | [] => k before after cap
  end.

(** Backtracking matcher: the first alternative that lets the rest of the
    pattern succeed wins, the greedy one being tried first. *)
Fixpoint run (r : regex) (k : cont)
    (before after : str) (cap : option str) : option match_obj :=
  match r with
  | Eps => k before after cap
  | Lit c =>
      match after with
      | x :: rest => if Ascii.eqb x c then k (x :: before) rest cap else None
      | [] => None
      end
  | Class p =>
      match after with
      | x :: rest => if p x then k (x :: before) rest cap else None
      | [] => None
      end
  | Cat r1 r2 => run r1 (run r2 k) before after cap
  | Opt r1 =>
      match run r1 k before after cap with
      | Some m => Some m
      | None => k before after cap
      end
  | Star p => star p k before after cap
  | Group r1 =>
      run r1 (fun b a _ => k b a (Some (consumed after a))) before after cap
  | WordB => if at_boundary before after then k before after cap else None
  | Bol => match before with [] => k before after cap | _ :: _ => None end
  end.

Definition accept (start : str) : cont :=
  fun _ after cap => Some (MatchObj (consumed start after) cap).

Definition match_at (r : regex) (before after : str) : option match_obj :=
  run r (accept after) before after None.

(** [re.match(r, s)] *)
Definition re_match (r : regex) (s : str) : option match_obj :=
  match_at r [] s.

Fixpoint search_from (r : regex) (before after : str) : option match_obj :=
  match match_at r before after with
  | Some m => Some m
  | None =>
      match after with
      | c :: rest => search_from r (c :: before) rest
      | [] => None
      end
  end.

(** [re.search(r, s)]: the match at the leftmost position that has one. *)
Definition re_search (r : regex) (s : str) : option match_obj :=
  search_from r [] s.

End Py.

Import Py.

Definition py (s : string) : str := of_string s.

(** ** Title-order helpers *)

(** [title or ""] *)
Definition or_empty (title : option string) : str :=
  match title with
  | Some s => of_string s
  | None => []
  end.

(** [r"s(?:eason)?\s*(\d+)"] *)
Definition season_re : regex :=
  Cat (Lit "s") (Cat (Opt (Word (py "eason")))
    (Cat (Star is_space) (Group (Plus is_digit)))).

(** [r"e(?:pisode)?\s*(\d+)"] *)
Definition episode_re : regex :=
  Cat (Lit "e") (Cat (Opt (Word (py "pisode")))
    (Cat (Star is_space) (Group (Plus is_digit)))).

(** [r"\b(\d+)\b"] *)
Definition simple_number_re : regex :=
  Cat WordB (Cat (Group (Plus is_digit)) WordB).

(** [r'^(\d+)\.'] *)
Definition order_re : regex :=
  Cat Bol (Cat (Group (Plus is_digit)) (Lit ".")).

(** [try: n = int(m.group(1)) except ValueError: pass], [n] keeping its
    previous value [dflt] when the conversion raises. *)
Definition int_group1_or (dflt : Z) (m : match_obj) : Z :=
  match group1 m with
  | Some g => match int g with Some n => n | None => dflt end
  | None => dflt
  end.

Definition extract_episode_number (title : option string) : Z * Z :=
  let title := lower (or_empty title) in
  let season_num := 1 in
  let episode_num := 9999 in
  let season_match := re_search season_re title in
  let season_num :=
    match season_match with
    | Some m => int_group1_or season_num m
    | None => season_num
    end in
  let episode_match := re_search episode_re title in
  let episode_num :=
    match episode_match with
    | Some m => int_group1_or episode_num m
    | None => episode_num
    end in
  let episode_num :=
    match season_match with
    | Some sm =>
        if episode_num =? 9999 then
          let cleaned_title := remove_all (group0 sm) title in
          match re_search simple_number_re cleaned_title with
          | Some m => int_group1_or episode_num m
          | None => episode_num
          end
        else episode_num
    | None => episode_num
    end in
  (season_num, episode_num).

Definition extract_movie_order_number (title : option string) : Z :=
  let title := or_empty title in
  match re_match order_re (strip title) with
  | Some m => int_group1_or 9999 m
  | None => 9999
  end.


(** ** Python lists: slices and the stable sort *)

Module PyList.

Section Slice.
Context {A : Type}.

(** A slice bound as Python normalises it: counted from the end when
    negative, then cut to the length of the list. *)
Definition clamp (len i : Z) : Z :=
  if i <? 0 then Z.max 0 (i + len) else Z.min i len.

(** [l[lo:hi]] *)
Definition slice (l : list A) (lo hi : Z) : list A :=
  let len := Z.of_nat (length l) in
  let lo := clamp len lo in
  let hi := clamp len hi in
  take (Z.to_nat (hi - lo)) (drop (Z.to_nat lo) l).
End Slice.

Section Sort.
Context {A K : Type} (leb : K -> K -> bool) (key : A -> K).

(** [x] goes in front of the first element whose key is not smaller, so
    before the elements of equal key that followed it in the input. *)
Fixpoint insert_by (x : A) (l : list A) : list A :=
  match l with
  | [] => [x]
  | y :: rest =>
      if leb (key x) (key y) then x :: l else y :: insert_by x rest
  end.

(** [l.sort(key=key)]: ascending and stable. *)
Definition sort_by (l : list A) : list A := foldr insert_by [] l.
End Sort.

(** Order of the pairs [(season, episode)]. *)
Definition pair_leb (a b : Z * Z) : bool :=
  (a.1 <? b.1) || ((a.1 =? b.1) && (a.2 <=? b.2)).

End PyList.

Import PyList.

(** ** Django's [Paginator] *)

Module Django.

Inductive page_error : Type := PageNotAnInteger | EmptyPage.

(** What a view hands to the paginator as a page number: the missing query
    parameter, its text, or an integer. *)
Inductive page_arg : Type :=
| ArgNone
| ArgStr (s : string)
| ArgInt (n : Z).

Record Page (A : Type) : Type := MkPage { page_items : list A; number : Z }.
Arguments MkPage {A} _ _.
Arguments page_items {A} _.
Arguments number {A} _.

Section Paginator.
Context {A : Type}.

(** [Paginator(object_list, per_page)], with no orphans and an empty
    first page allowed. *)
Record Paginator : Type :=
  MkPaginator { object_list : list A; per_page : Z }.

Definition orphans : Z := 0.
Definition allow_empty_first_page : bool := true.

Definition count (p : Paginator) : Z := Z.of_nat (length (object_list p)).

(** [ceil(hits / per_page)] *)
Definition num_pages (p : Paginator) : Z :=
  if (count p =? 0) && negb allow_empty_first_page then 0
  else
    let hits := Z.max 1 (count p - orphans) in
    - ((- hits) / per_page p).

(** [int(number)] *)
Definition int_of_arg (a : page_arg) : option Z :=
  match a with
  | ArgNone => None
  | ArgStr s => int (of_string s)
  | ArgInt n => Some n
  end.

Definition validate_number (p : Paginator) (a : page_arg)
    : page_error + Z :=
  match int_of_arg a with
  | None => inl PageNotAnInteger
  | Some n =>
      if n <? 1 then inl EmptyPage
      else if n >? num_pages p then
        if (n =? 1) && allow_empty_first_page then inr n
        else inl EmptyPage
      else inr n
  end.

Definition page (p : Paginator) (a : page_arg) : page_error + Page A :=
  match validate_number p a with
  | inl e => inl e
  | inr n =>
      let bottom := (n - 1) * per_page p in
      let top := bottom + per_page p in
      let top := if top + orphans >=? count p then count p else top in
      inr (MkPage (slice (object_list p) bottom top) n)
  end.

Definition get_page (p : Paginator) (a : page_arg) : page_error + Page A :=
  let n :=
    match validate_number p a with
    | inr n => n
    | inl PageNotAnInteger => 1
    | inl EmptyPage => num_pages p
    end in
  page p (ArgInt n).
End Paginator.
Arguments Paginator : clear implicits.

End Django.

Import Django.

(** ** Stored records *)

Record Playlist : Type := MkPlaylist {
  playlist_id : Z;
  playlist_name : string;
  playlist_category : option Z;
  playlist_created_at : option Z
}.

Record Movie : Type := MkMovie {
  movie_id : Z;
  title : option string;
  download_link : string;
  playlist : option Z;
  category : option Z;
  created_at : option Z
}.

Record DownloadLog : Type := MkDownloadLog {
  movie_title : option string;
  ip_address : option string;
  user_agent : string;
  user_email : option string;
  username : option string;
  download_time : Z
}.

Record InstallTracker : Type := MkInstallTracker {
  device_id : string;
  install_count : Z;
  deleted_count : Z;
  device_name : string;
  device_info : string;
  last_action : string;
  updated_at : Z
}.

(** The tables the views read and write. Movies and playlists are kept in
    the order in which an unordered query returns them; trackers are keyed
    by their unique [device_id]. *)
Record database : Type := MkDatabase {
  playlists : list Playlist;
  movies : list Movie;
  download_logs : list DownloadLog;
  trackers : gmap string InstallTracker
}.

(** ** Requests and responses *)

(** A value decoded from JSON, as the Python object [json.loads] builds
    (numbers with a fraction are left out). An object keeps its members in
    the order of the text. *)
#[warnings="-register-all"]
Inductive json : Type :=
| JNull
| JBool (b : bool)
| JInt (n : Z)
| JStr (s : string)
| JList (l : list json)
| JDict (members : list (string * json)).

(** What [json.loads(request.body)] does: it returns a value, raises
    [JSONDecodeError], or raises another exception (a body that is not
    valid UTF-8), of which [str(e)] is kept. *)
Inductive loaded : Type :=
| Loaded (data : json)
| JSONDecodeError
| LoadRaised (message : string).

Record User : Type := MkUser {
  is_authenticated : bool;
  email : string;
  user_name : string
}.

Record request : Type := MkRequest {
  body : loaded;
  HTTP_USER_AGENT : option string;
  HTTP_X_FORWARDED_FOR : option string;
  REMOTE_ADDR : option string;
  user : User;
  now : Z
}.

Inductive response (C : Type) : Type :=
| Http404
| Rendered (template : string) (context : C)
| Redirect (url : string)
| JsonResponse (status : Z) (data : json).
Arguments Http404 {C}.
Arguments Rendered {C} _ _.
Arguments Redirect {C} _.
Arguments JsonResponse {C} _ _.

(** An exception caught by the [except Exception as e] clause of a view,
    with [str(e)]. *)
Inductive exn : Type :=
| DecodeError
| OtherError (message : string).

(** Truth value of a decoded value. *)
Definition truthy (v : json) : bool :=
  match v with
  | JNull => false
  | JBool b => b
  | JInt n => negb (n =? 0)
  | JStr s => negb (String.eqb s "")
  | JList l => match l with [] => false | _ :: _ => true end
  | JDict m => match m with [] => false | _ :: _ => true end
  end.

(** A later member of the same name replaces an earlier one. *)
Fixpoint dict_get (k : string) (m : list (string * json)) : option json :=
  match m with
  | [] => None
  | (k', v) :: rest =>
      match dict_get k rest with
      | Some w => Some w
      | None => if String.eqb k' k then Some v else None
      end
  end.

Definition type_name (v : json) : string :=
  match v with
  | JNull => "NoneType"
  | JBool _ => "bool"
  | JInt _ => "int"
  | JStr _ => "str"
  | JList _ => "list"
  | JDict _ => "dict"
  end.

(** [data.get(k)]: [None] of Python is [JNull]; a value that is not a
    [dict] has no [get]. *)
Definition data_get (data : json) (k : string) : exn + json :=
  match data with
  | JDict m => inr (default JNull (dict_get k m))
  | _ => inl (OtherError
           ("'" +:+ type_name data +:+ "' object has no attribute 'get'"))
  end.

(** [request.META.get("HTTP_USER_AGENT", "")] *)
Definition meta_user_agent (r : request) : string :=
  default ""%string (HTTP_USER_AGENT r).

(** Sequencing of steps that may raise. *)
Notation "'let*' x ':=' e 'in' k" :=
  (match e with inl err => inl err | inr x => k end)
  (at level 10, x name, e at level 100, k at level 200, only parsing).

(** ** Listing pages ([home], [category_detail]) *)

Section Listing.
Context {A : Type}.

(** The pagination block shared by the two listings: 24 items per page;
    the handlers around [get_page] take over when it raises. *)
Definition paginate (items : list A) (page_number : page_arg)
    : page_error + Page A :=
  let paginator := MkPaginator items 24 in
  match get_page paginator page_number with
  | inr page_obj => inr page_obj
  | inl EmptyPage => get_page paginator (ArgInt (num_pages paginator))
  | inl _ => get_page paginator (ArgInt 1)
  end.

(** [request.GET.get('page')] *)
Definition query_page (page : option string) : page_arg :=
  match page with
  | Some s => ArgStr s
  | None => ArgNone
  end.

(** The [page_obj] that [home] renders for its sorted [combined_list]. *)
Definition home_page_obj (combined_list : list A) (page : option string)
    : page_error + Page A :=
  paginate combined_list (query_page page).

(** The [page_obj] that [category_detail] renders for its [items]. *)
Definition category_detail_page_obj (items : list A) (page : option string)
    : page_error + Page A :=
  paginate items (query_page page).
End Listing.

(** ** [playlist_detail] *)

(** [get_object_or_404(Playlist, id=playlist_id)] *)
Definition get_playlist (db : database) (id : Z) : option Playlist :=
  List.find (fun p => playlist_id p =? id) (playlists db).

(** [get_object_or_404(Movie, id=movie_id)] *)
Definition get_movie (db : database) (id : Z) : option Movie :=
  List.find (fun m => movie_id m =? id) (movies db).

(** [Movie.objects.filter(playlist=playlist)] *)
Definition movies_of_playlist (db : database) (p : Playlist) : list Movie :=
  List.filter
    (fun m => match playlist m with
              | Some id => id =? playlist_id p
              | None => false
              end)
    (movies db).

(** The loop over [movies[:5]] that stops at the first title with a leading
    order number. *)
Fixpoint has_numeric_order_loop (ms : list Movie) : bool :=
  match ms with
  | [] => false
  | movie :: rest =>
      if negb (extract_movie_order_number (title movie) =? 9999) then true
      else has_numeric_order_loop rest
  end.

Definition sort_movies (movies : list Movie) : list Movie :=
  let has_numeric_order := has_numeric_order_loop (slice movies 0 5) in
  if has_numeric_order
  then sort_by Z.leb (fun movie => extract_movie_order_number (title movie))
         movies
  else sort_by pair_leb (fun movie => extract_episode_number (title movie))
         movies.

Definition playlist_detail (db : database) (playlist_id : Z)
    : response (Playlist * list Movie) :=
  match get_playlist db playlist_id with
  | None => Http404
  | Some playlist =>
      let movies := movies_of_playlist db playlist in
      Rendered "playlist_detail.html" (playlist, sort_movies movies)
  end.

(** ** [download_movie] *)

Definition get_client_ip (r : request) : option string :=
  match HTTP_X_FORWARDED_FOR r with
  | Some x_forwarded_for =>
      if negb (String.eqb x_forwarded_for "")
      then Some (to_string (split_head "," (of_string x_forwarded_for)))
      else REMOTE_ADDR r
  | None => REMOTE_ADDR r
  end.

Definition add_download_log (row : DownloadLog) (db : database) : database :=
  MkDatabase (playlists db) (movies db) (download_logs db ++ [row])
    (trackers db).

(** What [redirect] lets escape: [NoReverseMatch] of [reverse],
    [DisallowedRedirect] of the response, and the exception raised while
    the scheme of the URL is read. *)
Inductive redirect_error : Type :=
| NoReverseMatch
| DisallowedRedirect
| UrlError.

(** [HttpResponseRedirect.allowed_schemes] *)
Definition allowed_schemes : list string := ["http"; "https"; "ftp"]%string.

Section Redirects.

(** [reverse(to)]: the URL of the pattern named [to] in the URL
    configuration of the project, [None] when it raises [NoReverseMatch]. *)
Variable reverse : string -> option string.

(** The scheme the response reads from a URL, empty when the URL has none;
    [None] when the reading raises. *)
Variable url_scheme : string -> option string.

(** [resolve_url(to)] for a [str]: a relative URL is kept; a name of a URL
    pattern gives the URL of the pattern; any other text is kept when it
    has a slash or a dot, and refused otherwise. *)
Definition resolve_url (to : string) : redirect_error + string :=
  if starts_with (py "./") (of_string to)
     || starts_with (py "../") (of_string to)
  then inr to
  else
    match reverse to with
    | Some url => inr url
    | None =>
        if negb (contains (py "/") (of_string to))
           && negb (contains (py ".") (of_string to))
        then inl NoReverseMatch
        else inr to
    end.

(** [HttpResponseRedirect(redirect_to)] *)
Definition HttpResponseRedirect {C : Type} (redirect_to : string)
    : redirect_error + response C :=
  match url_scheme redirect_to with
  | None => inl UrlError
  | Some scheme =>
      if negb (String.eqb scheme "")
         && negb (existsb (String.eqb scheme) allowed_schemes)
      then inl DisallowedRedirect
      else inr (Redirect redirect_to)
  end.

(** [redirect(to)] *)
Definition redirect {C : Type} (to : string) : redirect_error + response C :=
  let* url := resolve_url to in
  HttpResponseRedirect url.

(** The row is created before [redirect] is called, so it is there whatever
    [redirect] does. *)
Definition download_movie (db : database) (r : request) (movie_id : Z)
    : database * (redirect_error + response unit) :=
  match get_movie db movie_id with
  | None => (db, inr Http404)
  | Some movie =>
      let ip := get_client_ip r in
      let agent := meta_user_agent r in
      let user_email :=
        if is_authenticated (user r) then Some (email (user r)) else None in
      let username :=
        if is_authenticated (user r) then Some (user_name (user r))
        else None in
      let row := MkDownloadLog (title movie) ip agent user_email username
                   (now r) in
      (add_download_log row db, redirect (download_link movie))
  end.

End Redirects.

(** ** Install tracking *)

Definition detect_device_name (user_agent : string) : string :=
  let ua := lower (of_string user_agent) in
  if contains (py "windows") ua then "Windows PC/Laptop"
  else if contains (py "android") ua then "Android"
  else if contains (py "iphone") ua || contains (py "ipad") ua
          || contains (py "ios") ua then "iOS"
  else if contains (py "mac") ua then "Mac"
  else "Unknown".

Definition set_install_count (v : Z) (t : InstallTracker) : InstallTracker :=
  MkInstallTracker (device_id t) v (deleted_count t) (device_name t)
    (device_info t) (last_action t) (updated_at t).

Definition set_deleted_count (v : Z) (t : InstallTracker) : InstallTracker :=
  MkInstallTracker (device_id t) (install_count t) v (device_name t)
    (device_info t) (last_action t) (updated_at t).

Definition set_device_name (v : string) (t : InstallTracker)
    : InstallTracker :=
  MkInstallTracker (device_id t) (install_count t) (deleted_count t) v
    (device_info t) (last_action t) (updated_at t).

Definition set_last_action (v : string) (t : InstallTracker)
    : InstallTracker :=
  MkInstallTracker (device_id t) (install_count t) (deleted_count t)
    (device_name t) (device_info t) v (updated_at t).

Definition set_updated_at (v : Z) (t : InstallTracker) : InstallTracker :=
  MkInstallTracker (device_id t) (install_count t) (deleted_count t)
    (device_name t) (device_info t) (last_action t) v.

(** [tracker.save()] *)
Definition save_tracker (t : InstallTracker) (db : database) : database :=
  MkDatabase (playlists db) (movies db) (download_logs db)
    (<[device_id t := t]> (trackers db)).

(** [InstallTracker.objects.filter(install_count=1).count()] *)
Definition total_active_installs (db : database) : Z :=
  Z.of_nat (size (filter (fun kt => install_count kt.2 = 1) (trackers db))).

Section Tracking.

(** The text a value takes in a text column of [InstallTracker]; the
    declaration of the columns is in the models of the application. *)
Variable db_text : json -> string.

(** The body of the [try] block of [track_install], for a POST request
    (the decorators answer the other methods). Every column of a row made
    by [get_or_create] is assigned before the row is saved. *)
Definition track_install_try (db : database) (r : request)
    : exn + database * response unit :=
  match body r with
  | JSONDecodeError => inl DecodeError
  | LoadRaised message => inl (OtherError message)
  | Loaded data =>
      let* device_id_str := data_get data "device_id" in
      let* name := data_get data "device_name" in
      let device_name :=
        if truthy name then name
        else JStr (detect_device_name (meta_user_agent r)) in
      if negb (truthy device_id_str) then
        inr (db, JsonResponse 400
                   (JDict [("status", JStr "error");
                           ("message", JStr "Device ID missing")]))
      else
        let key := db_text device_id_str in
        let '(tracker, action_message) :=
          match trackers db !! key with
          | None =>
              (MkInstallTracker key 1 0 (db_text device_name)
                 (meta_user_agent r) "install" 0,
               "New install tracked"%string)
          | Some tracker =>
              if install_count tracker =? 0 then
                (set_last_action "reinstall"
                   (set_device_name (db_text device_name)
                      (set_install_count 1 tracker)),
                 "Re-install tracked (count restored)"%string)
              else
                (set_device_name (db_text device_name)
                   (set_last_action "install (re-open)" tracker),
                 "Already tracked (count maintained)"%string)
          end in
        let tracker := set_updated_at (now r) tracker in
        let db := save_tracker tracker db in
        inr (db, JsonResponse 200
                   (JDict [("status", JStr "success");
                           ("message", JStr action_message);
                           ("device", device_name);
                           ("total_active_installs",
                            JInt (total_active_installs db))]))
  end.

Definition track_install (db : database) (r : request)
    : database * response unit :=
  match track_install_try db r with
  | inr result => result
  | inl DecodeError =>
      (db, JsonResponse 400
             (JDict [("status", JStr "error");
                     ("message", JStr "Invalid JSON")]))
  | inl (OtherError e) =>
      (db, JsonResponse 500
             (JDict [("status", JStr "error"); ("message", JStr e)]))
  end.

(** The body of the outer [try] block of [track_uninstall]. *)
Definition track_uninstall_try (db : database) (r : request)
    : exn + database * response unit :=
  match body r with
  | JSONDecodeError => inl DecodeError
  | LoadRaised message => inl (OtherError message)
  | Loaded data =>
      let* device_id_str := data_get data "device_id" in
      if negb (truthy device_id_str) then
        inr (db, JsonResponse 400
                   (JDict [("success", JBool false);
                           ("message", JStr "Device ID is required")]))
      else
        match trackers db !! db_text device_id_str with
        | Some tracker =>
            let db :=
              if install_count tracker =? 1 then
                save_tracker
                  (set_updated_at (now r)
                     (set_last_action "uninstall"
                        (set_deleted_count (deleted_count tracker + 1)
                           (set_install_count 0 tracker))))
                  db
              else db in
            inr (db, JsonResponse 200
                       (JDict [("success", JBool true);
                               ("message", JStr "Uninstall tracked");
                               ("total_active_installs",
                                JInt (total_active_installs db))]))
        | None =>
            inr (db, JsonResponse 200
                       (JDict [("success", JBool true);
                               ("message",
                                JStr "Tracker not found, but uninstall acknowledged")]))
        end
  end.

Definition track_uninstall (db : database) (r : request)
    : database * response unit :=
  match track_uninstall_try db r with
  | inr result => result
  | inl DecodeError =>
      (db, JsonResponse 400
             (JDict [("success", JBool false);
                     ("message", JStr "Invalid JSON")]))
  | inl (OtherError e) =>
      (db, JsonResponse 500
             (JDict [("success", JBool false);
                     ("message", JStr "Server error")]))
  end.

(** A call of one of the two tracking endpoints. *)
Inductive call : Type :=
| Install (r : request)
| Uninstall (r : request).

Definition step (db : database) (c : call) : database :=
  match c with
  | Install r => (track_install db r).1
  | Uninstall r => (track_uninstall db r).1
  end.

Definition run_calls (db : database) (cs : list call) : database :=
  fold_left step cs db.

End Tracking.

(** ** The other views *)

Record Category : Type := MkCategory {
  category_id : Z;
  category_name : string
}.

(** An entry of a listing: a playlist or a movie. *)
Inductive media : Type :=
| MediaPlaylist (p : Playlist)
| MediaMovie (m : Movie).

Definition media_created_at (x : media) : option Z :=
  match x with
  | MediaPlaylist p => playlist_created_at p
  | MediaMovie m => created_at m
  end.

(** [timezone.datetime.min.replace(tzinfo=timezone.utc)], a time being the
    number of microseconds since the epoch. *)
Definition datetime_min : Z := -62135596800000000.

(** [x.created_at or datetime.min]: the right operand, with its
    [timezone.utc], is evaluated for an entry without creation time only. *)
Definition created_key (x : media) : Z :=
  default datetime_min (media_created_at x).

(** [l.sort(key=..., reverse=True)] on the creation time: descending, the
    entries of one time keeping their order. *)
Definition newest_first (l : list media) : list media :=
  sort_by (fun a b => b <=? a) created_key l.

(** [if query:] for the value of [request.GET.get("q")]. *)
Definition query_given (query : option string) : bool :=
  match query with
  | Some q => negb (String.eqb q "")
  | None => false
  end.

(** The value of [query and not combined_list]: the query itself when it
    is false, the truth value of the emptiness otherwise. *)
Inductive not_found_value : Type :=
| NotFoundQuery (query : option string)
| NotFoundBool (b : bool).

Definition not_found_truth (v : not_found_value) : bool :=
  match v with
  | NotFoundQuery query => query_given query
  | NotFoundBool b => b
  end.

Record home_context : Type := MkHomeContext {
  home_media_items : Page media;
  home_categories : list Category;
  home_query : option string;
  home_not_found : not_found_value;
  home_page_obj_shown : Page media
}.

Record category_context : Type := MkCategoryContext {
  shown_category : Category;
  shown_items : Page media;
  shown_query : option string;
  shown_page_obj : Page media
}.

(** What a listing view lets escape. *)
Inductive view_error : Type :=
| AttributeError (message : string)
| PageError (e : page_error).

(** [[m for m in movies if q in m.title.lower()]]: a title that is [None]
    has no [lower]. *)
Fixpoint movies_with_title (q : str) (movies : list Movie)
    : view_error + list Movie :=
  match movies with
  | [] => inr []
  | m :: rest =>
      match title m with
      | None =>
          inl (AttributeError "'NoneType' object has no attribute 'lower'")
      | Some t =>
          let* kept := movies_with_title q rest in
          inr (if contains q (lower (of_string t)) then m :: kept else kept)
      end
  end.

(** [get_object_or_404(Category, id=category_id)] *)
Definition get_category (categories : list Category) (id : Z)
    : option Category :=
  List.find (fun c => category_id c =? id) categories.

Section Listings.

(** [icontains query text]: the lookup [column__icontains=query] of the
    database on a text that is not null. *)
Variable icontains : string -> string -> bool.

Definition name_icontains (q : string) (p : Playlist) : bool :=
  icontains q (playlist_name p).

Definition title_icontains (q : string) (m : Movie) : bool :=
  match title m with
  | Some t => icontains q t
  | None => false
  end.

(** The [combined_list] of [home] before it is sorted. *)
Definition home_matches (db : database) (query : option string)
    : list media :=
  let all_playlists := playlists db in
  let all_movies :=
    List.filter
      (fun m => match playlist m with None => true | Some _ => false end)
      (movies db) in
  let q := default ""%string query in
  let all_playlists :=
    if query_given query then List.filter (name_icontains q) all_playlists
    else all_playlists in
  let all_movies :=
    if query_given query then List.filter (title_icontains q) all_movies
    else all_movies in
  map MediaPlaylist all_playlists ++ map MediaMovie all_movies.

Definition home (db : database) (categories : list Category)
    (query page : option string) : page_error + response home_context :=
  let combined_list := newest_first (home_matches db query) in
  let* page_obj := home_page_obj combined_list page in
  let not_found :=
    if query_given query
    then NotFoundBool (match combined_list with [] => true | _ :: _ => false end)
    else NotFoundQuery query in
  inr (Rendered "home.html"
         (MkHomeContext page_obj categories query not_found page_obj)).

(** The [items] of [category_detail] before they are cut in pages. *)
Definition category_items (db : database) (cat : Category)
    (query : option string) : view_error + list media :=
  let movies :=
    List.filter
      (fun m => match category m with
                | Some id => id =? category_id cat
                | None => false
                end)
      (movies db) in
  let playlists :=
    List.filter
      (fun p => match playlist_category p with
                | Some id => id =? category_id cat
                | None => false
                end)
      (playlists db) in
  let q := default ""%string query in
  let* movies :=
    if query_given query
    then movies_with_title (lower (of_string q)) movies
    else inr movies in
  let playlists :=
    if query_given query then List.filter (name_icontains q) playlists
    else playlists in
  let has_numeric_order := has_numeric_order_loop (slice movies 0 5) in
  let movies :=
    if has_numeric_order
    then sort_by Z.leb
           (fun movie => extract_movie_order_number (title movie)) movies
    else movies in
  let items := map MediaMovie movies ++ map MediaPlaylist playlists in
  inr (if has_numeric_order then items else newest_first items).

Definition category_detail (db : database) (categories : list Category)
    (id : Z) (query page : option string)
    : view_error + response category_context :=
  match get_category categories id with
  | None => inr Http404
  | Some cat =>
      let* items := category_items db cat query in
      match category_detail_page_obj items page with
      | inl e => inl (PageError e)
      | inr page_obj =>
          inr (Rendered "category_detail.html"
                 (MkCategoryContext cat page_obj query page_obj))
      end
  end.

End Listings.

Definition movie_detail (db : database) (id : Z) : response Movie :=
  match get_movie db id with
  | None => Http404
  | Some movie => Rendered "movie_detail.html" movie
  end.

(** [@staff_member_required]: the view runs for an active staff user, and
    any other user is sent to the login page of the admin. *)
Definition staff_member_required {C : Type} (staff : bool) (login : string)
    (view : database -> database * response C) (db : database)
    : database * response C :=
  if staff then view db else (db, Redirect login).

(** [InstallTracker.objects.all().delete()] *)
Definition delete_all_trackers (db : database) : database :=
  MkDatabase (playlists db) (movies db) (download_logs db) ∅.

Definition reset_install_data (staff : bool) (login : string)
    : database -> database * response unit :=
  staff_member_required staff login
    (fun db =>
       (delete_all_trackers db,
        JsonResponse 200
          (JDict [("status", JStr "success");
                  ("message", JStr "All install data has been reset.")]))).

(** ** Reference definitions used to state the properties *)

(** The longest prefix of [s] made of characters of the class [p], and what
    follows it. *)
Fixpoint take_while (p : ascii -> bool) (s : str) : str :=
  match s with
  | c :: rest => if p c then c :: take_while p rest else []
  | [] => []
  end.

Fixpoint drop_while (p : ascii -> bool) (s : str) : str :=
  match s with
  | c :: rest => if p c then drop_while p rest else s
  | [] => []
  end.

Definition all_digits (ds : str) : Prop :=
  ds <> [] /\ Forall (fun c => is_digit c = true) ds.

(** [s] starts with the token [ds.]: a non-empty run of digits and a dot. *)
Definition order_token (s ds : str) : Prop :=
  all_digits ds /\ exists rest, s = ds ++ "."%char :: rest.

(** The number a run of digits writes, when [int] reads it: a run of more
    than [int_max_str_digits] digits is not read. *)
Definition number_of (ds : str) : option Z :=
  if Z.of_nat (length ds) <=? int_max_str_digits
  then Some (digits_value 0 ds)
  else None.

(** The digits of the leading token of [s], when it has one. *)
Definition leading_order_token (s : str) : option str :=
  match take_while is_digit s, drop_while is_digit s with
  | c :: ds, "."%char :: _ => Some (c :: ds)
  | _, _ => None
  end.

(** The order of Python on pairs of integers. *)
Definition pair_le (a b : Z * Z) : Prop :=
  a.1 < b.1 \/ (a.1 = b.1 /\ a.2 <= b.2).


(** *** Links that [redirect] follows *)





(** *** Season and episode markers *)

(** The pattern of a marker: the letter, optionally the rest of the word,
    optional whitespace, digits. *)
Definition marker_re (letter : ascii) (word : str) : regex :=
  Cat (Lit letter) (Cat (Opt (Word word))
    (Cat (Star is_space) (Group (Plus is_digit)))).

(** Optional whitespace and then digits at the start of [s]: the text they
    take and the digits. *)
Definition digits_after_spaces (s : str) : option (str * str) :=
  match take_while is_digit (drop_while is_space s) with
  | [] => None
  | d :: ds => Some (take_while is_space s ++ d :: ds, d :: ds)
  end.

(** A marker at the start of [s]: its text and its digits. The long form
    is preferred to the letter alone. *)
Definition marker_here (letter : ascii) (word s : str) : option (str * str) :=
  match s with
  | c :: rest =>
      if Ascii.eqb c letter then
        match (if starts_with word rest
               then digits_after_spaces (drop (length word) rest)
               else None) with
        | Some (text, ds) => Some (c :: word ++ text, ds)
        | None =>
            match digits_after_spaces rest with
            | Some (text, ds) => Some (c :: text, ds)
            | None => None
            end
        end
      else None
  | [] => None
  end.

(** The match object of a marker given by its text and its digits. *)
Definition marker_match (m : str * str) : match_obj :=
  MatchObj m.1 (Some m.2).

(** The first marker of [s], wherever the letter stands. *)
Fixpoint first_marker (letter : ascii) (word s : str) : option (str * str) :=
  match marker_here letter word s with
  | Some m => Some m
  | None =>
      match s with
      | _ :: rest => first_marker letter word rest
      | [] => None
      end
  end.

Definition starts_with_word_char (s : str) : bool :=
  match s with
  | c :: _ => is_word c
  | [] => false
  end.

(** A standalone integer at the start of [s]: a run of digits with no word
    character before it ([prev] tells whether there is one) or after it. *)
Definition standalone_here (prev : bool) (s : str) : option str :=
  match s with
  | c :: rest =>
      if negb prev && is_digit c
         && negb (starts_with_word_char (drop_while is_digit rest))
      then Some (c :: take_while is_digit rest)
      else None
  | [] => None
  end.

(** The match object of a standalone integer. *)
Definition number_match (ds : str) : match_obj := MatchObj ds (Some ds).

Fixpoint first_standalone (prev : bool) (s : str) : option str :=
  match standalone_here prev s with
  | Some ds => Some ds
  | None =>
      match s with
      | c :: rest => first_standalone (is_word c) rest
      | [] => None
      end
  end.

(** The number of a marker, when there is a marker and its number is
    read. *)
Definition marker_number (m : option (str * str)) : option Z :=
  match m with
  | Some (_, ds) => number_of ds
  | None => None
  end.

(** The pair of the claim, with a marker read as the code reads it: the
    season of the first season marker (1 without one, or when its number
    is not read), the episode of the first episode marker, and without an
    episode marker whose number is read the first standalone integer left
    once the text of the season marker is removed (9999 when there is none,
    when it is not read, or without a season marker). *)
Definition season_episode_by_markers (title : str) : Z * Z :=
  let t := lower title in
  let season := first_marker "s" (py "eason") t in
  let episode := first_marker "e" (py "pisode") t in
  (default 1 (marker_number season),
   match marker_number episode with
   | Some n => n
   | None =>
       match season with
       | Some (text, _) =>
           match first_standalone false (remove_all text t) with
           | Some ds => default 9999 (number_of ds)
           | None => 9999
           end
       | None => 9999
       end
   end).

(** The title has an episode marker that reads 9999 and a season marker. *)
Definition episode_9999_with_season (title : str) : Prop :=
  let t := lower title in
  exists text ds,
    first_marker "e" (py "pisode") t = Some (text, ds)
    /\ number_of ds = Some 9999
    /\ first_marker "s" (py "eason") t <> None.

(** A marker as the words of the claim put it: the letter with the digits
    right after it ("sN", "eN"), or the whole word, whitespace and the
    digits ("season N", "episode N"). *)
Definition stated_marker_here (letter : ascii) (word s : str)
    : option (str * str) :=
  match s with
  | c :: rest =>
      if Ascii.eqb c letter then
        match (if starts_with word rest
               then digits_after_spaces (drop (length word) rest)
               else None) with
        | Some (text, ds) => Some (c :: word ++ text, ds)
        | None =>
            match take_while is_digit rest with
            | [] => None
            | d :: ds => Some (c :: d :: ds, d :: ds)
            end
        end
      else None
  | [] => None
  end.

Fixpoint first_stated_marker (letter : ascii) (word s : str)
    : option (str * str) :=
  match stated_marker_here letter word s with
  | Some m => Some m
  | None =>
      match s with
      | _ :: rest => first_stated_marker letter word rest
      | [] => None
      end
  end.

(** Season and episode of a title under that reading of the markers. *)
Definition season_episode_as_stated (title : str) : Z * Z :=
  let t := lower title in
  let season := first_stated_marker "s" (py "eason") t in
  let episode := first_stated_marker "e" (py "pisode") t in
  (match season with
   | Some (_, ds) => digits_value 0 ds
   | None => 1
   end,
   match episode with
   | Some (_, ds) => digits_value 0 ds
   | None =>
       match season with
       | Some (text, _) =>
           match first_standalone false (remove_all text t) with
           | Some ds => digits_value 0 ds
           | None => 9999
           end
       | None => 9999
       end
   end).

(** *** Install tracking *)

(** Every row is stored under its own [device_id]. *)
Definition keyed_by_device_id (db : database) : Prop :=
  forall k t, trackers db !! k = Some t -> device_id t = k.

Definition install_count_0_or_1 (db : database) : Prop :=
  forall k t, trackers db !! k = Some t ->
    install_count t = 0 \/ install_count t = 1.

(** The request carries a JSON object whose [device_id] is a true value
    stored as the text [d]. *)
Definition names_device (db_text : json -> string) (r : request) (d : string)
    : Prop :=
  exists m v, body r = Loaded (JDict m)
    /\ dict_get "device_id" m = Some v
    /\ truthy v = true
    /\ db_text v = d.

(** The request carries a JSON object without a true [device_id]. *)
Definition lacks_device_id (r : request) : Prop :=
  exists m, body r = Loaded (JDict m)
    /\ truthy (default JNull (dict_get "device_id" m)) = false.

(** The device name a request resolves to: the [device_name] of the body
    when it is a true value, the name detected from the user agent
    otherwise. *)
Definition request_device_name (db_text : json -> string) (r : request)
    : string :=
  match body r with
  | Loaded (JDict m) =>
      let name := default JNull (dict_get "device_name" m) in
      db_text (if truthy name then name
               else JStr (detect_device_name (meta_user_agent r)))
  | _ => ""
  end.

(** What one call may do to the row of one device: nothing, create it with
    [install_count] 1 and [deleted_count] 0 (an install), leave
    [deleted_count] alone while [install_count] stays or goes from 0 to 1,
    or take [install_count] from 1 to 0 and add one to [deleted_count] (an
    uninstall). *)
Definition row_step (c : call) (before after : option InstallTracker)
    : Prop :=
  match before, after with
  | None, None => True
  | None, Some t' =>
      (exists r, c = Install r)
      /\ install_count t' = 1 /\ deleted_count t' = 0
  | Some t, Some t' =>
      (deleted_count t' = deleted_count t
       /\ (install_count t' = install_count t
           \/ (install_count t = 0 /\ install_count t' = 1)))
      \/ ((exists r, c = Uninstall r)
          /\ install_count t = 1 /\ install_count t' = 0
          /\ deleted_count t' = deleted_count t + 1)
  | Some _, None => False
  end.

(** The member [message] of a JSON response. *)
Definition response_message {C : Type} (resp : response C) : option json :=
  match resp with
  | JsonResponse _ (JDict m) => dict_get "message" m
  | _ => None
  end.

Definition response_status {C : Type} (resp : response C) : option Z :=
  match resp with
  | JsonResponse status _ => Some status
  | _ => None
  end.

(** *** Sample data *)

(** A reading of the text columns for the examples, which store strings
    only: a string is stored as it is. *)
Definition column_text (v : json) : string :=
  match v with
  | JStr s => s
  | _ => ""
  end.

Definition anonymous : User := MkUser false "" "".

(** A POST request with the decoded body [data], received at [time]. *)
Definition post (data : loaded) (time : Z) : request :=
  MkRequest data None None None anonymous time.

Definition empty_db : database := MkDatabase [] [] [] ∅.

Definition sample_install : request :=
  post (Loaded (JDict [("device_id"%string, JStr "abc")])) 10.

Definition sample_uninstall : request :=
  post (Loaded (JDict [("device_id"%string, JStr "abc")])) 20.

(** An install that also gives a device name. *)
Definition sample_reopen : request :=
  post (Loaded (JDict [("device_id"%string, JStr "abc");
                       ("device_name"%string, JStr "iOS")])) 30.

(** A body that is JSON but not an object. *)
Definition sample_list_body : request := post (Loaded (JList [])) 40.

(** A body that is not JSON. *)
Definition sample_bad_body : request := post JSONDecodeError 50.

(** An object without [device_id]. *)
Definition sample_no_id : request :=
  post (Loaded (JDict [("device_name"%string, JStr "iOS")])) 60.

(** One device, installed from an Android phone. *)
Definition sample_db : database :=
  MkDatabase [] [] []
    {[ "abc"%string :=
         MkInstallTracker "abc" 1 0 "Android" "Mozilla/5.0 (Linux; Android 14)"
           "install" 5 ]}.

(** A playlist of three episodes and a film outside it. *)
Definition sample_catalog : database :=
  MkDatabase
    [MkPlaylist 1 "Series" None (Some 1)]
    [MkMovie 11 (Some "Season 1 Episode 2"%string) "https://cdn.example/e2"
       (Some 1) None (Some 3);
     MkMovie 12 (Some "Season 1 Episode 1"%string) "https://cdn.example/e1"
       (Some 1) None (Some 2);
     MkMovie 13 (Some "10. Film"%string) "https://cdn.example/film"
       None None (Some 4)]
    [] ∅.

(** A number of 4301 digits, one more than [int] reads. *)
Definition long_number : str := repeat "1"%char 4301.

(** A project without a URL pattern that a link would name. *)
Definition no_url_names (to : string) : option string := None.

Definition scheme_char (c : ascii) : bool :=
  between 65 90 c || between 97 122 c || is_digit c
  || Ascii.eqb c "+" || Ascii.eqb c "-" || Ascii.eqb c ".".

(** A reading of the scheme for the examples: the text before the first
    colon, in lower case, when it starts with a letter and is made of
    letters, digits, "+", "-" and "."; no scheme otherwise. *)
Definition sample_url_scheme (url : string) : option string :=
  let u := of_string url in
  let head := split_head ":" u in
  Some (if contains (py ":") u && forallb scheme_char head
           && match head with
              | c :: _ => between 65 90 c || between 97 122 c
              | [] => false
              end
        then to_string (lower head) else ""%string).


(** A browser behind two proxies, with a signed-in user. *)
Definition sample_download : request :=
  MkRequest JSONDecodeError (Some "Mozilla/5.0"%string)
    (Some "203.0.113.7, 10.0.0.1"%string) (Some "10.0.0.1"%string)
    (MkUser true "ann@example.org" "ann") 70.

(** *** Definitions for the further properties *)

(** The items of the page a listing shows, none when it raises. *)
Definition items_shown {A : Type} (r : page_error + Page A) : list A :=
  match r with
  | inr pg => page_items pg
  | inl _ => []
  end.

(** [s] has [sub] as a substring. *)
Definition substring (sub s : str) : Prop :=
  exists pre post, s = pre ++ sub ++ post.

(** A member of the object a JSON response carries. *)
Definition response_member {C : Type} (k : string) (resp : response C)
    : option json :=
  match resp with
  | JsonResponse _ (JDict m) => dict_get k m
  | _ => None
  end.

(** Whether a row counts as an active install. *)
Definition active (found : option InstallTracker) : Z :=
  match found with
  | Some t => if install_count t =? 1 then 1 else 0
  | None => 0
  end.

(** The call carries a body that names the device [d]. *)
Definition call_names (db_text : json -> string) (c : call) (d : string)
    : Prop :=
  match c with
  | Install r => names_device db_text r d
  | Uninstall r => names_device db_text r d
  end.

(** The row [track_install] saves for the device [d], from the row it
    finds for it. *)
Definition installed_row (db_text : json -> string) (r : request)
    (d : string) (found : option InstallTracker) : InstallTracker :=
  match found with
  | None =>
      MkInstallTracker d 1 0 (request_device_name db_text r)
        (meta_user_agent r) "install" (now r)
  | Some t =>
      if install_count t =? 0 then
        MkInstallTracker (device_id t) 1 (deleted_count t)
          (request_device_name db_text r) (device_info t) "reinstall" (now r)
      else
        MkInstallTracker (device_id t) (install_count t) (deleted_count t)
          (request_device_name db_text r) (device_info t)
          "install (re-open)" (now r)
  end.

(** The message of [track_install], from the row it finds. *)
Definition install_message (found : option InstallTracker) : string :=
  match found with
  | None => "New install tracked"
  | Some t =>
      if install_count t =? 0 then "Re-install tracked (count restored)"
      else "Already tracked (count maintained)"
  end.

(** The row [track_uninstall] saves over an installed row [t]. *)
Definition uninstalled_row (r : request) (t : InstallTracker)
    : InstallTracker :=
  MkInstallTracker (device_id t) 0 (deleted_count t + 1) (device_name t)
    (device_info t) "uninstall" (now r).

(** [n] rounds of an install followed by an uninstall. *)
Fixpoint install_uninstall_rounds (n : nat) (ri ru : request) : list call :=
  match n with
  | O => []
  | S k => Install ri :: Uninstall ru :: install_uninstall_rounds k ri ru
  end.

(** A run of [download_movie] calls, each with its request and movie id. *)
Definition run_downloads (reverse url_scheme : string -> option string)
    (db : database) (calls : list (request * Z)) : database :=
  fold_left (fun db c => (download_movie reverse url_scheme db c.1 c.2).1)
    calls db.

(** The calls of a run that find their movie. *)
Definition downloads_found (db : database) (calls : list (request * Z))
    : list (request * Z) :=
  List.filter
    (fun c => match get_movie db c.2 with Some _ => true | None => false end)
    calls.

(** The entries of a forwarding header joined by commas. *)
Fixpoint join_entries (first : str) (others : list str) : str :=
  match others with
  | [] => first
  | e :: rest => first ++ ","%char :: join_entries e rest
  end.

(** The movies and the playlists of a category, as they are fetched. *)
Definition movies_of_category (db : database) (cat : Category)
    : list Movie :=
  List.filter
    (fun m => match category m with
              | Some id => id =? category_id cat
              | None => false
              end)
    (movies db).

Definition playlists_of_category (db : database) (cat : Category)
    : list Playlist :=
  List.filter
    (fun p => match playlist_category p with
              | Some id => id =? category_id cat
              | None => false
              end)
    (playlists db).

(** The lowercased title of the movie contains [q]. *)
Definition title_has (q : str) (m : Movie) : bool :=
  match title m with
  | Some t => contains q (lower (of_string t))
  | None => false
  end.

(** The movies that belong to no playlist. *)
Definition movies_without_playlist (db : database) : list Movie :=
  List.filter
    (fun m => match playlist m with None => true | Some _ => false end)
    (movies db).

(** A database with many entries: fifty movies outside playlists, created
    one after the other. *)
Definition sample_fifty : database :=
  MkDatabase []
    (map (fun n => MkMovie (Z.of_nat n) (Some "Film"%string)
                     "https://cdn.example/f" None (Some 2)
                     (Some (Z.of_nat n)))
       (seq 0 50))
    [] ∅.

(** Two categories: numbered films and a newer playlist in the first, a
    film without title and an older playlist in the second. *)
Definition sample_categories : list Category :=
  [MkCategory 1 "Action"; MkCategory 2 "Drama"].

Definition sample_second : Movie :=
  MkMovie 21 (Some "2. Second"%string) "https://cdn.example/2" None (Some 1)
    (Some 5).

Definition sample_first : Movie :=
  MkMovie 22 (Some "1. First"%string) "https://cdn.example/1" None (Some 1)
    (Some 9).

Definition sample_untitled : Movie :=
  MkMovie 23 None "https://cdn.example/3" None (Some 2) (Some 50).

Definition sample_saga : Playlist := MkPlaylist 5 "Saga" (Some 1) (Some 100).

Definition sample_old_list : Playlist :=
  MkPlaylist 6 "Old list" (Some 2) (Some 1).

Definition sample_shelves : database :=
  MkDatabase [sample_saga; sample_old_list]
    [sample_second; sample_first; sample_untitled] [] ∅.

(** Calls of a second device. *)
Definition sample_other_install : request :=
  post (Loaded (JDict [("device_id"%string, JStr "xyz")])) 15.

Definition sample_other_uninstall : request :=
  post (Loaded (JDict [("device_id"%string, JStr "xyz")])) 25.

(** A playlist in which the second episode is stored twice, around the
    first. *)
Definition sample_twice : database :=
  MkDatabase
    [MkPlaylist 1 "Series" None (Some 1)]
    [MkMovie 41 (Some "Episode 2 (HD)"%string) "https://cdn.example/2hd"
       (Some 1) None (Some 3);
     MkMovie 42 (Some "Episode 1"%string) "https://cdn.example/1"
       (Some 1) None (Some 2);
     MkMovie 43 (Some "Episode 2 (SD)"%string) "https://cdn.example/2sd"
       (Some 1) None (Some 4)]
    [] ∅.

(** A lookup that compares the lowercased texts. *)
Definition sample_icontains (q text : string) : bool :=
  contains (lower (of_string q)) (lower (of_string text)).

(** * Properties *)

(** ** Characters and strings *)

Ltac by_cases_on_char c :=
  destruct c as [[] [] [] [] [] [] [] []]; vm_compute; try congruence; auto.

Lemma digit_not_space c : is_digit c = true -> is_space c = false.
Proof. by_cases_on_char c. Qed.

Lemma space_not_digit c : is_space c = true -> is_digit c = false.
Proof. by_cases_on_char c. Qed.

Lemma digit_is_word c : is_digit c = true -> is_word c = true.
Proof. by_cases_on_char c. Qed.

Lemma digit_is_ascii c : is_digit c = true -> (code c <? 128)%N = true.
Proof. by_cases_on_char c. Qed.

Lemma digit_not_c_space c : is_digit c = true -> is_c_space c = false.
Proof. by_cases_on_char c. Qed.

Lemma digit_not_dot c : is_digit c = true -> Ascii.eqb c "." = false.
Proof. by_cases_on_char c. Qed.

Lemma digit_not_sign c :
  is_digit c = true -> c <> "+"%char /\ c <> "-"%char.
Proof. by_cases_on_char c; intros _; split; discriminate. Qed.

Lemma take_drop_while p s : take_while p s ++ drop_while p s = s.
Proof. induction s as [|c s IH]; simpl; [done|]. destruct (p c); simpl; congruence. Qed.

Lemma take_while_all p s : Forall (fun c => p c = true) (take_while p s).
Proof.
  induction s as [|c s IH]; simpl; [constructor|].
  destruct (p c) eqn:E; [by constructor | constructor].
Qed.

(** A run of the class followed by a character outside it is the longest
    prefix in the class. *)
Lemma take_while_app p ds s :
  Forall (fun c => p c = true) ds ->
  match s with c :: _ => p c = false | [] => True end ->
  take_while p (ds ++ s) = ds /\ drop_while p (ds ++ s) = s.
Proof.
  intros Hds Hs. induction Hds as [|c ds Hc _ IH]; simpl.
  - destruct s as [|c s]; simpl; [done|]. by rewrite Hs.
  - rewrite Hc. destruct IH as [-> ->]. done.
Qed.

Lemma consumed_app (x y : str) : consumed (x ++ y) y = x.
Proof.
  unfold consumed. rewrite length_app.
  replace (length x + length y - length y)%nat with (length x) by lia.
  apply take_app_length.
Qed.

Lemma consumed_cons_app c (x y : str) : consumed (c :: x ++ y) y = c :: x.
Proof. apply (consumed_app (c :: x) y). Qed.

(** ** [int] on a run of digits *)

Lemma int_body_digits acc n ds :
  Forall (fun c => is_digit c = true) ds ->
  int_body acc n false ds
  = int_within_limit (n + Z.of_nat (length ds)) (digits_value acc ds).
Proof.
  intros H. revert acc n.
  induction H as [|c ds Hc _ IH]; intros acc n;
    cbn [int_body digits_value length].
  - by rewrite Z.add_0_r.
  - rewrite Hc, IH. f_equal. lia.
Qed.

Lemma int_within_limit_number_of ds :
  int_within_limit (Z.of_nat (length ds)) (digits_value 0 ds) = number_of ds.
Proof.
  unfold int_within_limit, number_of.
  destruct (Z.gtb_spec (Z.of_nat (length ds)) int_max_str_digits),
    (Z.leb_spec (Z.of_nat (length ds)) int_max_str_digits); try done; lia.
Qed.

Lemma number_of_short ds :
  Z.of_nat (length ds) <= int_max_str_digits ->
  number_of ds = Some (digits_value 0 ds).
Proof.
  intros H. unfold number_of.
  by destruct (Z.leb_spec (Z.of_nat (length ds)) int_max_str_digits); [|lia].
Qed.

Lemma number_of_long ds :
  int_max_str_digits < Z.of_nat (length ds) -> number_of ds = None.
Proof.
  intros H. unfold number_of.
  by destruct (Z.leb_spec (Z.of_nat (length ds)) int_max_str_digits); [lia|].
Qed.

(** On a run of digits [int] gives the number it writes, and raises when
    the run is longer than the limit. *)
Lemma int_digits ds : all_digits ds -> int ds = number_of ds.
Proof.
  intros [Hne H]. destruct ds as [|c ds]; [done|].
  assert (Hc : is_digit c = true) by (by inversion H).
  unfold int.
  assert (forallb (fun c => (code c <? 128)%N) (c :: ds) = true) as ->.
  { apply forallb_forall. intros x Hx. apply digit_is_ascii.
    rewrite Forall_forall in H. apply H. by apply list_elem_of_In. }
  simpl skip_c_space. rewrite (digit_not_c_space c Hc).
  destruct (digit_not_sign c Hc) as [Hp Hm].
  assert (int_unsigned (c :: ds) = number_of (c :: ds)) as Hu.
  { unfold int_unsigned. rewrite Hc, int_body_digits by done.
    rewrite Z.add_0_l. apply int_within_limit_number_of. }
  destruct c as [[] [] [] [] [] [] [] []]; try exact Hu; congruence.
Qed.

Lemma skip_c_space_Forall (P : ascii -> Prop) s :
  Forall P s -> Forall P (skip_c_space s).
Proof.
  induction 1 as [|c s Hc Hs IH]; simpl; [constructor|].
  destruct (is_c_space c); [done|by constructor].
Qed.

Lemma int_unsigned_without_digit s :
  Forall (fun c => is_digit c = false) s -> int_unsigned s = None.
Proof. intros H. destruct H as [|c s Hc _]; simpl; [done|]. by rewrite Hc. Qed.

(** [int] raises on a text without any digit. *)
Lemma int_without_digit s :
  Forall (fun c => is_digit c = false) s -> int s = None.
Proof.
  intros H. unfold int.
  match goal with |- context [skip_c_space ?x] => set (s1 := x) end.
  assert (Forall (fun c => is_digit c = false) s1) as H1.
  { unfold s1. destruct (forallb _ s); [done|].
    apply Forall_map. eapply Forall_impl; [exact H|].
    intros c Hc. simpl. by destruct (_ && _). }
  apply skip_c_space_Forall in H1.
  destruct (skip_c_space s1) as [|c rest]; [done|].
  pose proof (int_unsigned_without_digit _ H1) as Hfull.
  apply Forall_cons in H1 as [_ Hrest].
  apply int_unsigned_without_digit in Hrest.
  destruct c as [[] [] [] [] [] [] [] []]; rewrite ?Hrest; try exact Hfull;
    done.
Qed.

(** ** The matcher on a repetition *)

(** When the rest of the pattern accepts after the longest run, that is the
    match: the greedy alternative is tried first. *)
Lemma star_greedy p k before after cap m :
  k (rev (take_while p after) ++ before) (drop_while p after) cap = Some m ->
  star p k before after cap = Some m.
Proof.
  revert before. induction after as [|c s IH]; intros before; simpl.
  - done.
  - destruct (p c) eqn:E; simpl; [|done].
    rewrite <- app_assoc. simpl. intros H. by rewrite (IH _ H).
Qed.

(** When the rest of the pattern rejects every cursor placed in front of a
    character of the class, only the longest run is left to it. *)
Lemma star_longest p (k : cont) before after cap :
  (forall b c rest, p c = true -> k b (c :: rest) cap = None) ->
  star p k before after cap
  = k (rev (take_while p after) ++ before) (drop_while p after) cap.
Proof.
  intros Hk. revert before. induction after as [|c s IH]; intros before; simpl.
  - done.
  - destruct (p c) eqn:E; simpl; [|done].
    rewrite IH, <- app_assoc. simpl.
    destruct (k _ _ cap) eqn:Ek; [done|]. by apply Hk.
Qed.

(** ** C3: the leading order number *)

Lemma leading_order_token_spec s ds :
  leading_order_token s = Some ds <-> order_token s ds.
Proof.
  unfold leading_order_token, order_token, all_digits. split.
  - intros H. pose proof (take_drop_while is_digit s) as Hs.
    pose proof (take_while_all is_digit s) as Hall.
    destruct (take_while is_digit s) as [|c t] eqn:Et; [done|].
    destruct (drop_while is_digit s) as [|d r] eqn:Ed; [done|].
    destruct (Ascii.eqb_spec d ".") as [->|Hd].
    + injection H as <-. split; [split; [done|done]|]. exists r. done.
    + exfalso. revert H Hd. clear. by_cases_on_char d.
  - intros [[Hne Hall] [rest ->]].
    destruct (take_while_app is_digit ds ("."%char :: rest) Hall) as [-> ->];
      [done|].
    destruct ds; [done|done].
Qed.

Lemma re_match_order_re s :
  re_match order_re s
  = (fun ds => MatchObj (ds ++ ["."%char]) (Some ds)) <$> leading_order_token s.
Proof.
  unfold re_match, match_at, order_re, leading_order_token. simpl.
  destruct s as [|c s]; [done|]. simpl.
  destruct (is_digit c) eqn:Ec; [|done].
  rewrite star_longest.
  2:{ intros b x rest Hx. simpl. by rewrite (digit_not_dot x Hx). }
  pose proof (take_drop_while is_digit s) as Hs.
  destruct (drop_while is_digit s) as [|d r] eqn:Ed; [reflexivity|].
  clear Ed. generalize dependent (take_while is_digit s). intros tw <-.
  destruct (Ascii.eqb_spec d ".") as [->|Hd].
  - unfold accept. simpl.
    rewrite (consumed_cons_app c tw ("."%char :: r)).
    replace (c :: tw ++ "."%char :: r) with ((c :: tw ++ ["."%char]) ++ r)
      by (simpl; by rewrite <- app_assoc).
    by rewrite consumed_app.
  - revert Hd. clear. by_cases_on_char d.
Qed.

Lemma extract_movie_order_number_eq title :
  extract_movie_order_number title
  = match leading_order_token (strip (or_empty title)) with
    | Some ds => default 9999 (number_of ds)
    | None => 9999
    end.
Proof.
  unfold extract_movie_order_number. rewrite re_match_order_re.
  destruct (leading_order_token _) as [ds|] eqn:E; simpl; [|done].
  apply leading_order_token_spec in E as [Hd _].
  unfold int_group1_or. simpl. rewrite (int_digits ds Hd).
  by destruct (number_of ds).
Qed.

(** C3, with the limit of [int]: [extract_movie_order_number] returns the
    integer written by the leading token of digits followed by a dot at the
    start of the trimmed title when the token has at most 4300 digits, and
    9999 when the token is longer or the trimmed title does not start with
    such a token; it returns 10 for "10. Title" and 9999 for "Title". *)
Theorem C3_extract_movie_order_number (title : option string) :
  let s := strip (or_empty title) in
  (forall ds, order_token s ds ->
     Z.of_nat (length ds) <= int_max_str_digits ->
     extract_movie_order_number title = digits_value 0 ds)
  /\ (forall ds, order_token s ds ->
        int_max_str_digits < Z.of_nat (length ds) ->
        extract_movie_order_number title = 9999)
  /\ ((forall ds, ~ order_token s ds) ->
      extract_movie_order_number title = 9999)
  /\ extract_movie_order_number (Some "10. Title"%string) = 10
  /\ extract_movie_order_number (Some "Title"%string) = 9999.
Proof.
  intros s. split; [|split; [|split; [|by vm_compute]]].
  - intros ds H Hlen. rewrite extract_movie_order_number_eq. fold s.
    apply leading_order_token_spec in H. by rewrite H, number_of_short.
  - intros ds H Hlen. rewrite extract_movie_order_number_eq. fold s.
    apply leading_order_token_spec in H. by rewrite H, number_of_long.
  - intros H. rewrite extract_movie_order_number_eq. fold s.
    destruct (leading_order_token s) as [ds|] eqn:E; [|done].
    apply leading_order_token_spec in E. by destruct (H ds).
Qed.

(** ** Sorting *)

Section SortFacts.
Context {A K : Type} (leb : K -> K -> bool) (key : A -> K).

Lemma insert_by_perm x l : insert_by leb key x l ≡ₚ x :: l.
Proof.
  induction l as [|y l IH]; simpl; [done|].
  destruct (leb (key x) (key y)); [done|].
  rewrite IH. apply perm_swap.
Qed.

Lemma sort_by_perm l : sort_by leb key l ≡ₚ l.
Proof.
  induction l as [|x l IH]; simpl; [done|].
  rewrite insert_by_perm. by rewrite IH.
Qed.

Hypothesis leb_total : forall a b, leb a b = false -> leb b a = true.
Hypothesis leb_trans :
  forall a b c, leb a b = true -> leb b c = true -> leb a c = true.

Let R (a b : A) : Prop := leb (key a) (key b) = true.

Lemma insert_by_sorted x l :
  StronglySorted R l -> StronglySorted R (insert_by leb key x l).
Proof.
  induction l as [|y l IH]; intros Hl; simpl.
  - repeat constructor.
  - apply StronglySorted_cons in Hl as [Hy Hl].
    destruct (leb (key x) (key y)) eqn:E.
    + apply StronglySorted_cons. split.
      * constructor; [done|].
        eapply Forall_impl; [exact Hy|]. intros z Hz. by eapply leb_trans.
      * by apply StronglySorted_cons.
    + apply StronglySorted_cons. split; [|by apply IH].
      rewrite insert_by_perm. constructor; [|done]. by apply leb_total.
Qed.

Lemma sort_by_sorted l : StronglySorted R (sort_by leb key l).
Proof.
  induction l as [|x l IH]; simpl; [constructor|]. by apply insert_by_sorted.
Qed.

(** The sort is stable: the elements whose keys are selected by [sel],
    a set of keys that the order does not tell apart, keep their order. *)
Lemma sort_by_stable (sel : K -> bool) l :
  (forall a b, sel a = true -> sel b = true -> leb a b = true) ->
  List.filter (fun x => sel (key x)) (sort_by leb key l)
  = List.filter (fun x => sel (key x)) l.
Proof.
  intros Hsame. induction l as [|x l IH]; simpl; [done|].
  rewrite <- IH. clear IH.
  induction (sort_by leb key l) as [|y s IHs]; simpl; [done|].
  destruct (leb (key x) (key y)) eqn:E; simpl; [done|].
  destruct (sel (key x)) eqn:Ex, (sel (key y)) eqn:Ey; simpl;
    rewrite IHs, ?Ex; try done.
  by rewrite (Hsame _ _ Ex Ey) in E.
Qed.
End SortFacts.

Lemma StronglySorted_weaken {A} (R1 R2 : A -> A -> Prop) l :
  (forall a b, R1 a b -> R2 a b) -> StronglySorted R1 l -> StronglySorted R2 l.
Proof.
  intros H. induction 1 as [|x l _ IH Hx]; constructor; [done|].
  eapply Forall_impl; [exact Hx|]. intros y. apply H.
Qed.

Lemma pair_leb_le a b : pair_leb a b = true <-> pair_le a b.
Proof. unfold pair_leb, pair_le. destruct a, b; simpl. lia. Qed.

Lemma sort_by_Z_sorted {A} (key : A -> Z) l :
  StronglySorted (fun a b => key a <= key b) (sort_by Z.leb key l).
Proof.
  eapply (StronglySorted_weaken (fun a b => Z.leb (key a) (key b) = true)).
  - intros a b. apply Z.leb_le.
  - apply sort_by_sorted; intros; lia.
Qed.

Lemma sort_by_pair_sorted {A} (key : A -> Z * Z) l :
  StronglySorted (fun a b => pair_le (key a) (key b)) (sort_by pair_leb key l).
Proof.
  eapply (StronglySorted_weaken (fun a b => pair_leb (key a) (key b) = true)).
  - intros a b. apply pair_leb_le.
  - apply sort_by_sorted.
    + intros a b H. apply pair_leb_le. apply not_true_iff_false in H.
      rewrite pair_leb_le in H. unfold pair_le in *. lia.
    + intros a b c. rewrite !pair_leb_le. unfold pair_le. lia.
Qed.

(** ** C6: the order of the movies of a playlist *)

Lemma slice_prefix {A} (l : list A) (n : nat) :
  slice l 0 (Z.of_nat n) = take n l.
Proof.
  unfold slice, clamp. simpl.
  destruct (Z.ltb_spec (Z.of_nat n) 0) as [E|E]; [lia|].
  replace (0 `min` Z.of_nat (length l)) with 0 by lia.
  rewrite Z.sub_0_r. simpl.
  destruct (Z.min_spec (Z.of_nat n) (Z.of_nat (length l))) as [[H ->]|[H ->]].
  - by rewrite Nat2Z.id.
  - rewrite Nat2Z.id. rewrite !take_ge; [done|lia|done].
Qed.

Lemma has_numeric_order_loop_true ms :
  has_numeric_order_loop ms = true
  <-> Exists (fun m => extract_movie_order_number (title m) <> 9999) ms.
Proof.
  induction ms as [|m ms IH]; simpl.
  - split; [done|]. by intros H%Exists_nil.
  - rewrite Exists_cons, <- IH.
    destruct (extract_movie_order_number (title m) =? 9999) eqn:E; simpl.
    + apply Z.eqb_eq in E. split; [auto|]. intros [?|?]; done.
    + apply Z.eqb_neq in E. split; auto.
Qed.

Lemma has_numeric_order_loop_false ms :
  has_numeric_order_loop ms = false
  <-> Forall (fun m => extract_movie_order_number (title m) = 9999) ms.
Proof.
  induction ms as [|m ms IH]; simpl.
  - split; [constructor|done].
  - rewrite Forall_cons, <- IH.
    destruct (extract_movie_order_number (title m) =? 9999) eqn:E; simpl.
    + apply Z.eqb_eq in E. split; [auto|]. by intros [_ ?].
    + apply Z.eqb_neq in E. split; [done|]. by intros [? _].
Qed.

Lemma sort_movies_perm ms : sort_movies ms ≡ₚ ms.
Proof. unfold sort_movies. destruct (has_numeric_order_loop _); apply sort_by_perm. Qed.

(** C6: [playlist_detail] looks for a leading order number other than 9999
    among the first five movies fetched for the playlist only; when one of
    them has it, the whole list is rendered in ascending order of
    [extract_movie_order_number], otherwise in ascending order of the pair
    given by [extract_episode_number]. *)
Theorem C6_playlist_detail_order (db : database) (id : Z) (pl : Playlist) :
  get_playlist db id = Some pl ->
  let ms := movies_of_playlist db pl in
  exists sorted,
    playlist_detail db id = Rendered "playlist_detail.html" (pl, sorted)
    /\ sorted ≡ₚ ms
    /\ (Exists (fun m => extract_movie_order_number (title m) <> 9999)
          (take 5 ms) ->
        StronglySorted
          (fun a b => extract_movie_order_number (title a)
                      <= extract_movie_order_number (title b)) sorted)
    /\ (Forall (fun m => extract_movie_order_number (title m) = 9999)
          (take 5 ms) ->
        StronglySorted
          (fun a b => pair_le (extract_episode_number (title a))
                        (extract_episode_number (title b))) sorted).
Proof.
  intros Hpl ms. exists (sort_movies ms).
  unfold playlist_detail. rewrite Hpl. fold ms.
  split; [done|]. split; [apply sort_movies_perm|].
  unfold sort_movies.
  replace (slice ms 0 5) with (take 5 ms)
    by (symmetry; apply (slice_prefix ms 5)).
  split; intros H.
  - apply has_numeric_order_loop_true in H. rewrite H.
    apply (sort_by_Z_sorted (fun m => extract_movie_order_number (title m))).
  - apply has_numeric_order_loop_false in H. rewrite H.
    apply (sort_by_pair_sorted (fun m => extract_episode_number (title m))).
Qed.

(** ** C7: the download log *)






Section RedirectFacts.
Variables reverse url_scheme : string -> option string.




End RedirectFacts.


(** ** C5: pagination of the listings *)

Section PaginationFacts.
Context {A : Type} (items : list A).

Let paginator : Paginator A := MkPaginator items 24.

Lemma num_pages_bounds :
  1 <= num_pages paginator
  /\ 24 * (num_pages paginator - 1) < Z.max 1 (count paginator)
     <= 24 * num_pages paginator.
Proof.
  unfold num_pages, allow_empty_first_page, orphans. simpl per_page.
  rewrite andb_false_r, Z.sub_0_r.
  set (h := Z.max 1 (count paginator)).
  assert (1 <= h) by lia.
  pose proof (Z_div_mod_eq_full (- h) 24).
  pose proof (Z.mod_pos_bound (- h) 24 ltac:(lia)).
  lia.
Qed.

Lemma validate_number_in_range n :
  1 <= n <= num_pages paginator ->
  validate_number paginator (ArgInt n) = inr n.
Proof.
  intros Hn. unfold validate_number. simpl.
  destruct (Z.ltb_spec n 1); [lia|].
  destruct (Z.gtb_spec n (num_pages paginator)); [lia|done].
Qed.

Lemma page_in_range n :
  1 <= n <= num_pages paginator ->
  page paginator (ArgInt n)
  = inr (MkPage (take 24 (drop (Z.to_nat (24 * (n - 1))) items)) n).
Proof.
  intros Hn. unfold page. rewrite validate_number_in_range by done.
  do 2 f_equal. simpl per_page. simpl object_list.
  pose proof num_pages_bounds as [_ [Hlo _]].
  unfold count in *. simpl object_list in *.
  unfold orphans, slice, clamp.
  set (len := Z.of_nat (length items)) in *.
  set (bottom := (n - 1) * 24).
  assert (0 <= bottom) by lia.
  assert (0 <= len) by lia.
  destruct (Z.ltb_spec bottom 0); [lia|].
  replace (24 * (n - 1)) with bottom by lia.
  destruct (Z.geb_spec (bottom + 24 + 0) len) as [Hge|Hlt].
  - destruct (Z.ltb_spec len 0); [lia|].
    rewrite Z.min_id.
    destruct (Z.le_gt_cases bottom len).
    + rewrite Z.min_l by lia.
      rewrite !take_ge; [done| |]; rewrite length_drop; lia.
    + rewrite Z.min_r by lia. rewrite !drop_ge by lia. by rewrite !take_nil.
  - destruct (Z.ltb_spec (bottom + 24) 0); [lia|].
    rewrite !Z.min_l by lia. f_equal. lia.
Qed.

Lemma get_page_number (a : page_arg) :
  exists pg,
    get_page paginator a = inr pg
    /\ page_items pg = take 24 (drop (Z.to_nat (24 * (number pg - 1))) items)
    /\ number pg
       = match int_of_arg a with
         | None => 1
         | Some n =>
             if decide (1 <= n <= num_pages paginator) then n
             else num_pages paginator
         end.
Proof.
  pose proof num_pages_bounds as [H1 _].
  unfold get_page.
  assert (forall n, 1 <= n <= num_pages paginator ->
            exists pg, page paginator (ArgInt n) = inr pg
              /\ page_items pg
                 = take 24 (drop (Z.to_nat (24 * (number pg - 1))) items)
              /\ number pg = n) as Hpage.
  { intros n Hn. eexists. split; [by apply page_in_range|]. done. }
  unfold validate_number.
  destruct (int_of_arg a) as [n|].
  - destruct (decide (1 <= n <= num_pages paginator)) as [Hn|Hn].
    + destruct (Z.ltb_spec n 1); [lia|].
      destruct (Z.gtb_spec n (num_pages paginator)); [lia|].
      by apply Hpage.
    + destruct (Z.ltb_spec n 1); [apply Hpage; lia|].
      destruct (Z.gtb_spec n (num_pages paginator)); [|lia].
      destruct (Z.eqb_spec n 1); [lia|]. simpl. apply Hpage; lia.
  - apply Hpage; lia.
Qed.

(** [get_page] does not raise, so the handlers of the view are not run. *)
Lemma paginate_get_page (a : page_arg) :
  paginate items a = get_page paginator a.
Proof.
  unfold paginate. fold paginator.
  by destruct (get_page_number a) as [pg [-> _]].
Qed.
End PaginationFacts.

(** C5, with the limit of [int]: the listings of [home] and
    [category_detail] are cut in pages of 24 items and always show a page.
    The last page is the one that holds the last item (page 1 for an empty
    listing). A page parameter that [int] reads as a number beyond the last
    page gives the last page, with its items; one that [int] reads as a
    number between 1 and the last page gives that page; a parameter [int]
    does not read gives page 1: no parameter, a text without any digit, or
    a number of more than 4300 digits. *)
Theorem C5_listing_pagination {A : Type} (items : list A)
    (page : option string) :
  exists pg last,
    home_page_obj items page = inr pg
    /\ category_detail_page_obj items page = inr pg
    /\ 1 <= last
    /\ 24 * (last - 1) < Z.max 1 (Z.of_nat (length items)) <= 24 * last
    /\ page_items pg = take 24 (drop (Z.to_nat (24 * (number pg - 1))) items)
    /\ (length (page_items pg) <= 24)%nat
    /\ 1 <= number pg <= last
    /\ (forall n, int_of_arg (query_page page) = Some n ->
          last < n ->
          number pg = last
          /\ page_items pg = drop (Z.to_nat (24 * (last - 1))) items
          /\ (items <> [] -> page_items pg <> []))
    /\ (forall n, int_of_arg (query_page page) = Some n ->
          1 <= n <= last -> number pg = n)
    /\ (int_of_arg (query_page page) = None -> number pg = 1)
    /\ (forall s, page = Some s -> all_digits (of_string s) ->
          Z.of_nat (length (of_string s)) <= int_max_str_digits ->
          int_of_arg (query_page page)
          = Some (digits_value 0 (of_string s)))
    /\ (forall s, page = Some s -> all_digits (of_string s) ->
          int_max_str_digits < Z.of_nat (length (of_string s)) ->
          number pg = 1)
    /\ (forall s, page = Some s ->
          Forall (fun c => is_digit c = false) (of_string s) ->
          number pg = 1)
    /\ (page = None -> number pg = 1).
Proof.
  set (last := num_pages (MkPaginator items 24)).
  pose proof (num_pages_bounds items) as (H1 & Hlo & Hhi).
  fold last in H1, Hlo, Hhi. unfold count in Hlo, Hhi. simpl in Hlo, Hhi.
  destruct (get_page_number items (query_page page)) as (pg & Hpg & Hitems & Hn).
  fold last in Hn.
  exists pg, last. unfold home_page_obj, category_detail_page_obj.
  rewrite paginate_get_page.
  do 4 (split; [done|]). split; [done|].
  split; [rewrite Hitems, length_take; lia|].
  assert (int_of_arg (query_page page) = None -> number pg = 1) as Hnone.
  { intros E. by rewrite E in Hn. }
  split.
  { destruct (int_of_arg (query_page page)) as [n|]; [|lia].
    destruct (decide (1 <= n <= last)); lia. }
  split.
  { intros n E Hbeyond. rewrite E in Hn.
    destruct (decide (1 <= n <= last)); [lia|].
    assert (page_items pg = drop (Z.to_nat (24 * (last - 1))) items) as Hlast.
    { rewrite Hitems, Hn. apply take_ge. rewrite length_drop. lia. }
    split; [done|]. split; [done|].
    intros Hne Hnil. rewrite Hlast in Hnil.
    apply (f_equal length) in Hnil. rewrite length_drop in Hnil.
    destruct items; [done|]. cbn [length] in *. lia. }
  split.
  { intros n E Hin. rewrite E in Hn. by destruct (decide (1 <= n <= last)). }
  split; [exact Hnone|].
  split.
  { intros s -> Hd Hlen. simpl. by rewrite (int_digits _ Hd), number_of_short. }
  split.
  { intros s -> Hd Hlen. apply Hnone. simpl.
    by rewrite (int_digits _ Hd), number_of_long. }
  split.
  { intros s -> Hd. apply Hnone. simpl. by apply int_without_digit. }
  intros ->. by apply Hnone.
Qed.

(** ** Install tracking *)

Section TrackingFacts.
Variable db_text : json -> string.

Abbreviation track_install := (track_install db_text).
Abbreviation track_uninstall := (track_uninstall db_text).
Abbreviation names_device := (names_device db_text).
Abbreviation request_device_name := (request_device_name db_text).

(** The row [track_install] saves for a device, from the row it finds. *)
Let installed (r : request) (d : string) (found : option InstallTracker)
    : InstallTracker :=
  match found with
  | None =>
      MkInstallTracker d 1 0 (request_device_name r) (meta_user_agent r)
        "install" (now r)
  | Some t =>
      if install_count t =? 0 then
        MkInstallTracker (device_id t) 1 (deleted_count t)
          (request_device_name r) (device_info t) "reinstall" (now r)
      else
        MkInstallTracker (device_id t) (install_count t) (deleted_count t)
          (request_device_name r) (device_info t) "install (re-open)"
          (now r)
  end.

Lemma track_install_named db r d :
  names_device r d ->
  (track_install db r).1
  = save_tracker (installed r d (trackers db !! d)) db.
Proof.
  intros (m & v & Hb & Hv & Ht & Hd).
  unfold track_install, track_install_try, installed, request_device_name.
  rewrite Hb. simpl. rewrite Hv. simpl. rewrite Ht. simpl. rewrite Hd.
  destruct (trackers db !! d) as [t|]; [|done].
  by destruct (install_count t =? 0).
Qed.

Lemma track_uninstall_named db r d :
  names_device r d ->
  (track_uninstall db r).1
  = match trackers db !! d with
    | Some t =>
        if install_count t =? 1 then
          save_tracker
            (MkInstallTracker (device_id t) 0 (deleted_count t + 1)
               (device_name t) (device_info t) "uninstall" (now r)) db
        else db
    | None => db
    end.
Proof.
  intros (m & v & Hb & Hv & Ht & Hd).
  unfold track_uninstall, track_uninstall_try.
  rewrite Hb. simpl. rewrite Hv. simpl. rewrite Ht. simpl. rewrite Hd.
  destruct (trackers db !! d) as [t|]; [|done].
  by destruct (install_count t =? 1).
Qed.

(** A request that names no device leaves the tables as they are. *)
Lemma names_device_or_unchanged db r :
  (exists d, names_device r d)
  \/ ((track_install db r).1 = db /\ (track_uninstall db r).1 = db).
Proof.
  unfold names_device, track_install, track_uninstall, track_install_try,
    track_uninstall_try.
  destruct (body r) as [data| |msg]; [|by right..].
  destruct data as [| | | | |m]; try by right.
  simpl. destruct (dict_get "device_id" m) as [v|] eqn:Hv; simpl.
  - destruct (truthy v) eqn:Ht; simpl; [|by right].
    left. by exists (db_text v), m, v.
  - by right.
Qed.

Lemma row_step_refl c o : row_step c o o.
Proof. destruct o; simpl; auto. Qed.

Lemma step_row db c k :
  keyed_by_device_id db ->
  row_step c (trackers db !! k) (trackers (step db_text db c) !! k).
Proof.
  intros Hkey.
  destruct c as [r|r]; simpl;
    (destruct (names_device_or_unchanged db r) as [[d Hd]|[Hi Hu]];
     [|rewrite ?Hi, ?Hu; apply row_step_refl]).
  - rewrite (track_install_named db r d Hd). unfold save_tracker. simpl.
    destruct (trackers db !! d) as [t|] eqn:Ht; simpl.
    + pose proof (Hkey d t Ht) as Hid.
      assert (device_id (if install_count t =? 0
                then MkInstallTracker (device_id t) 1 (deleted_count t)
                       (request_device_name r) (device_info t) "reinstall"
                       (now r)
                else MkInstallTracker (device_id t) (install_count t)
                       (deleted_count t) (request_device_name r)
                       (device_info t) "install (re-open)" (now r)) = d)
        as -> by (by destruct (install_count t =? 0)).
      destruct (decide (d = k)) as [->|Hne].
      * rewrite lookup_insert_eq, Ht. simpl. left.
        destruct (Z.eqb_spec (install_count t) 0); simpl; auto.
      * rewrite lookup_insert_ne by done. apply row_step_refl.
    + destruct (decide (d = k)) as [->|Hne].
      * rewrite lookup_insert_eq, Ht. simpl. eauto.
      * rewrite lookup_insert_ne by done. apply row_step_refl.
  - rewrite (track_uninstall_named db r d Hd).
    destruct (trackers db !! d) as [t|] eqn:Ht; [|apply row_step_refl].
    destruct (Z.eqb_spec (install_count t) 1) as [H1|H1];
      [|apply row_step_refl].
    unfold save_tracker. simpl. rewrite (Hkey d t Ht).
    destruct (decide (d = k)) as [->|Hne].
    + rewrite lookup_insert_eq, Ht. simpl. right. eauto.
    + rewrite lookup_insert_ne by done. apply row_step_refl.
Qed.

Lemma step_keyed db c :
  keyed_by_device_id db -> keyed_by_device_id (step db_text db c).
Proof.
  intros Hkey.
  destruct c as [r|r]; simpl;
    (destruct (names_device_or_unchanged db r) as [[d Hd]|[Hi Hu]];
     [|by rewrite ?Hi, ?Hu]).
  - rewrite (track_install_named db r d Hd). intros k t'.
    unfold save_tracker. simpl.
    assert (device_id (installed r d (trackers db !! d)) = d) as Hid.
    { unfold installed. destruct (trackers db !! d) as [t|] eqn:Ht; [|done].
      pose proof (Hkey d t Ht). by destruct (install_count t =? 0). }
    rewrite Hid. destruct (decide (d = k)) as [->|Hne].
    + rewrite lookup_insert_eq. by intros [= <-].
    + rewrite lookup_insert_ne by done. apply Hkey.
  - rewrite (track_uninstall_named db r d Hd).
    destruct (trackers db !! d) as [t|] eqn:Ht; [|done].
    destruct (install_count t =? 1); [|done].
    intros k t'. unfold save_tracker. simpl. rewrite (Hkey d t Ht).
    destruct (decide (d = k)) as [->|Hne].
    + rewrite lookup_insert_eq. by intros [= <-].
    + rewrite lookup_insert_ne by done. apply Hkey.
Qed.

Lemma step_counts db c :
  keyed_by_device_id db ->
  install_count_0_or_1 db -> install_count_0_or_1 (step db_text db c).
Proof.
  intros Hkey Hcnt k t' Ht'.
  pose proof (step_row db c k Hkey) as Hstep. rewrite Ht' in Hstep.
  destruct (trackers db !! k) as [t|] eqn:Ht; simpl in Hstep.
  - pose proof (Hcnt k t Ht). lia.
  - lia.
Qed.

Lemma step_deleted_count db c k t :
  keyed_by_device_id db ->
  trackers db !! k = Some t ->
  exists t', trackers (step db_text db c) !! k = Some t'
             /\ deleted_count t <= deleted_count t'.
Proof.
  intros Hkey Ht. pose proof (step_row db c k Hkey) as Hstep.
  rewrite Ht in Hstep.
  destruct (trackers (step db_text db c) !! k) as [t'|]; simpl in Hstep;
    [|done].
  exists t'. split; [done|]. lia.
Qed.
End TrackingFacts.

(** C1: along any sequence of [track_install] and [track_uninstall] calls,
    [install_count] of every row is 0 or 1, and [deleted_count] of a row
    never decreases: a row is created with [deleted_count] 0, and a call
    changes [deleted_count] only by adding one when an uninstall takes
    [install_count] from 1 to 0. *)
Theorem C1_install_count_and_deleted_count
    (db_text : json -> string) (db : database) (calls : list call) :
  keyed_by_device_id db ->
  install_count_0_or_1 db ->
  let db' := run_calls db_text db calls in
  keyed_by_device_id db'
  /\ install_count_0_or_1 db'
  /\ (forall k t, trackers db !! k = Some t ->
        exists t', trackers db' !! k = Some t'
                   /\ deleted_count t <= deleted_count t')
  /\ (forall c k,
        row_step c (trackers db' !! k) (trackers (step db_text db' c) !! k)).
Proof.
  revert db. induction calls as [|c calls IH]; intros db Hkey Hcnt; simpl.
  - repeat split; [done|done|eauto with lia|].
    intros c k. by apply step_row.
  - destruct (IH (step db_text db c)) as (Hk' & Hc' & Hmono & Hstep).
    { by apply step_keyed. }
    { by apply step_counts. }
    repeat split; [done|done| |done].
    intros k t Ht.
    destruct (step_deleted_count db_text db c k t Hkey Ht) as (t1 & Ht1 & Hle).
    destruct (Hmono k t1 Ht1) as (t' & Ht' & Hle').
    exists t'. split; [done|lia].
Qed.

Lemma empty_db_keyed : keyed_by_device_id empty_db.
Proof. intros k t H. simpl in H. by rewrite lookup_empty in H. Qed.

Lemma empty_db_counts : install_count_0_or_1 empty_db.
Proof. intros k t H. simpl in H. by rewrite lookup_empty in H. Qed.

Lemma sample_install_names : names_device column_text sample_install "abc".
Proof. by exists [("device_id"%string, JStr "abc")], (JStr "abc"). Qed.

Lemma sample_uninstall_names : names_device column_text sample_uninstall "abc".
Proof. by exists [("device_id"%string, JStr "abc")], (JStr "abc"). Qed.

Lemma sample_reopen_names : names_device column_text sample_reopen "abc".
Proof.
  by exists [("device_id"%string, JStr "abc");
             ("device_name"%string, JStr "iOS")], (JStr "abc").
Qed.

Lemma sample_db_keyed : keyed_by_device_id sample_db.
Proof.
  intros k t. unfold sample_db. simpl.
  intros [-> <-]%lookup_singleton_Some. done.
Qed.

Lemma C1_witness :
  keyed_by_device_id empty_db
  /\ install_count_0_or_1 empty_db
  /\ install_count_0_or_1
       (run_calls column_text empty_db
          [Install sample_install; Uninstall sample_uninstall;
           Uninstall sample_uninstall; Install sample_reopen]).
Proof.
  split; [exact empty_db_keyed|]. split; [exact empty_db_counts|].
  apply (C1_install_count_and_deleted_count column_text empty_db
           [Install sample_install; Uninstall sample_uninstall;
            Uninstall sample_uninstall; Install sample_reopen]
           empty_db_keyed empty_db_counts).
Defined.

(** C4: for a device that has no row, an install, an uninstall and an
    install again, each with a body naming the device, leave its row with
    [install_count] 1 and [deleted_count] 1. *)
Theorem C4_install_uninstall_install
    (db_text : json -> string) (db : database) (r1 r2 r3 : request)
    (d : string) :
  trackers db !! d = None ->
  names_device db_text r1 d ->
  names_device db_text r2 d ->
  names_device db_text r3 d ->
  exists t,
    trackers (run_calls db_text db [Install r1; Uninstall r2; Install r3]) !! d
    = Some t
    /\ install_count t = 1 /\ deleted_count t = 1.
Proof.
  intros Hnone H1 H2 H3. unfold run_calls. simpl.
  rewrite (track_install_named db_text _ r3 d H3).
  rewrite (track_uninstall_named db_text _ r2 d H2).
  rewrite (track_install_named db_text db r1 d H1).
  rewrite Hnone. simpl. rewrite lookup_insert_eq. simpl.
  rewrite lookup_insert_eq. simpl. rewrite lookup_insert_eq.
  eexists. split; [reflexivity|]. done.
Qed.

Lemma C4_witness :
  trackers empty_db !! "abc"%string = None
  /\ names_device column_text sample_install "abc"
  /\ names_device column_text sample_uninstall "abc"
  /\ names_device column_text sample_reopen "abc"
  /\ exists t,
       trackers (run_calls column_text empty_db
                   [Install sample_install; Uninstall sample_uninstall;
                    Install sample_reopen]) !! "abc"%string = Some t
       /\ install_count t = 1 /\ deleted_count t = 1.
Proof.
  split; [reflexivity|].
  split; [exact sample_install_names|].
  split; [exact sample_uninstall_names|].
  split; [exact sample_reopen_names|].
  apply (C4_install_uninstall_install column_text empty_db sample_install
           sample_uninstall sample_reopen "abc" eq_refl sample_install_names
           sample_uninstall_names sample_reopen_names).
Defined.

(** C8, as the code has it: when the row of a device has [install_count]
    1, a further [track_install] for the device changes [last_action],
    [updated_at] and [device_name] of that row, the name becoming the one
    the request resolves to; [device_id], [install_count], [deleted_count]
    and [device_info] of the row, the other rows and the other tables stay
    as they were. *)
Theorem C8_repeated_install_frame
    (db_text : json -> string) (db : database) (r : request) (d : string)
    (t : InstallTracker) :
  keyed_by_device_id db ->
  names_device db_text r d ->
  trackers db !! d = Some t ->
  install_count t = 1 ->
  (track_install db_text db r).1
  = MkDatabase (playlists db) (movies db) (download_logs db)
      (<[d := MkInstallTracker (device_id t) (install_count t)
                (deleted_count t) (request_device_name db_text r)
                (device_info t) "install (re-open)" (now r)]> (trackers db)).
Proof.
  intros Hkey Hd Ht H1.
  rewrite (track_install_named db_text db r d Hd), Ht.
  unfold save_tracker. rewrite H1. simpl. by rewrite (Hkey d t Ht).
Qed.

Lemma C8_witness :
  keyed_by_device_id sample_db
  /\ names_device column_text sample_reopen "abc"
  /\ (track_install column_text sample_db sample_reopen).1
     = MkDatabase [] [] []
         (<["abc"%string :=
              MkInstallTracker "abc" 1 0 "iOS"
                "Mozilla/5.0 (Linux; Android 14)" "install (re-open)" 30]>
            (trackers sample_db)).
Proof.
  split; [exact sample_db_keyed|]. split; [exact sample_reopen_names|].
  apply (C8_repeated_install_frame column_text sample_db sample_reopen "abc"
           (MkInstallTracker "abc" 1 0 "Android"
              "Mozilla/5.0 (Linux; Android 14)" "install" 5)
           sample_db_keyed sample_reopen_names eq_refl eq_refl).
Defined.

(** C8 as stated fails: the row has [install_count] 1 and the repeated
    install replaces its [device_name]. *)
Lemma C8_device_name_replaced :
  (install_count <$> trackers sample_db !! "abc"%string) = Some 1
  /\ (device_name <$> trackers sample_db !! "abc"%string)
     = Some "Android"%string
  /\ (device_name <$>
        trackers (track_install column_text sample_db sample_reopen).1
          !! "abc"%string)
     = Some "iOS"%string.
Proof. vm_compute. done. Qed.

(** ** C9: errors of the tracking endpoints *)

(** The exceptions other than [JSONDecodeError] that the embedding raises
    come from the decoder or from a body that is not an object. *)
Lemma track_uninstall_try_raises db_text db r e :
  track_uninstall_try db_text db r = inl (OtherError e)
  <-> body r = LoadRaised e
      \/ exists data, body r = Loaded data
           /\ data_get data "device_id" = inl (OtherError e).
Proof.
  unfold track_uninstall_try. destruct (body r) as [data| |msg].
  - destruct (data_get data "device_id") as [x|v] eqn:Hg.
    + split.
      * intros [= ->]. right. by exists data.
      * intros [?|(data' & [= <-] & H)]; [done|]. congruence.
    + split.
      * destruct (truthy v); simpl; [|done].
        destruct (trackers db !! db_text v); done.
      * intros [?|(data' & [= <-] & H)]; [done|]. congruence.
  - split; [done|]. intros [?|(data' & ? & _)]; done.
  - split.
    + intros [= ->]. by left.
    + intros [[= ->]|(data' & ? & _)]; done.
Qed.

(** C9, as the code has it: in both tracking endpoints a body without a
    true [device_id] gives a 400 with a JSON error message, and a body that
    is not JSON gives a 400, the tables being left as they were; another
    exception gives a 500, whose message is the text of the exception in
    [track_install] and the fixed text "Server error" in
    [track_uninstall]. *)
Theorem C9_tracking_errors
    (db_text : json -> string) (db : database) (r : request) :
  (lacks_device_id r ->
     track_install db_text db r
     = (db, JsonResponse 400
              (JDict [("status", JStr "error");
                      ("message", JStr "Device ID missing")]))
     /\ track_uninstall db_text db r
        = (db, JsonResponse 400
                 (JDict [("success", JBool false);
                         ("message", JStr "Device ID is required")])))
  /\ (body r = JSONDecodeError ->
        track_install db_text db r
        = (db, JsonResponse 400
                 (JDict [("status", JStr "error");
                         ("message", JStr "Invalid JSON")]))
        /\ track_uninstall db_text db r
           = (db, JsonResponse 400
                    (JDict [("success", JBool false);
                            ("message", JStr "Invalid JSON")])))
  /\ (forall e, track_install_try db_text db r = inl (OtherError e) ->
        track_install db_text db r
        = (db, JsonResponse 500
                 (JDict [("status", JStr "error"); ("message", JStr e)])))
  /\ (forall e, track_uninstall_try db_text db r = inl (OtherError e) ->
        track_uninstall db_text db r
        = (db, JsonResponse 500
                 (JDict [("success", JBool false);
                         ("message", JStr "Server error")]))).
Proof.
  repeat split.
  - destruct H as (m & Hb & Hf).
    unfold track_install, track_install_try. rewrite Hb. simpl.
    by rewrite Hf.
  - destruct H as (m & Hb & Hf).
    unfold track_uninstall, track_uninstall_try. rewrite Hb. simpl.
    by rewrite Hf.
  - unfold track_install, track_install_try. by rewrite H.
  - unfold track_uninstall, track_uninstall_try. by rewrite H.
  - intros e H. unfold track_install. by rewrite H.
  - intros e H. unfold track_uninstall. by rewrite H.
Qed.

Lemma C9_witness :
  (track_install column_text sample_db sample_no_id).1 = sample_db
  /\ response_status (track_uninstall column_text sample_db sample_no_id).2
     = Some 400
  /\ response_status (track_install column_text sample_db sample_bad_body).2
     = Some 400
  /\ response_message (track_install column_text sample_db sample_list_body).2
     = Some (JStr "'list' object has no attribute 'get'")
  /\ response_message
       (track_uninstall column_text sample_db sample_list_body).2
     = Some (JStr "Server error").
Proof.
  destruct (C9_tracking_errors column_text sample_db sample_no_id)
    as (Hmissing & _).
  destruct (C9_tracking_errors column_text sample_db sample_bad_body)
    as (_ & Hbad & _).
  destruct (C9_tracking_errors column_text sample_db sample_list_body)
    as (_ & _ & Hinstall & Huninstall).
  destruct Hmissing as [Hi Hu].
  { by exists [("device_name"%string, JStr "iOS")]. }
  destruct Hbad as [Hbi Hbu]; [reflexivity|].
  rewrite Hi, Hu, Hbi.
  rewrite (Hinstall "'list' object has no attribute 'get'"%string eq_refl).
  rewrite (Huninstall "'list' object has no attribute 'get'"%string eq_refl).
  repeat split.
Defined.

(** C9 as stated fails for [track_uninstall]: the exception raised for a
    body that is a JSON list has a message, and the 500 response carries
    the text "Server error" in its place. *)
Lemma C9_uninstall_hides_exception_text :
  track_uninstall_try column_text sample_db sample_list_body
  = inl (OtherError "'list' object has no attribute 'get'")
  /\ response_status (track_uninstall column_text sample_db sample_list_body).2
     = Some 500
  /\ response_message
       (track_uninstall column_text sample_db sample_list_body).2
     = Some (JStr "Server error")
  /\ JStr "Server error" <> JStr "'list' object has no attribute 'get'".
Proof. repeat split. discriminate. Qed.

(** ** Witnesses of C6 and C7 *)

Lemma C6_witness :
  get_playlist sample_catalog 1 = Some (MkPlaylist 1 "Series" None (Some 1))
  /\ exists sorted,
       playlist_detail sample_catalog 1
       = Rendered "playlist_detail.html"
           (MkPlaylist 1 "Series" None (Some 1), sorted)
       /\ sorted ≡ₚ movies_of_playlist sample_catalog
                      (MkPlaylist 1 "Series" None (Some 1)).
Proof.
  split; [reflexivity|].
  destruct (C6_playlist_detail_order sample_catalog 1
              (MkPlaylist 1 "Series" None (Some 1)) eq_refl)
    as (sorted & Hr & Hp & _).
  exists sorted. by split.
Defined.



(** ** The matcher on the patterns of the title helpers *)

Lemma starts_with_app w s :
  starts_with w s = true -> s = w ++ drop (length w) s.
Proof.
  revert s. induction w as [|c w IH]; intros [|x s]; simpl; try done.
  intros [Hc Hw]%andb_prop. apply Ascii.eqb_eq in Hc as ->.
  f_equal. by apply IH.
Qed.

Lemma run_Word w k before s cap :
  run (Word w) k before s cap
  = if starts_with w s then k (rev w ++ before) (drop (length w) s) cap
    else None.
Proof.
  revert before s. induction w as [|c w IH]; intros before s; simpl.
  - done.
  - destruct s as [|x s]; [done|]. rewrite Ascii.eqb_sym.
    destruct (Ascii.eqb_spec c x) as [->|Hne]; simpl; [|done].
    rewrite IH. by rewrite <- app_assoc.
Qed.

(** [star_longest] for a continuation that only rejects when the character
    before the cursor is in the class as well. *)
Lemma star_longest_after p (k : cont) before after cap :
  (forall b c x rest,
      p x = true -> p c = true -> k (x :: b) (c :: rest) cap = None) ->
  (exists x b, before = x :: b /\ p x = true) ->
  star p k before after cap
  = k (rev (take_while p after) ++ before) (drop_while p after) cap.
Proof.
  intros Hk. revert before.
  induction after as [|c s IH]; intros before (x & b & -> & Hx); simpl.
  - done.
  - destruct (p c) eqn:E; simpl; [|done].
    rewrite IH by eauto. rewrite <- app_assoc. simpl.
    destruct (k _ _ cap) eqn:Ek; [done|]. by rewrite Hk.
Qed.

Lemma run_spaces_digits start pre s before cap :
  start = pre ++ s ->
  run (Cat (Star is_space) (Group (Plus is_digit))) (accept start)
    before s cap
  = (fun m => MatchObj (pre ++ m.1) (Some m.2)) <$> digits_after_spaces s.
Proof.
  intros ->. simpl. rewrite star_longest.
  2:{ intros b c rest Hc. simpl. by rewrite (space_not_digit c Hc). }
  unfold digits_after_spaces.
  pose proof (take_drop_while is_space s) as Hs.
  generalize dependent (take_while is_space s). intros ws Hs.
  destruct (drop_while is_space s) as [|x r] eqn:Er; simpl; [done|].
  destruct (is_digit x) eqn:Ex; simpl; [|done].
  pose proof (take_drop_while is_digit r) as Hr.
  erewrite star_greedy; [reflexivity|]. unfold accept. simpl.
  generalize dependent (take_while is_digit r). intros tw.
  generalize (drop_while is_digit r). intros dw Hr.
  rewrite <- Hs, <- Hr.
  rewrite (consumed_cons_app x tw dw).
  replace (pre ++ ws ++ x :: tw ++ dw) with ((pre ++ ws ++ x :: tw) ++ dw)
    by (by rewrite <- !app_assoc).
  by rewrite consumed_app.
Qed.

Lemma match_at_marker letter word before s :
  match_at (marker_re letter word) before s
  = marker_match <$> marker_here letter word s.
Proof.
  unfold match_at, marker_re, marker_here.
  destruct s as [|c rest]; [done|].
  change (run (Cat (Lit letter) ?r) ?k before (c :: rest) None)
    with (if Ascii.eqb c letter then run r k (c :: before) rest None else None).
  destruct (Ascii.eqb c letter); [|done].
  change (run (Cat (Opt (Word word)) ?r) ?k ?b rest None)
    with (match run (Word word) (run r k) b rest None with
          | Some m => Some m
          | None => run r k b rest None
          end).
  rewrite run_Word.
  rewrite (run_spaces_digits (c :: rest) [c] rest) by done.
  destruct (starts_with word rest) eqn:Hw.
  - rewrite (run_spaces_digits (c :: rest) (c :: word)
               (drop (length word) rest)).
    2:{ simpl. f_equal. by apply starts_with_app. }
    destruct (digits_after_spaces (drop (length word) rest)) as [[text ds]|];
      simpl; [done|].
    by destruct (digits_after_spaces rest) as [[text ds]|].
  - by destruct (digits_after_spaces rest) as [[text ds]|].
Qed.

Lemma search_from_unfold r before s :
  search_from r before s
  = match match_at r before s with
    | Some m => Some m
    | None =>
        match s with
        | c :: rest => search_from r (c :: before) rest
        | [] => None
        end
    end.
Proof. by destruct s. Qed.

Lemma search_from_marker letter word before s :
  search_from (marker_re letter word) before s
  = marker_match <$> first_marker letter word s.
Proof.
  revert before. induction s as [|c s IH]; intros before;
    rewrite search_from_unfold, match_at_marker.
  - done.
  - change (first_marker letter word (c :: s))
      with (match marker_here letter word (c :: s) with
            | Some m => Some m
            | None => first_marker letter word s
            end).
    destruct (marker_here letter word (c :: s)); simpl; [done|]. apply IH.
Qed.

Lemma head_of_rev_run (P : ascii -> Prop) tw x (b : str) :
  Forall P tw -> P x ->
  exists y l, rev tw ++ x :: b = y :: l /\ P y.
Proof.
  intros Htw Hx. destruct (rev tw) as [|y l] eqn:E; simpl.
  - by exists x, b.
  - exists y, (l ++ x :: b). split; [done|].
    rewrite Forall_forall in Htw. apply Htw.
    apply list_elem_of_In, in_rev, list_elem_of_In. rewrite E. by left.
Qed.

Lemma match_at_simple_number before s :
  match_at simple_number_re before s
  = number_match <$> standalone_here (starts_with_word_char before) s.
Proof.
  unfold match_at, simple_number_re, standalone_here.
  change (run (Cat WordB ?r) ?k before s None)
    with (if at_boundary before s then run r k before s None else None).
  destruct s as [|x r]; [by destruct (at_boundary before [])|].
  change (run (Cat (Group (Plus is_digit)) WordB) ?k before (x :: r) None)
    with (if is_digit x
          then star is_digit
                 (fun b a _ =>
                    if at_boundary b a
                    then k b a (Some (consumed (x :: r) a)) else None)
                 (x :: before) r None
          else None).
  destruct (is_digit x) eqn:Ex.
  2:{ rewrite andb_false_r. by destruct (at_boundary before (x :: r)). }
  rewrite star_longest_after.
  2:{ intros b c y rest Hy Hc. unfold at_boundary.
      by rewrite (digit_is_word y Hy), (digit_is_word c Hc). }
  2:{ by exists x, before. }
  unfold at_boundary at 1. fold (starts_with_word_char before).
  simpl starts_with_word_char at 2. rewrite (digit_is_word x Ex).
  rewrite xorb_true_r, andb_true_r.
  destruct (starts_with_word_char before); simpl; [done|].
  destruct (head_of_rev_run (fun c => is_digit c = true)
              (take_while is_digit r) x before) as (y & l & -> & Hy);
    [apply take_while_all|done|].
  unfold at_boundary. rewrite (digit_is_word y Hy).
  fold (starts_with_word_char (drop_while is_digit r)).
  rewrite xorb_true_l.
  destruct (starts_with_word_char (drop_while is_digit r)); simpl; [done|].
  unfold accept, number_match.
  pose proof (take_drop_while is_digit r) as Hr.
  revert Hr. generalize (take_while is_digit r) (drop_while is_digit r).
  intros tw dw <-. by rewrite (consumed_cons_app x tw dw).
Qed.

Lemma search_from_simple_number before s :
  search_from simple_number_re before s
  = number_match <$> first_standalone (starts_with_word_char before) s.
Proof.
  revert before. induction s as [|c s IH]; intros before;
    rewrite search_from_unfold, match_at_simple_number.
  - done.
  - change (first_standalone ?p (c :: s))
      with (match standalone_here p (c :: s) with
            | Some ds => Some ds
            | None => first_standalone (is_word c) s
            end).
    destruct (standalone_here _ (c :: s)); simpl; [done|]. apply IH.
Qed.

Lemma digits_after_spaces_digits s text ds :
  digits_after_spaces s = Some (text, ds) -> all_digits ds.
Proof.
  unfold digits_after_spaces.
  pose proof (take_while_all is_digit (drop_while is_space s)) as H.
  destruct (take_while is_digit (drop_while is_space s)); [done|].
  intros [= _ <-]. by split.
Qed.

Lemma first_marker_digits letter word s text ds :
  first_marker letter word s = Some (text, ds) -> all_digits ds.
Proof.
  assert (forall s, marker_here letter word s = Some (text, ds) ->
                    all_digits ds) as Hhere.
  { intros [|c rest]; simpl; [done|].
    destruct (Ascii.eqb c letter); [|done].
    destruct (starts_with word rest).
    - destruct (digits_after_spaces (drop (length word) rest))
        as [[t1 d1]|] eqn:E1.
      + intros [= _ <-]. by eapply digits_after_spaces_digits.
      + destruct (digits_after_spaces rest) as [[t2 d2]|] eqn:E2; [|done].
        intros [= _ <-]. by eapply digits_after_spaces_digits.
    - destruct (digits_after_spaces rest) as [[t2 d2]|] eqn:E2; [|done].
      intros [= _ <-]. by eapply digits_after_spaces_digits. }
  induction s as [|c s IH].
  - done.
  - change (first_marker letter word (c :: s))
      with (match marker_here letter word (c :: s) with
            | Some m => Some m
            | None => first_marker letter word s
            end).
    destruct (marker_here letter word (c :: s)) eqn:E; [|done].
    intros [= ->]. by eapply Hhere.
Qed.

Lemma first_standalone_digits prev s ds :
  first_standalone prev s = Some ds -> all_digits ds.
Proof.
  revert prev. induction s as [|c s IH]; intros prev; [done|].
  change (first_standalone prev (c :: s))
    with (match standalone_here prev (c :: s) with
          | Some ds => Some ds
          | None => first_standalone (is_word c) s
          end).
  destruct (standalone_here prev (c :: s)) as [ds'|] eqn:E; [|apply IH].
  intros [= ->]. unfold standalone_here in E.
  destruct (negb prev && is_digit c
            && negb (starts_with_word_char (drop_while is_digit s))) eqn:Hc;
    [|done].
  injection E as <-. split; [done|].
  constructor; [|apply take_while_all].
  by apply andb_prop in Hc as [[_ ?]%andb_prop _].
Qed.

Lemma int_group1_or_digits dflt text ds :
  all_digits ds ->
  int_group1_or dflt (MatchObj text (Some ds)) = default dflt (number_of ds).
Proof.
  intros H. unfold int_group1_or. simpl. rewrite (int_digits ds H).
  by destruct (number_of ds).
Qed.

(** What [extract_episode_number] computes, in terms of the markers. *)
Lemma extract_episode_number_eq title :
  let t := lower (or_empty title) in
  let season := first_marker "s" (py "eason") t in
  let episode := first_marker "e" (py "pisode") t in
  let found := default 9999 (marker_number episode) in
  extract_episode_number title
  = (default 1 (marker_number season),
     match season with
     | Some (text, _) =>
         if found =? 9999 then
           match first_standalone false (remove_all text t) with
           | Some ds => default found (number_of ds)
           | None => found
           end
         else found
     | None => found
     end).
Proof.
  intros t season episode found.
  unfold extract_episode_number, re_search. fold t.
  change season_re with (marker_re "s" (py "eason")).
  change episode_re with (marker_re "e" (py "pisode")).
  rewrite !search_from_marker. fold season episode.
  assert (match marker_match <$> episode with
          | Some m => int_group1_or 9999 m
          | None => 9999
          end = found) as ->.
  { unfold found. destruct episode as [[text ds]|] eqn:E; simpl; [|done].
    apply int_group1_or_digits. by eapply first_marker_digits. }
  destruct season as [[text ds]|] eqn:E; simpl; [|done].
  unfold marker_match. simpl.
  rewrite (int_group1_or_digits 1 text ds)
    by (by eapply first_marker_digits).
  f_equal. destruct (found =? 9999); [|done].
  rewrite search_from_simple_number. simpl.
  destruct (first_standalone false (remove_all text t)) as [ds'|] eqn:E';
    simpl; [|done].
  apply int_group1_or_digits. by eapply first_standalone_digits.
Qed.

(** ** C2 and C10: season and episode of a title *)

Lemma extract_episode_number_by_markers (title : option string) :
  ~ episode_9999_with_season (or_empty title) ->
  extract_episode_number title = season_episode_by_markers (or_empty title).
Proof.
  intros Hno.
  rewrite extract_episode_number_eq. unfold season_episode_by_markers.
  unfold episode_9999_with_season in Hno.
  set (t := lower (or_empty title)) in *.
  destruct (first_marker "e" (py "pisode") t) as [[etext eds]|] eqn:Ee.
  - destruct (first_marker "s" (py "eason") t) as [[stext sds]|] eqn:Es.
    2:{ simpl. by destruct (number_of eds). }
    f_equal. simpl. destruct (number_of eds) as [n|] eqn:En; simpl.
    + destruct (Z.eqb_spec n 9999) as [->|H]; [|done].
      destruct Hno. by exists etext, eds.
    + by destruct (first_standalone false (remove_all stext t)).
  - by destruct (first_marker "s" (py "eason") t) as [[stext sds]|].
Qed.

(** C2, as the code has it: the season is the number of the first season
    marker of the lowercased title (1 without one) and the episode the
    number of the first episode marker, a marker being the letter s or e,
    wherever it stands, optionally followed by the rest of the word, then
    optional whitespace and digits; a number of more than 4300 digits is
    not read, and its marker then gives no number. Without an episode number
    but with a season marker, the episode is the first standalone integer
    left once the text of the season marker is removed, and 9999 otherwise.
    Titles with an episode marker that reads 9999 next to a season marker
    are left aside. In particular "Season 2 Episode 5" gives (2, 5) and
    "random title" gives (1, 9999). *)
Theorem C2_season_episode_by_markers (title : option string) :
  ~ episode_9999_with_season (or_empty title) ->
  extract_episode_number title = season_episode_by_markers (or_empty title)
  /\ extract_episode_number (Some "Season 2 Episode 5"%string) = (2, 5)
  /\ extract_episode_number (Some "random title"%string) = (1, 9999).
Proof.
  intros Hno. split; [by apply extract_episode_number_by_markers|].
  by vm_compute.
Qed.

Lemma C2_witness :
  ~ episode_9999_with_season (or_empty (Some "Season 3 - 12 The End"%string))
  /\ extract_episode_number (Some "Season 3 - 12 The End"%string)
     = season_episode_by_markers (py "Season 3 - 12 The End")
  /\ season_episode_by_markers (py "Season 3 - 12 The End") = (3, 12).
Proof.
  assert (~ episode_9999_with_season
              (or_empty (Some "Season 3 - 12 The End"%string))) as Hno.
  { intros (text & ds & He & _). vm_compute in He. discriminate He. }
  split; [exact Hno|].
  split; [|by vm_compute].
  exact (proj1 (C2_season_episode_by_markers
                  (Some "Season 3 - 12 The End"%string) Hno)).
Defined.

(** C2 as stated fails: "Title 7" has neither "episode N" nor "eN" nor a
    season marker, so the claim gives the defaults (1, 9999), and the code
    returns episode 7, for the e that ends "Title" and the space after it. *)
Lemma C2_bare_e_then_space :
  extract_episode_number (Some "Title 7"%string) = (1, 7)
  /\ season_episode_as_stated (py "Title 7") = (1, 9999).
Proof. by vm_compute. Qed.

(** Outside the titles left aside in C2, the digits that follow the first
    e (after optional whitespace, or after the rest of "episode") are the
    episode number, when they are no more than [int] reads. *)
Lemma episode_of_first_e_digits (title : option string) text ds :
  first_marker "e" (py "pisode") (lower (or_empty title)) = Some (text, ds) ->
  Z.of_nat (length ds) <= int_max_str_digits ->
  ~ episode_9999_with_season (or_empty title) ->
  (extract_episode_number title).2 = digits_value 0 ds.
Proof.
  intros He Hlen Hno.
  rewrite (extract_episode_number_by_markers title Hno).
  unfold season_episode_by_markers. rewrite He. simpl.
  by rewrite number_of_short.
Qed.

(** C10 at a title the code gets wrong: in "Show S2 E9999 part 3" the first
    e followed by digits is the one of "e9999", so the claim gives episode
    9999; the code takes 9999 for "no episode found" and returns the
    standalone 3. "Title 7" gives (1, 7) as the claim says. *)
Theorem C10_e_digits_9999_replaced :
  first_marker "e" (py "pisode") (lower (py "Show S2 E9999 part 3"))
  = Some (py "e9999", py "9999")
  /\ digits_value 0 (py "9999") = 9999
  /\ extract_episode_number (Some "Show S2 E9999 part 3"%string) = (2, 3)
  /\ extract_episode_number (Some "Title 7"%string) = (1, 7).
Proof. by vm_compute. Qed.

(** The first entry of the header of [sample_download] is the address of
    the client. *)
Example sample_download_client_ip :
  get_client_ip sample_download = Some "203.0.113.7"%string.
Proof. reflexivity. Qed.

(** ** Witnesses of C3 and C5 *)

Lemma C3_witness :
  order_token (strip (or_empty (Some "  007. Intro"%string))) (py "007")
  /\ Z.of_nat (length (py "007")) <= int_max_str_digits
  /\ extract_movie_order_number (Some "  007. Intro"%string)
     = digits_value 0 (py "007")
  /\ digits_value 0 (py "007") = 7.
Proof.
  assert (order_token (strip (or_empty (Some "  007. Intro"%string)))
            (py "007")) as Htok.
  { split; [split; [discriminate|repeat constructor]|].
    exists (py " Intro"). reflexivity. }
  assert (Z.of_nat (length (py "007")) <= int_max_str_digits) as Hlen
    by (by vm_compute).
  split; [exact Htok|]. split; [exact Hlen|]. split; [|reflexivity].
  destruct (C3_extract_movie_order_number (Some "  007. Intro"%string))
    as [Hvalue _].
  exact (Hvalue (py "007") Htok Hlen).
Defined.

Lemma long_number_digits : all_digits long_number.
Proof.
  split.
  - intros H. apply (f_equal length) in H. unfold long_number in H.
    rewrite repeat_length in H. discriminate H.
  - apply Forall_forall. intros c Hc. apply list_elem_of_In in Hc.
    unfold long_number in Hc. by apply repeat_spec in Hc as ->.
Qed.

Lemma digits_value_snoc acc ds c :
  digits_value acc (ds ++ [c]) = 10 * digits_value acc ds + digit_value c.
Proof. revert acc. induction ds as [|d ds IH]; intros acc; simpl; [done|apply IH]. Qed.

(** The number [long_number] writes ends in 1. *)
Lemma long_number_value : digits_value 0 long_number <> 9999.
Proof.
  unfold long_number.
  change (repeat "1"%char 4301) with ("1"%char :: repeat "1"%char 4300).
  rewrite repeat_cons, digits_value_snoc.
  change (digit_value "1") with 1. lia.
Qed.

(** C3 as stated fails on a token longer than [int] reads: the trimmed
    title starts with a token of 4301 digits followed by a dot, whose
    integer is not 9999, and the code returns 9999, [int] having raised
    [ValueError]. *)
Lemma C3_number_too_long :
  order_token
    (strip (or_empty (Some (to_string (long_number ++ py ". Title")))))
    long_number
  /\ digits_value 0 long_number <> 9999
  /\ extract_movie_order_number
       (Some (to_string (long_number ++ py ". Title"))) = 9999.
Proof.
  split; [|split; [exact long_number_value|by vm_compute]].
  split; [exact long_number_digits|].
  exists (py " Title"). by vm_compute.
Qed.

Lemma C5_witness :
  exists pg,
    home_page_obj (seq 0 50) (Some "9"%string) = inr pg
    /\ number pg = 3
    /\ page_items pg = [48; 49]%nat.
Proof.
  destruct (C5_listing_pagination (seq 0 50) (Some "9"%string))
    as (pg & last & Hhome & _ & H1 & Hlast & _ & _ & _ & Hbeyond & _).
  assert (last = 3) as -> by (cbn [length seq] in Hlast; lia).
  exists pg. split; [exact Hhome|].
  destruct (Hbeyond 9 eq_refl ltac:(lia)) as (Hn & Hitems & _).
  split; [exact Hn|]. rewrite Hitems. reflexivity.
Defined.

(** C5 as stated fails on a page number longer than [int] reads: a page
    parameter of 4301 digits is a number beyond the last page of a listing
    of 50 items, which is page 3 with the items 48 and 49, and the view
    shows page 1. *)
Lemma C5_page_number_too_long :
  all_digits long_number
  /\ exists pg,
       home_page_obj (seq 0 50) (Some (to_string long_number)) = inr pg
       /\ number pg = 1
       /\ page_items pg = seq 0 24
       /\ page_items pg <> [48; 49]%nat.
Proof.
  split; [exact long_number_digits|].
  eexists. split; [by vm_compute|]. repeat split. discriminate.
Qed.

(** ** Further values *)

(** The reading of the markers used against C2 agrees with the two values
    the claim gives. *)
Example season_episode_as_stated_values :
  season_episode_as_stated (py "Season 2 Episode 5") = (2, 5)
  /\ season_episode_as_stated (py "random title") = (1, 9999).
Proof. by vm_compute. Qed.

Example extract_episode_number_values :
  extract_episode_number (Some "S01E02"%string) = (1, 2)
  /\ extract_episode_number (Some "Friends 3"%string) = (3, 9999)
  /\ extract_episode_number (Some "Series 2 Part 9"%string) = (2, 9)
  /\ extract_episode_number (Some "s1 e9999 5"%string) = (1, 5)
  /\ extract_episode_number None = (1, 9999).
Proof. by vm_compute. Qed.

(** A number of 4301 digits is not read: its marker leaves the default,
    and an episode marker that is not read lets the standalone number in. *)
Example extract_episode_number_long_numbers :
  extract_episode_number (Some (to_string (py "S1 E" ++ long_number)))
  = (1, 9999)
  /\ extract_episode_number (Some (to_string (py "S" ++ long_number ++ py " E5")))
     = (1, 5)
  /\ extract_episode_number
       (Some (to_string (py "E" ++ long_number ++ py " S2 - 7")))
     = (2, 7).
Proof. by vm_compute. Qed.

Example extract_movie_order_number_values :
  extract_movie_order_number (Some "12.5 Cut"%string) = 12
  /\ extract_movie_order_number (Some "9999. Last"%string) = 9999
  /\ extract_movie_order_number (Some "3 . Gap"%string) = 9999
  /\ extract_movie_order_number None = 9999.
Proof. by vm_compute. Qed.

Example detect_device_name_values :
  detect_device_name "Mozilla/5.0 (Windows NT 10.0)" = "Windows PC/Laptop"%string
  /\ detect_device_name "Mozilla/5.0 (Linux; Android 14)" = "Android"%string
  /\ detect_device_name "Mozilla/5.0 (iPhone; CPU iPhone OS 17_0)" = "iOS"%string
  /\ detect_device_name "Mozilla/5.0 (Macintosh; Intel Mac OS X)" = "Mac"%string
  /\ detect_device_name "curl/8.0" = "Unknown"%string.
Proof. by vm_compute. Qed.

(** The three calls of C4 on the sample requests. *)
Example run_calls_sample :
  trackers (run_calls column_text empty_db
              [Install sample_install; Uninstall sample_uninstall;
               Install sample_reopen]) !! "abc"%string
  = Some (MkInstallTracker "abc" 1 1 "iOS" "" "reinstall" 30).
Proof. by vm_compute. Qed.

Example playlist_detail_sample :
  playlist_detail sample_catalog 1
  = Rendered "playlist_detail.html"
      (MkPlaylist 1 "Series" None (Some 1),
       [MkMovie 12 (Some "Season 1 Episode 1"%string)
          "https://cdn.example/e1" (Some 1) None (Some 2);
        MkMovie 11 (Some "Season 1 Episode 2"%string)
          "https://cdn.example/e2" (Some 1) None (Some 3)]).
Proof. by vm_compute. Qed.

(** * Further properties of the views *)

(** ** Pages of a listing *)

Lemma take_app_drop {A} (l : list A) (a b : nat) :
  take a l ++ take b (drop a l) = take (a + b) l.
Proof.
  revert l. induction a as [|a IH]; intros [|x l]; simpl; try done.
  - by rewrite take_nil.
  - by rewrite IH.
Qed.

Lemma listing_page_shown {A} (items : list A) (page : option string) :
  exists pg,
    home_page_obj items page = inr pg
    /\ category_detail_page_obj items page = inr pg
    /\ page_items pg = take 24 (drop (Z.to_nat (24 * (number pg - 1))) items)
    /\ number pg
       = match int_of_arg (query_page page) with
         | None => 1
         | Some n =>
             if decide (1 <= n <= num_pages (MkPaginator items 24)) then n
             else num_pages (MkPaginator items 24)
         end.
Proof.
  destruct (get_page_number items (query_page page)) as (pg & H & Hi & Hn).
  exists pg. unfold home_page_obj, category_detail_page_obj.
  by rewrite paginate_get_page.
Qed.

Lemma pages_from {A} (items : list A) (pages : list (option string))
    (off : nat) :
  (Z.of_nat (off + length pages) <= num_pages (MkPaginator items 24)) ->
  (forall i q, pages !! i = Some q ->
     int_of_arg (query_page q) = Some (Z.of_nat (off + i) + 1)) ->
  concat (map (fun q => items_shown (home_page_obj items q)) pages)
  = take (24 * length pages) (drop (24 * off) items).
Proof.
  revert off. induction pages as [|q pages IH]; intros off Hlen Hq.
  - by rewrite Nat.mul_0_r.
  - cbn [map concat length] in *.
    destruct (listing_page_shown items q) as (pg & -> & _ & Hitems & Hn).
    cbn [items_shown]. rewrite (Hq 0%nat q eq_refl) in Hn.
    destruct (decide (1 <= Z.of_nat (off + 0) + 1
                      <= num_pages (MkPaginator items 24))) as [_|Hout];
      [|lia].
    rewrite Hitems, Hn.
    replace (Z.to_nat (24 * (Z.of_nat (off + 0) + 1 - 1))) with (24 * off)%nat
      by lia.
    rewrite (IH (S off)).
    + replace (24 * S off)%nat with (24 * off + 24)%nat by lia.
      rewrite <- drop_drop.
      replace (24 * S (length pages))%nat with (24 + 24 * length pages)%nat
        by lia.
      apply take_app_drop.
    + lia.
    + intros i q' Hi. rewrite (Hq (S i) q' Hi). f_equal. lia.
Qed.

(** X1: the pages of a listing, taken in order from page 1 to the last
    page, give the listing back: no item is hidden and none is shown
    twice. *)
Theorem pages_cover_listing {A : Type} (items : list A)
    (pages : list (option string)) :
  Z.of_nat (length pages) = num_pages (MkPaginator items 24) ->
  (forall i q, pages !! i = Some q ->
     int_of_arg (query_page q) = Some (Z.of_nat i + 1)) ->
  concat (map (fun q => items_shown (home_page_obj items q)) pages) = items
  /\ concat (map (fun q => items_shown (category_detail_page_obj items q))
               pages) = items.
Proof.
  intros Hlen Hq.
  assert (concat (map (fun q => items_shown (home_page_obj items q)) pages)
          = items) as Hhome.
  { rewrite (pages_from items pages 0); [|simpl; lia|exact Hq].
    rewrite drop_0. apply take_ge.
    pose proof (num_pages_bounds items) as (_ & _ & Hhi).
    unfold count in Hhi. simpl in Hhi. lia. }
  split; [done|]. exact Hhome.
Qed.

Lemma pages_cover_listing_witness :
  concat (map (fun q => items_shown (home_page_obj (seq 0 50) q))
            [Some "1"%string; Some "2"%string; Some "3"%string])
  = seq 0 50.
Proof.
  apply (pages_cover_listing (seq 0 50)
           [Some "1"%string; Some "2"%string; Some "3"%string]).
  - reflexivity.
  - intros [|[|[|i]]] q H; simpl in H; try discriminate; by injection H as <-.
Defined.

(** X2: a page parameter that is an integer below 1 ("0", "-3") gives the
    last page of the listing, not the first. *)
Theorem page_below_one_is_last_page {A : Type} (items : list A)
    (page : option string) (n : Z) :
  int_of_arg (query_page page) = Some n ->
  n < 1 ->
  exists pg,
    home_page_obj items page = inr pg
    /\ category_detail_page_obj items page = inr pg
    /\ number pg = num_pages (MkPaginator items 24)
    /\ page_items pg
       = drop (Z.to_nat (24 * (num_pages (MkPaginator items 24) - 1))) items.
Proof.
  intros Hint Hn.
  destruct (listing_page_shown items page) as (pg & Hh & Hc & Hitems & Hnum).
  rewrite Hint in Hnum.
  destruct (decide (1 <= n <= num_pages (MkPaginator items 24))); [lia|].
  exists pg. repeat split; try done.
  rewrite Hitems, Hnum. apply take_ge. rewrite length_drop.
  pose proof (num_pages_bounds items) as (_ & _ & Hhi).
  unfold count in Hhi. simpl in Hhi. lia.
Qed.

Lemma page_below_one_is_last_page_witness :
  exists pg,
    home_page_obj (seq 0 50) (Some "-3"%string) = inr pg
    /\ number pg = 3
    /\ page_items pg = [48; 49]%nat.
Proof.
  destruct (page_below_one_is_last_page (seq 0 50) (Some "-3"%string) (-3)
              eq_refl ltac:(lia))
    as (pg & Hh & _ & Hn & Hitems).
  exists pg. split; [exact Hh|]. split; [exact Hn|exact Hitems].
Defined.

(** X3: every page before the last one has exactly 24 items; the last page
    has the rest, between 1 and 24 items, and an empty listing has a single
    page, which is empty. *)
Theorem page_sizes {A : Type} (items : list A) (page : option string) :
  let last := num_pages (MkPaginator items 24) in
  exists pg,
    home_page_obj items page = inr pg
    /\ (number pg < last -> length (page_items pg) = 24%nat)
    /\ (number pg = last ->
        Z.of_nat (length (page_items pg))
        = Z.of_nat (length items) - 24 * (last - 1))
    /\ (items <> [] -> (1 <= length (page_items pg) <= 24)%nat)
    /\ (items = [] -> last = 1 /\ page_items pg = []).
Proof.
  intros last.
  destruct (listing_page_shown items page) as (pg & Hh & _ & Hitems & Hnum).
  fold last in Hnum.
  pose proof (num_pages_bounds items) as (H1 & Hlo & Hhi).
  fold last in H1, Hlo, Hhi. unfold count in Hlo, Hhi. simpl in Hlo, Hhi.
  assert (1 <= number pg <= last) as Hrange.
  { rewrite Hnum. destruct (int_of_arg (query_page page)) as [n|]; [|lia].
    destruct (decide (1 <= n <= last)); lia. }
  exists pg. split; [done|].
  assert (length (page_items pg)
          = Nat.min 24 (length items - Z.to_nat (24 * (number pg - 1))))
    as Hlen by (by rewrite Hitems, length_take, length_drop).
  split; [|split; [|split]].
  - intros Hlt. lia.
  - intros Heq. lia.
  - intros Hne. destruct items; [done|]. cbn [length] in *. lia.
  - intros ->. cbn [length] in *. split; [lia|].
    rewrite Hitems. by rewrite drop_nil, take_nil.
Qed.

(** ** The home listing *)

Lemma newest_first_perm l : newest_first l ≡ₚ l.
Proof. apply sort_by_perm. Qed.

Lemma newest_first_sorted l :
  StronglySorted (fun a b => created_key b <= created_key a) (newest_first l).
Proof.
  eapply (StronglySorted_weaken
            (fun a b => (created_key b <=? created_key a) = true)).
  - intros a b. apply Z.leb_le.
  - apply (sort_by_sorted (fun a b => b <=? a) created_key); intros; lia.
Qed.

Lemma home_renders icontains db categories query page :
  exists pg,
    home icontains db categories query page
    = inr (Rendered "home.html"
             (MkHomeContext pg categories query
                (if query_given query
                 then NotFoundBool
                        (match newest_first (home_matches icontains db query)
                         with [] => true | _ :: _ => false end)
                 else NotFoundQuery query) pg))
    /\ page_items pg
       = take 24 (drop (Z.to_nat (24 * (number pg - 1)))
                    (newest_first (home_matches icontains db query))).
Proof.
  unfold home.
  destruct (listing_page_shown
              (newest_first (home_matches icontains db query)) page)
    as (pg & -> & _ & Hitems & _).
  by exists pg.
Qed.

(** X4: without a search text (no [q], or an empty one) the home listing
    holds every playlist and every movie that belongs to no playlist, and
    nothing else, the newest first; the page shown is cut out of that
    listing and [not_found] is false. *)
Theorem home_without_query (icontains : string -> string -> bool)
    (db : database) (categories : list Category) (query page : option string) :
  query_given query = false ->
  exists listing pg,
    home icontains db categories query page
    = inr (Rendered "home.html"
             (MkHomeContext pg categories query (NotFoundQuery query) pg))
    /\ not_found_truth (NotFoundQuery query) = false
    /\ listing ≡ₚ map MediaPlaylist (playlists db)
                   ++ map MediaMovie (movies_without_playlist db)
    /\ StronglySorted (fun a b => created_key b <= created_key a) listing
    /\ page_items pg
       = take 24 (drop (Z.to_nat (24 * (number pg - 1))) listing).
Proof.
  intros Hq.
  destruct (home_renders icontains db categories query page)
    as (pg & Hhome & Hitems).
  rewrite Hq in Hhome.
  exists (newest_first (home_matches icontains db query)), pg.
  split; [done|]. split; [done|]. split; [|split; [|done]].
  - rewrite newest_first_perm. unfold home_matches. by rewrite Hq.
  - apply newest_first_sorted.
Qed.

Lemma home_without_query_witness :
  query_given (Some ""%string) = false
  /\ exists (listing : list media) pg,
       home sample_icontains sample_fifty [] (Some ""%string)
         (Some "3"%string)
       = inr (Rendered "home.html"
                (MkHomeContext pg [] (Some ""%string)
                   (NotFoundQuery (Some ""%string)) pg))
       /\ length listing = 50%nat
       /\ map movie_id
            (omap (fun x => match x with
                            | MediaMovie m => Some m
                            | MediaPlaylist _ => None
                            end) (page_items pg))
          = [1; 0].
Proof.
  split; [reflexivity|].
  destruct (home_without_query sample_icontains sample_fifty []
              (Some ""%string) (Some "3"%string) eq_refl)
    as (listing & pg & Hhome & _ & Hperm & _ & _).
  exists listing, pg. split; [exact Hhome|].
  split; [by rewrite Hperm|].
  vm_compute in Hhome. injection Hhome as <-. reflexivity.
Defined.

Lemma elem_of_filter_list {A} (f : A -> bool) (l : list A) x :
  x ∈ List.filter f l <-> x ∈ l /\ f x = true.
Proof. rewrite !list_elem_of_In. apply filter_In. Qed.

(** X5: with a search text, the home listing holds exactly the playlists
    whose name matches it and the movies outside playlists whose title
    matches it (a movie without title never matches), and [not_found] is
    true exactly when the listing is empty. *)
Theorem home_search (icontains : string -> string -> bool)
    (db : database) (categories : list Category) (q : string)
    (page : option string) :
  q <> ""%string ->
  exists listing pg b,
    home icontains db categories (Some q) page
    = inr (Rendered "home.html"
             (MkHomeContext pg categories (Some q) (NotFoundBool b) pg))
    /\ (b = true <-> listing = [])
    /\ (forall p, MediaPlaylist p ∈ listing
          <-> p ∈ playlists db /\ icontains q (playlist_name p) = true)
    /\ (forall m, MediaMovie m ∈ listing
          <-> m ∈ movies db /\ playlist m = None
              /\ exists t, title m = Some t /\ icontains q t = true)
    /\ StronglySorted (fun a b => created_key b <= created_key a) listing
    /\ page_items pg
       = take 24 (drop (Z.to_nat (24 * (number pg - 1))) listing).
Proof.
  intros Hq.
  assert (query_given (Some q) = true) as Hg.
  { simpl. by apply negb_true_iff, String.eqb_neq. }
  destruct (home_renders icontains db categories (Some q) page)
    as (pg & Hhome & Hitems).
  rewrite Hg in Hhome.
  exists (newest_first (home_matches icontains db (Some q))), pg.
  eexists. split; [exact Hhome|].
  split; [by destruct (newest_first _)|].
  assert (forall x, x ∈ newest_first (home_matches icontains db (Some q))
            <-> x ∈ map MediaPlaylist
                      (List.filter (name_icontains icontains q) (playlists db))
                    ++ map MediaMovie
                         (List.filter (title_icontains icontains q)
                            (movies_without_playlist db))) as Hin.
  { intros x. rewrite newest_first_perm. unfold home_matches. by rewrite Hg. }
  split; [|split; [|split; [apply newest_first_sorted|done]]].
  - intros p. rewrite Hin, elem_of_app, !list_elem_of_fmap. split.
    + intros [(p' & [= <-] & Hp)|(m & [=] & _)].
      by apply elem_of_filter_list in Hp.
    + intros [Hp Hm]. left. exists p. split; [done|].
      by apply elem_of_filter_list.
  - intros m. rewrite Hin, elem_of_app, !list_elem_of_fmap. split.
    + intros [(p & [=] & _)|(m' & [= <-] & Hm)].
      apply elem_of_filter_list in Hm as [Hm Ht].
      apply elem_of_filter_list in Hm as [Hm Hp].
      split; [done|]. split; [by destruct (playlist m)|].
      unfold title_icontains in Ht. destruct (title m) as [t|]; [|done].
      by exists t.
    + intros (Hm & Hp & t & Ht & Hi). right. exists m. split; [done|].
      apply elem_of_filter_list. split.
      * apply elem_of_filter_list. split; [done|]. by rewrite Hp.
      * unfold title_icontains. by rewrite Ht.
Qed.

Lemma home_search_witness :
  "zzz"%string <> ""%string
  /\ exists pg,
       home sample_icontains sample_fifty [] (Some "zzz"%string) None
       = inr (Rendered "home.html"
                (MkHomeContext pg [] (Some "zzz"%string) (NotFoundBool true)
                   pg)).
Proof.
  split; [discriminate|].
  destruct (home_search sample_icontains sample_fifty [] "zzz" None
              ltac:(discriminate))
    as (listing & pg & b & Hhome & Hb & _).
  exists pg. rewrite Hhome. do 3 f_equal.
  vm_compute in Hhome. by injection Hhome as _ <-.
Defined.

(** ** The listing of a category *)

Lemma starts_with_prefix (p post : str) : starts_with p (p ++ post) = true.
Proof.
  induction p as [|c p IH]; simpl; [done|].
  by rewrite Ascii.eqb_refl, IH.
Qed.

(** [sub in s] holds exactly when [sub] is a substring of [s]. *)
Lemma contains_substring (sub s : str) :
  contains sub s = true <-> substring sub s.
Proof.
  unfold substring. induction s as [|c s IH].
  - simpl. rewrite orb_false_r. split.
    + intros H%starts_with_app. exists [], (drop (length sub) []).
      exact H.
    + intros (pre & post & H). symmetry in H.
      apply app_eq_nil in H as [-> H]. apply app_eq_nil in H as [-> _]. done.
  - change (contains sub (c :: s))
      with (starts_with sub (c :: s) || contains sub s).
    rewrite orb_true_iff, IH. split.
    + intros [H%starts_with_app|(pre & post & ->)].
      * by exists [], (drop (length sub) (c :: s)).
      * by exists (c :: pre), post.
    + intros ([|x pre] & post & H).
      * left. simpl in H. rewrite H. apply starts_with_prefix.
      * right. injection H as -> ->. by exists pre, post.
Qed.

Lemma movies_with_title_titled q ms :
  Forall (fun m => title m <> None) ms ->
  movies_with_title q ms = inr (List.filter (title_has q) ms).
Proof.
  induction 1 as [|m ms Hm _ IH]; simpl; [done|].
  unfold title_has at 1. destruct (title m) as [t|]; [|done].
  rewrite IH. by destruct (contains q (lower (of_string t))).
Qed.

Lemma movies_with_title_untitled q ms :
  Exists (fun m => title m = None) ms ->
  movies_with_title q ms
  = inl (AttributeError "'NoneType' object has no attribute 'lower'").
Proof.
  induction 1 as [m ms Hm|m ms _ IH]; simpl.
  - by rewrite Hm.
  - destruct (title m); [|done]. by rewrite IH.
Qed.

Lemma titled_or_not (ms : list Movie) :
  Forall (fun m => title m <> None) ms
  \/ Exists (fun m => title m = None) ms.
Proof.
  induction ms as [|m ms [IH|IH]].
  - left. constructor.
  - destruct (title m) eqn:E.
    + left. constructor; [congruence|done].
    + right. by constructor.
  - right. by constructor 2.
Qed.

Lemma category_detail_renders icontains db categories id cat query page items :
  get_category categories id = Some cat ->
  category_items icontains db cat query = inr items ->
  exists pg,
    category_detail icontains db categories id query page
    = inr (Rendered "category_detail.html"
             (MkCategoryContext cat pg query pg))
    /\ page_items pg
       = take 24 (drop (Z.to_nat (24 * (number pg - 1))) items).
Proof.
  intros Hcat Hitems. unfold category_detail. rewrite Hcat, Hitems.
  destruct (listing_page_shown items page) as (pg & _ & -> & Hpg & _).
  by exists pg.
Qed.

Lemma category_items_without_query icontains db cat query :
  query_given query = false ->
  category_items icontains db cat query
  = inr (if has_numeric_order_loop (take 5 (movies_of_category db cat))
         then map MediaMovie
                (sort_by Z.leb
                   (fun m => extract_movie_order_number (title m))
                   (movies_of_category db cat))
              ++ map MediaPlaylist (playlists_of_category db cat)
         else newest_first
                (map MediaMovie (movies_of_category db cat)
                 ++ map MediaPlaylist (playlists_of_category db cat))).
Proof.
  intros Hq. unfold category_items. rewrite Hq.
  fold (movies_of_category db cat) (playlists_of_category db cat).
  replace (slice (movies_of_category db cat) 0 5)
    with (take 5 (movies_of_category db cat))
    by (symmetry; apply (slice_prefix _ 5)).
  by destruct (has_numeric_order_loop _).
Qed.

(** X6: when one of the first five movies fetched for a category has a
    leading order number other than 9999 (and no search text is given), the
    listing of the category is all its movies in ascending order of that
    number followed by all its playlists in the order they were fetched,
    whatever their creation times. *)
Theorem category_numbered_movies_first
    (icontains : string -> string -> bool) (db : database)
    (categories : list Category) (id : Z) (cat : Category)
    (query page : option string) :
  get_category categories id = Some cat ->
  query_given query = false ->
  Exists (fun m => extract_movie_order_number (title m) <> 9999)
    (take 5 (movies_of_category db cat)) ->
  exists ms pg,
    category_detail icontains db categories id query page
    = inr (Rendered "category_detail.html"
             (MkCategoryContext cat pg query pg))
    /\ ms ≡ₚ movies_of_category db cat
    /\ StronglySorted
         (fun a b => extract_movie_order_number (title a)
                     <= extract_movie_order_number (title b)) ms
    /\ page_items pg
       = take 24 (drop (Z.to_nat (24 * (number pg - 1)))
                    (map MediaMovie ms
                     ++ map MediaPlaylist (playlists_of_category db cat))).
Proof.
  intros Hcat Hq Hnum.
  pose proof (category_items_without_query icontains db cat query Hq) as Hi.
  apply has_numeric_order_loop_true in Hnum. rewrite Hnum in Hi.
  destruct (category_detail_renders icontains db categories id cat query page
              _ Hcat Hi) as (pg & Hr & Hpg).
  exists (sort_by Z.leb (fun m => extract_movie_order_number (title m))
            (movies_of_category db cat)), pg.
  split; [exact Hr|].
  split; [apply sort_by_perm|]. split; [|exact Hpg].
  apply (sort_by_Z_sorted (fun m => extract_movie_order_number (title m))).
Qed.

(** X7: when none of the first five movies fetched for a category has a
    leading order number (and no search text is given), the listing holds
    the movies and the playlists of the category together, the newest
    first. *)
Theorem category_newest_first
    (icontains : string -> string -> bool) (db : database)
    (categories : list Category) (id : Z) (cat : Category)
    (query page : option string) :
  get_category categories id = Some cat ->
  query_given query = false ->
  Forall (fun m => extract_movie_order_number (title m) = 9999)
    (take 5 (movies_of_category db cat)) ->
  exists listing pg,
    category_detail icontains db categories id query page
    = inr (Rendered "category_detail.html"
             (MkCategoryContext cat pg query pg))
    /\ listing ≡ₚ map MediaMovie (movies_of_category db cat)
                   ++ map MediaPlaylist (playlists_of_category db cat)
    /\ StronglySorted (fun a b => created_key b <= created_key a) listing
    /\ page_items pg
       = take 24 (drop (Z.to_nat (24 * (number pg - 1))) listing).
Proof.
  intros Hcat Hq Hnum.
  pose proof (category_items_without_query icontains db cat query Hq) as Hi.
  apply has_numeric_order_loop_false in Hnum. rewrite Hnum in Hi.
  destruct (category_detail_renders icontains db categories id cat query page
              _ Hcat Hi) as (pg & Hr & Hpg).
  exists (newest_first
            (map MediaMovie (movies_of_category db cat)
             ++ map MediaPlaylist (playlists_of_category db cat))), pg.
  split; [exact Hr|].
  split; [apply newest_first_perm|]. split; [|exact Hpg].
  apply newest_first_sorted.
Qed.

(** X8: [category_detail] answers 404 for an unknown category; it lets the
    [AttributeError] of [None.lower()] escape when a search text is given
    and a movie of the category has no title; and it renders the page when
    no search text is given or every movie of the category has a title,
    every movie and playlist of the category having a creation time. *)
Theorem category_detail_outcomes
    (icontains : string -> string -> bool) (db : database)
    (categories : list Category) (id : Z) (query page : option string) :
  (get_category categories id = None ->
   category_detail icontains db categories id query page = inr Http404)
  /\ (forall cat,
        get_category categories id = Some cat ->
        query_given query = true ->
        Exists (fun m => title m = None) (movies_of_category db cat) ->
        category_detail icontains db categories id query page
        = inl (AttributeError "'NoneType' object has no attribute 'lower'"))
  /\ (forall cat,
        get_category categories id = Some cat ->
        query_given query = false
        \/ Forall (fun m => title m <> None) (movies_of_category db cat) ->
        Forall (fun m => created_at m <> None) (movies_of_category db cat) ->
        Forall (fun p => playlist_created_at p <> None)
          (playlists_of_category db cat) ->
        exists pg,
          category_detail icontains db categories id query page
          = inr (Rendered "category_detail.html"
                   (MkCategoryContext cat pg query pg))).
Proof.
  split; [|split].
  - intros Hcat. unfold category_detail. by rewrite Hcat.
  - intros cat Hcat Hq Hex. unfold category_detail, category_items.
    rewrite Hcat, Hq. fold (movies_of_category db cat).
    by rewrite (movies_with_title_untitled _ _ Hex).
  - intros cat Hcat Hshown _ _.
    assert (exists items, category_items icontains db cat query = inr items)
      as [items Hitems].
    { destruct (query_given query) eqn:Hq.
      - destruct Hshown as [Hno|Hall]; [done|].
        unfold category_items. rewrite Hq.
        fold (movies_of_category db cat).
        rewrite (movies_with_title_titled _ _ Hall). by eexists.
      - rewrite (category_items_without_query icontains db cat query Hq).
        by eexists. }
    destruct (category_detail_renders icontains db categories id cat query
                page items Hcat Hitems) as (pg & Hr & _).
    by exists pg.
Qed.

Lemma category_detail_outcomes_witness :
  category_detail sample_icontains sample_shelves sample_categories 2
    (Some "old"%string) None
  = inl (AttributeError "'NoneType' object has no attribute 'lower'")
  /\ (exists pg,
        category_detail sample_icontains sample_shelves sample_categories 1
          (Some "first"%string) None
        = inr (Rendered "category_detail.html"
                 (MkCategoryContext (MkCategory 1 "Action") pg
                    (Some "first"%string) pg)))
  /\ category_detail sample_icontains sample_shelves sample_categories 7
       (Some "first"%string) None
     = inr Http404.
Proof.
  split; [|split].
  - destruct (category_detail_outcomes sample_icontains sample_shelves
                sample_categories 2 (Some "old"%string) None)
      as (_ & Hraises & _).
    apply (Hraises (MkCategory 2 "Drama")); [reflexivity|reflexivity|].
    apply Exists_cons_hd. reflexivity.
  - destruct (category_detail_outcomes sample_icontains sample_shelves
                sample_categories 1 (Some "first"%string) None)
      as (_ & _ & Hrenders).
    apply (Hrenders (MkCategory 1 "Action")); [reflexivity|..].
    + right. repeat constructor; discriminate.
    + repeat constructor; discriminate.
    + repeat constructor; discriminate.
  - destruct (category_detail_outcomes sample_icontains sample_shelves
                sample_categories 7 (Some "first"%string) None)
      as (Hmissing & _).
    by apply Hmissing.
Defined.

Lemma category_numbered_movies_first_witness :
  get_category sample_categories 1 = Some (MkCategory 1 "Action")
  /\ exists pg,
       category_detail sample_icontains sample_shelves sample_categories 1
         None None
       = inr (Rendered "category_detail.html"
                (MkCategoryContext (MkCategory 1 "Action") pg None pg))
       /\ page_items pg
          = [MediaMovie sample_first; MediaMovie sample_second;
             MediaPlaylist sample_saga].
Proof.
  split; [reflexivity|].
  destruct (category_numbered_movies_first sample_icontains sample_shelves
              sample_categories 1 (MkCategory 1 "Action") None None
              eq_refl eq_refl)
    as (ms & pg & Hr & _).
  { apply Exists_cons_hd. by vm_compute. }
  exists pg. split; [exact Hr|].
  vm_compute in Hr. by injection Hr as <-.
Defined.

Lemma category_newest_first_witness :
  get_category sample_categories 2 = Some (MkCategory 2 "Drama")
  /\ exists pg,
       category_detail sample_icontains sample_shelves sample_categories 2
         (Some ""%string) None
       = inr (Rendered "category_detail.html"
                (MkCategoryContext (MkCategory 2 "Drama") pg (Some ""%string)
                   pg))
       /\ page_items pg
          = [MediaMovie sample_untitled; MediaPlaylist sample_old_list].
Proof.
  split; [reflexivity|].
  destruct (category_newest_first sample_icontains sample_shelves
              sample_categories 2 (MkCategory 2 "Drama") (Some ""%string) None
              eq_refl eq_refl)
    as (listing & pg & Hr & _).
  { repeat constructor. }
  exists pg. split; [exact Hr|].
  vm_compute in Hr. by injection Hr as <-.
Defined.

(** A search in the second category meets the film without title. *)
Example category_detail_raises_sample :
  category_detail sample_icontains sample_shelves sample_categories 2
    (Some "old"%string) None
  = inl (AttributeError "'NoneType' object has no attribute 'lower'").
Proof. reflexivity. Qed.

(** X9: a search in a category whose movies all have a title lists
    exactly the movies of the category whose lowercased title contains the
    lowercased search text, and the playlists of the category that the
    database matches on their name. *)
Theorem category_search
    (icontains : string -> string -> bool) (db : database)
    (categories : list Category) (id : Z) (cat : Category) (q : string)
    (page : option string) :
  get_category categories id = Some cat ->
  q <> ""%string ->
  Forall (fun m => title m <> None) (movies_of_category db cat) ->
  exists listing pg,
    category_detail icontains db categories id (Some q) page
    = inr (Rendered "category_detail.html"
             (MkCategoryContext cat pg (Some q) pg))
    /\ (forall m, MediaMovie m ∈ listing
          <-> m ∈ movies_of_category db cat
              /\ exists t, title m = Some t
                   /\ substring (lower (of_string q)) (lower (of_string t)))
    /\ (forall p, MediaPlaylist p ∈ listing
          <-> p ∈ playlists_of_category db cat
              /\ icontains q (playlist_name p) = true)
    /\ page_items pg
       = take 24 (drop (Z.to_nat (24 * (number pg - 1))) listing).
Proof.
  intros Hcat Hq Hall.
  assert (query_given (Some q) = true) as Hg.
  { simpl. by apply negb_true_iff, String.eqb_neq. }
  set (kept := List.filter (title_has (lower (of_string q)))
                 (movies_of_category db cat)).
  set (lists := List.filter (name_icontains icontains q)
                  (playlists_of_category db cat)).
  assert (exists listing,
            category_items icontains db cat (Some q) = inr listing
            /\ listing ≡ₚ map MediaMovie kept ++ map MediaPlaylist lists)
    as (listing & Hitems & Hperm).
  { unfold category_items. rewrite Hg.
    fold (movies_of_category db cat) (playlists_of_category db cat).
    simpl default. rewrite (movies_with_title_titled _ _ Hall).
    fold kept lists.
    destruct (has_numeric_order_loop (slice kept 0 5)).
    - eexists. split; [reflexivity|]. by rewrite sort_by_perm.
    - eexists. split; [reflexivity|]. apply newest_first_perm. }
  destruct (category_detail_renders icontains db categories id cat (Some q)
              page listing Hcat Hitems) as (pg & Hr & Hpg).
  exists listing, pg. split; [exact Hr|].
  split; [|split; [|exact Hpg]].
  - intros m. rewrite Hperm, elem_of_app, !list_elem_of_fmap. split.
    + intros [(m' & [= <-] & Hm)|(p & [=] & _)].
      apply elem_of_filter_list in Hm as [Hm Ht]. split; [done|].
      unfold title_has in Ht. destruct (title m) as [t|]; [|done].
      exists t. split; [done|]. by apply contains_substring.
    + intros (Hm & t & Ht & Hsub). left. exists m. split; [done|].
      apply elem_of_filter_list. split; [done|].
      unfold title_has. rewrite Ht. by apply contains_substring.
  - intros p. rewrite Hperm, elem_of_app, !list_elem_of_fmap. split.
    + intros [(m & [=] & _)|(p' & [= <-] & Hp)].
      by apply elem_of_filter_list in Hp.
    + intros [Hp Hn]. right. exists p. split; [done|].
      by apply elem_of_filter_list.
Qed.

Lemma category_search_witness :
  get_category sample_categories 1 = Some (MkCategory 1 "Action")
  /\ "FIR"%string <> ""%string
  /\ Forall (fun m => title m <> None)
       (movies_of_category sample_shelves (MkCategory 1 "Action"))
  /\ exists pg,
       category_detail sample_icontains sample_shelves sample_categories 1
         (Some "FIR"%string) None
       = inr (Rendered "category_detail.html"
                (MkCategoryContext (MkCategory 1 "Action") pg
                   (Some "FIR"%string) pg))
       /\ page_items pg = [MediaMovie sample_first].
Proof.
  assert (Forall (fun m => title m <> None)
            (movies_of_category sample_shelves (MkCategory 1 "Action")))
    as Hall by (repeat constructor; discriminate).
  split; [reflexivity|]. split; [discriminate|]. split; [exact Hall|].
  destruct (category_search sample_icontains sample_shelves sample_categories
              1 (MkCategory 1 "Action") "FIR" None eq_refl
              ltac:(discriminate) Hall)
    as (listing & pg & Hr & _).
  exists pg. split; [exact Hr|].
  vm_compute in Hr. by injection Hr as <-.
Defined.

(** ** Device names *)

(** X10: [detect_device_name] goes by the keywords found in the lowercased
    user agent, in this order: "windows", "android", then "iphone", "ipad"
    or "ios", then "mac"; so an iPhone that announces "like Mac OS X" is
    iOS, and a user agent with none of the keywords is "Unknown". *)
Theorem detect_device_name_by_keywords (ua : string) :
  let has := fun w : string => substring (py w) (lower (of_string ua)) in
  (has "windows" -> detect_device_name ua = "Windows PC/Laptop"%string)
  /\ (~ has "windows" -> has "android" ->
      detect_device_name ua = "Android"%string)
  /\ (~ has "windows" -> ~ has "android" ->
      has "iphone" \/ has "ipad" \/ has "ios" ->
      detect_device_name ua = "iOS"%string)
  /\ (~ has "windows" -> ~ has "android" ->
      ~ has "iphone" -> ~ has "ipad" -> ~ has "ios" -> has "mac" ->
      detect_device_name ua = "Mac"%string)
  /\ (~ has "windows" -> ~ has "android" ->
      ~ has "iphone" -> ~ has "ipad" -> ~ has "ios" -> ~ has "mac" ->
      detect_device_name ua = "Unknown"%string).
Proof.
  intros has. unfold detect_device_name.
  assert (forall w, contains (py w) (lower (of_string ua)) = true <-> has w)
    as Hc by (intros w; apply contains_substring).
  assert (forall w, contains (py w) (lower (of_string ua)) = false <-> ~ has w)
    as Hn by (intros w; rewrite <- Hc; symmetry; apply not_true_iff_false).
  repeat split.
  - intros Hw. by rewrite (proj2 (Hc _) Hw).
  - intros Hw Ha. by rewrite (proj2 (Hn _) Hw), (proj2 (Hc _) Ha).
  - intros Hw Ha Hi. rewrite (proj2 (Hn _) Hw), (proj2 (Hn _) Ha).
    destruct Hi as [Hi|[Hi|Hi]]; rewrite (proj2 (Hc _) Hi);
      by rewrite ?orb_true_r.
  - intros Hw Ha H1 H2 H3 Hm.
    by rewrite (proj2 (Hn _) Hw), (proj2 (Hn _) Ha), (proj2 (Hn _) H1),
      (proj2 (Hn _) H2), (proj2 (Hn _) H3), (proj2 (Hc _) Hm).
  - intros Hw Ha H1 H2 H3 Hm.
    by rewrite (proj2 (Hn _) Hw), (proj2 (Hn _) Ha), (proj2 (Hn _) H1),
      (proj2 (Hn _) H2), (proj2 (Hn _) H3), (proj2 (Hn _) Hm).
Qed.

Lemma detect_device_name_by_keywords_witness :
  substring (py "iphone")
    (lower (of_string "Mozilla/5.0 (iPhone; CPU iPhone OS 17_0 like Mac OS X)"))
  /\ substring (py "mac")
       (lower (of_string "Mozilla/5.0 (iPhone; CPU iPhone OS 17_0 like Mac OS X)"))
  /\ detect_device_name "Mozilla/5.0 (iPhone; CPU iPhone OS 17_0 like Mac OS X)"
     = "iOS"%string.
Proof.
  assert (forall w,
            contains (py w)
              (lower (of_string
                 "Mozilla/5.0 (iPhone; CPU iPhone OS 17_0 like Mac OS X)"))
            = true ->
            substring (py w)
              (lower (of_string
                 "Mozilla/5.0 (iPhone; CPU iPhone OS 17_0 like Mac OS X)")))
    as Hh by (intros w; apply contains_substring).
  assert (forall w,
            contains (py w)
              (lower (of_string
                 "Mozilla/5.0 (iPhone; CPU iPhone OS 17_0 like Mac OS X)"))
            = false ->
            ~ substring (py w)
                (lower (of_string
                   "Mozilla/5.0 (iPhone; CPU iPhone OS 17_0 like Mac OS X)")))
    as Hn.
  { intros w H Hs. apply contains_substring in Hs. congruence. }
  split; [by apply Hh|]. split; [by apply Hh|].
  destruct (detect_device_name_by_keywords
              "Mozilla/5.0 (iPhone; CPU iPhone OS 17_0 like Mac OS X)")
    as (_ & _ & Hios & _).
  apply Hios; [by apply Hn|by apply Hn|]. left. by apply Hh.
Defined.

(** ** Responses and counts of the tracking endpoints *)

Section TrackingMore.
Variable db_text : json -> string.

Lemma track_install_result db r d :
  names_device db_text r d ->
  exists device,
    track_install db_text db r
    = (save_tracker (installed_row db_text r d (trackers db !! d)) db,
       JsonResponse 200
         (JDict [("status", JStr "success");
                 ("message", JStr (install_message (trackers db !! d)));
                 ("device", device);
                 ("total_active_installs",
                  JInt (total_active_installs
                          (save_tracker
                             (installed_row db_text r d (trackers db !! d))
                             db)))])).
Proof.
  intros (m & v & Hb & Hv & Ht & Hd).
  unfold track_install, track_install_try, installed_row, install_message,
    request_device_name.
  rewrite Hb. simpl. rewrite Hv. simpl. rewrite Ht. simpl. rewrite Hd.
  eexists.
  destruct (trackers db !! d) as [t|]; [|reflexivity].
  destruct (install_count t =? 0); reflexivity.
Qed.

Lemma track_uninstall_result db r d :
  names_device db_text r d ->
  track_uninstall db_text db r
  = match trackers db !! d with
    | Some t =>
        let db' := if install_count t =? 1
                   then save_tracker (uninstalled_row r t) db else db in
        (db', JsonResponse 200
                (JDict [("success", JBool true);
                        ("message", JStr "Uninstall tracked");
                        ("total_active_installs",
                         JInt (total_active_installs db'))]))
    | None =>
        (db, JsonResponse 200
               (JDict [("success", JBool true);
                       ("message",
                        JStr "Tracker not found, but uninstall acknowledged")]))
    end.
Proof.
  intros (m & v & Hb & Hv & Ht & Hd).
  unfold track_uninstall, track_uninstall_try, uninstalled_row.
  rewrite Hb. simpl. rewrite Hv. simpl. rewrite Ht. simpl. rewrite Hd.
  by destruct (trackers db !! d) as [t|].
Qed.

Lemma installed_row_device_id db r d :
  keyed_by_device_id db ->
  device_id (installed_row db_text r d (trackers db !! d)) = d.
Proof.
  intros Hkey. unfold installed_row.
  destruct (trackers db !! d) as [t|] eqn:Ht; [|done].
  pose proof (Hkey d t Ht). by destruct (install_count t =? 0).
Qed.

(** The count of active installs after a row is saved. *)
Lemma total_active_installs_save db t :
  total_active_installs (save_tracker t db)
  = total_active_installs db - active (trackers db !! device_id t)
    + active (Some t).
Proof.
  unfold total_active_installs, save_tracker, active. simpl trackers.
  set (P := fun kt : string * InstallTracker => install_count kt.2 = 1).
  set (k := device_id t). set (m := trackers db).
  assert (filter P m !! k
          = match m !! k with
            | Some t0 => if install_count t0 =? 1 then Some t0 else None
            | None => None
            end) as Hlook.
  { rewrite map_lookup_filter. destruct (m !! k) as [t0|]; simpl; [|done].
    destruct (Z.eqb_spec (install_count t0) 1) as [H1|H1].
    - by rewrite option_guard_True.
    - by rewrite option_guard_False. }
  assert (forall m' : gmap string InstallTracker,
            is_Some (m' !! k) -> (1 <= size m')%nat) as Hpos.
  { intros m' [x Hx]. destruct (size m') eqn:E; [|lia].
    apply map_size_empty_inv in E. subst. by rewrite lookup_empty in Hx. }
  assert (is_Some (filter P m !! k) -> (1 <= size (filter P m))%nat)
    as Hone by apply Hpos.
  rewrite map_filter_insert.
  destruct (Z.eqb_spec (install_count t) 1) as [H1|H1].
  - rewrite decide_True by done. rewrite map_size_insert, Hlook.
    generalize (size (filter P m)). intros n.
    destruct (m !! k) as [t0|]; [|simpl; lia].
    destruct (install_count t0 =? 1); simpl; lia.
  - rewrite decide_False by done.
    rewrite map_filter_delete, map_size_delete.
    rewrite Hlook in Hone |- *.
    revert Hone. generalize (size (filter P m)). intros n Hone.
    destruct (m !! k) as [t0|] eqn:Hk; [|simpl; lia].
    destruct (install_count t0 =? 1) eqn:E0; [|simpl; lia].
    assert (1 <= n)%nat by (apply Hone; by eexists).
    simpl. lia.
Qed.

End TrackingMore.

(** X11: a [track_install] call that names a device answers 200 with the
    count of active installs after the call; that count is one more than
    before when the device was not active (new or uninstalled) and the same
    when it was, and the message tells the three cases apart. *)
Theorem track_install_reports_count
    (db_text : json -> string) (db : database) (r : request) (d : string) :
  keyed_by_device_id db ->
  install_count_0_or_1 db ->
  names_device db_text r d ->
  let result := track_install db_text db r in
  total_active_installs result.1
  = total_active_installs db + 1 - active (trackers db !! d)
  /\ response_status result.2 = Some 200
  /\ response_member "total_active_installs" result.2
     = Some (JInt (total_active_installs result.1))
  /\ response_message result.2
     = Some (JStr (match trackers db !! d with
                   | None => "New install tracked"
                   | Some t =>
                       if install_count t =? 0
                       then "Re-install tracked (count restored)"
                       else "Already tracked (count maintained)"
                   end)).
Proof.
  intros Hkey Hcnt Hd result.
  destruct (track_install_result db_text db r d Hd) as (device & Hres).
  subst result. rewrite Hres. simpl.
  split; [|done].
  rewrite total_active_installs_save, (installed_row_device_id _ _ _ _ Hkey).
  unfold installed_row, active. generalize (total_active_installs db).
  intros n.
  destruct (trackers db !! d) as [t|] eqn:Ht; simpl; [|lia].
  destruct (Hcnt d t Ht) as [H0|H1].
  - rewrite H0. simpl. lia.
  - rewrite H1. simpl. lia.
Qed.

Lemma track_install_reports_count_witness :
  keyed_by_device_id sample_db
  /\ install_count_0_or_1 sample_db
  /\ names_device column_text sample_reopen "abc"
  /\ total_active_installs (track_install column_text sample_db sample_reopen).1
     = 1
  /\ response_message (track_install column_text sample_db sample_reopen).2
     = Some (JStr "Already tracked (count maintained)").
Proof.
  assert (install_count_0_or_1 sample_db) as Hcnt.
  { intros k t. unfold sample_db. simpl.
    intros [_ <-]%lookup_singleton_Some. by right. }
  split; [exact sample_db_keyed|]. split; [exact Hcnt|].
  split; [exact sample_reopen_names|].
  destruct (track_install_reports_count column_text sample_db sample_reopen
              "abc" sample_db_keyed Hcnt sample_reopen_names)
    as (Htotal & _ & _ & Hmsg).
  split; [exact Htotal|exact Hmsg].
Defined.

(** X12: a [track_uninstall] call that names a device answers 200 in
    every case. For an active device the count it reports is one less than
    before; for a device that is already uninstalled nothing is written and
    the count is unchanged; for an unknown device nothing is written and the
    answer carries no count. *)
Theorem track_uninstall_reports_count
    (db_text : json -> string) (db : database) (r : request) (d : string) :
  keyed_by_device_id db ->
  names_device db_text r d ->
  let result := track_uninstall db_text db r in
  response_status result.2 = Some 200
  /\ match trackers db !! d with
     | Some t =>
         total_active_installs result.1
         = total_active_installs db - active (Some t)
         /\ (install_count t <> 1 -> result.1 = db)
         /\ response_member "total_active_installs" result.2
            = Some (JInt (total_active_installs result.1))
         /\ response_message result.2 = Some (JStr "Uninstall tracked")
     | None =>
         result.1 = db
         /\ response_member "total_active_installs" result.2 = None
         /\ response_message result.2
            = Some (JStr "Tracker not found, but uninstall acknowledged")
     end.
Proof.
  intros Hkey Hd result. subst result.
  rewrite (track_uninstall_result db_text db r d Hd).
  destruct (trackers db !! d) as [t|] eqn:Ht; [|done].
  simpl. split; [done|].
  destruct (Z.eqb_spec (install_count t) 1) as [H1|H1].
  - split; [|done]. rewrite total_active_installs_save.
    unfold uninstalled_row. simpl device_id. rewrite (Hkey d t Ht), Ht.
    unfold active. generalize (total_active_installs db). intros n.
    rewrite H1. simpl. lia.
  - split; [|done]. unfold active. generalize (total_active_installs db).
    intros n. destruct (Z.eqb_spec (install_count t) 1); [done|lia].
Qed.

Lemma track_uninstall_reports_count_witness :
  keyed_by_device_id sample_db
  /\ names_device column_text sample_uninstall "abc"
  /\ total_active_installs
       (track_uninstall column_text sample_db sample_uninstall).1 = 0
  /\ response_message
       (track_uninstall column_text sample_db sample_uninstall).2
     = Some (JStr "Uninstall tracked").
Proof.
  split; [exact sample_db_keyed|]. split; [exact sample_uninstall_names|].
  destruct (track_uninstall_reports_count column_text sample_db
              sample_uninstall "abc" sample_db_keyed sample_uninstall_names)
    as (_ & Hrow).
  change (trackers sample_db !! "abc"%string)
    with (Some (MkInstallTracker "abc" 1 0 "Android"
                  "Mozilla/5.0 (Linux; Android 14)" "install" 5)) in Hrow.
  destruct Hrow as (Htotal & _ & _ & Hmsg).
  split; [exact Htotal|exact Hmsg].
Defined.

(** ** What the tracking endpoints leave alone *)

Section TrackingFrame.
Variable db_text : json -> string.

Lemma track_install_saves db r d :
  names_device db_text r d ->
  (track_install db_text db r).1
  = save_tracker (installed_row db_text r d (trackers db !! d)) db.
Proof.
  intros Hd. destruct (track_install_result db_text db r d Hd) as (dv & ->).
  done.
Qed.

Lemma track_uninstall_saves db r d :
  names_device db_text r d ->
  (track_uninstall db_text db r).1
  = match trackers db !! d with
    | Some t =>
        if install_count t =? 1
        then save_tracker (uninstalled_row r t) db else db
    | None => db
    end.
Proof.
  intros Hd. rewrite (track_uninstall_result db_text db r d Hd).
  by destruct (trackers db !! d) as [t|].
Qed.

(** One call writes at most one row, the one of the device it names, and
    keeps the user agent recorded in it. *)
Lemma step_effect db c :
  keyed_by_device_id db ->
  playlists (step db_text db c) = playlists db
  /\ movies (step db_text db c) = movies db
  /\ download_logs (step db_text db c) = download_logs db
  /\ (trackers (step db_text db c) = trackers db
      \/ exists d t',
           call_names db_text c d
           /\ trackers (step db_text db c) = <[d := t']> (trackers db)
           /\ device_id t' = d
           /\ forall t, trackers db !! d = Some t ->
                        device_info t' = device_info t).
Proof.
  intros Hkey.
  destruct c as [r|r]; simpl;
    (destruct (names_device_or_unchanged db_text db r) as [[d Hd]|[Hi Hu]];
     [|rewrite ?Hi, ?Hu; by auto]).
  - rewrite (track_install_saves db r d Hd). unfold save_tracker. simpl.
    do 3 (split; [done|]). right.
    exists d, (installed_row db_text r d (trackers db !! d)).
    rewrite (installed_row_device_id db_text db r d Hkey).
    do 3 (split; [done|]).
    intros t Ht. rewrite Ht. simpl. by destruct (install_count t =? 0).
  - rewrite (track_uninstall_saves db r d Hd).
    destruct (trackers db !! d) as [t|] eqn:Ht; [|by auto].
    destruct (install_count t =? 1); [|by auto].
    unfold save_tracker. simpl. do 3 (split; [done|]). right.
    exists d, (uninstalled_row r t). simpl. rewrite (Hkey d t Ht).
    do 3 (split; [done|]). intros t0 Heq. by simplify_eq.
Qed.

End TrackingFrame.

(** X13: [track_uninstall] is idempotent: a second uninstall for the same
    device leaves the tables exactly as the first one left them (the
    deletion is counted once and the time of the first uninstall stays). *)
Theorem track_uninstall_twice
    (db_text : json -> string) (db : database) (r r' : request) (d : string) :
  keyed_by_device_id db ->
  names_device db_text r d ->
  names_device db_text r' d ->
  (track_uninstall db_text (track_uninstall db_text db r).1 r').1
  = (track_uninstall db_text db r).1.
Proof.
  intros Hkey Hd Hd'.
  rewrite (track_uninstall_saves db_text _ r' d Hd').
  rewrite (track_uninstall_saves db_text db r d Hd).
  destruct (trackers db !! d) as [t|] eqn:Ht; [|by rewrite Ht].
  destruct (Z.eqb_spec (install_count t) 1) as [H1|H1].
  - unfold save_tracker at 1 3. simpl trackers. simpl device_id.
    rewrite (Hkey d t Ht), lookup_insert_eq. done.
  - rewrite Ht. by destruct (Z.eqb_spec (install_count t) 1).
Qed.

Lemma track_uninstall_twice_witness :
  keyed_by_device_id sample_db
  /\ names_device column_text sample_uninstall "abc"
  /\ (deleted_count <$>
        trackers (track_uninstall column_text
                    (track_uninstall column_text sample_db sample_uninstall).1
                    sample_uninstall).1 !! "abc"%string) = Some 1.
Proof.
  split; [exact sample_db_keyed|]. split; [exact sample_uninstall_names|].
  rewrite (track_uninstall_twice column_text sample_db sample_uninstall
             sample_uninstall "abc" sample_db_keyed sample_uninstall_names
             sample_uninstall_names).
  reflexivity.
Defined.

(** X14: a sequence of tracking calls never touches the playlists, the
    movies or the download log, and leaves alone the row of every device
    that none of the calls names. *)
Theorem tracking_calls_frame
    (db_text : json -> string) (db : database) (calls : list call)
    (k : string) :
  keyed_by_device_id db ->
  (forall c, c ∈ calls -> ~ call_names db_text c k) ->
  let db' := run_calls db_text db calls in
  playlists db' = playlists db
  /\ movies db' = movies db
  /\ download_logs db' = download_logs db
  /\ trackers db' !! k = trackers db !! k.
Proof.
  revert db. induction calls as [|c calls IH]; intros db Hkey Hnot; simpl.
  - done.
  - destruct (step_effect db_text db c Hkey) as (Hp & Hm & Hl & Ht).
    destruct (IH (step db_text db c)) as (Hp' & Hm' & Hl' & Ht').
    { by apply step_keyed. }
    { intros c' Hc'. apply Hnot. by right. }
    unfold run_calls in *. rewrite Hp', Hm', Hl', Ht'.
    do 3 (split; [done|]).
    destruct Ht as [->|(d & t' & Hd & -> & _)]; [done|].
    apply lookup_insert_ne. intros ->.
    apply (Hnot c); [by left|done].
Qed.

Lemma tracking_calls_frame_witness :
  keyed_by_device_id sample_db
  /\ (forall c,
        c ∈ [Install sample_other_install; Uninstall sample_other_uninstall] ->
        ~ call_names column_text c "abc")
  /\ trackers (run_calls column_text sample_db
                 [Install sample_other_install;
                  Uninstall sample_other_uninstall])
       !! "abc"%string
     = trackers sample_db !! "abc"%string
  /\ trackers (run_calls column_text sample_db
                 [Install sample_other_install;
                  Uninstall sample_other_uninstall])
       !! "xyz"%string
     = Some (MkInstallTracker "xyz" 0 1 "Unknown" "" "uninstall" 25).
Proof.
  assert (forall c,
            c ∈ [Install sample_other_install;
                 Uninstall sample_other_uninstall] ->
            ~ call_names column_text c "abc") as Hnot.
  { intros c Hc Hn.
    apply list_elem_of_In in Hc. destruct Hc as [<-|[<-|[]]];
      destruct Hn as (m & v & Hb & Hv & _ & Ht); simpl in Hb;
      injection Hb as <-; injection Hv as <-; discriminate Ht. }
  split; [exact sample_db_keyed|]. split; [exact Hnot|].
  split; [|by vm_compute].
  destruct (tracking_calls_frame column_text sample_db
              [Install sample_other_install; Uninstall sample_other_uninstall]
              "abc" sample_db_keyed Hnot) as (_ & _ & _ & Hrow).
  exact Hrow.
Defined.

(** X15: a row is never deleted by the tracking calls, and the user agent
    recorded in [device_info] when the row was created is never replaced,
    not even by a re-install from another browser. *)
Theorem device_info_is_kept
    (db_text : json -> string) (db : database) (calls : list call)
    (k : string) (t : InstallTracker) :
  keyed_by_device_id db ->
  trackers db !! k = Some t ->
  exists t',
    trackers (run_calls db_text db calls) !! k = Some t'
    /\ device_info t' = device_info t
    /\ device_id t' = k.
Proof.
  revert db t. induction calls as [|c calls IH]; intros db t Hkey Hk; simpl.
  - exists t. split; [done|]. split; [done|]. by apply Hkey.
  - destruct (step_effect db_text db c Hkey) as (_ & _ & _ & Ht).
    assert (exists t1, trackers (step db_text db c) !! k = Some t1
                       /\ device_info t1 = device_info t) as (t1 & Hk1 & Hi1).
    { destruct Ht as [->|(d & t' & _ & -> & _ & Hinfo)]; [by exists t|].
      destruct (decide (d = k)) as [->|Hne].
      - exists t'. rewrite lookup_insert_eq. split; [done|]. by apply Hinfo.
      - exists t. by rewrite lookup_insert_ne. }
    destruct (IH (step db_text db c) t1 (step_keyed db_text db c Hkey) Hk1)
      as (t' & Hk' & Hi' & Hid').
    exists t'. split; [exact Hk'|]. split; [congruence|done].
Qed.

Lemma device_info_is_kept_witness :
  keyed_by_device_id sample_db
  /\ exists t',
       trackers (run_calls column_text sample_db
                   [Uninstall sample_uninstall; Install sample_reopen])
         !! "abc"%string = Some t'
       /\ device_info t' = "Mozilla/5.0 (Linux; Android 14)"%string
       /\ device_name t' = "iOS"%string.
Proof.
  split; [exact sample_db_keyed|].
  destruct (device_info_is_kept column_text sample_db
              [Uninstall sample_uninstall; Install sample_reopen] "abc"
              (MkInstallTracker "abc" 1 0 "Android"
                 "Mozilla/5.0 (Linux; Android 14)" "install" 5)
              sample_db_keyed eq_refl)
    as (t' & Hk & Hinfo & _).
  exists t'. split; [exact Hk|]. split; [exact Hinfo|].
  vm_compute in Hk. by injection Hk as <-.
Defined.

(** ** Rounds of installs and uninstalls, and the reset *)

Section Rounds.
Variable db_text : json -> string.
Variables (ri ru : request) (d : string).
Hypothesis Hri : names_device db_text ri d.
Hypothesis Hru : names_device db_text ru d.

(** The device has no row and [c] is 0, or its row is uninstalled with
    [deleted_count] equal to [c]. *)
Let uninstalled_with (db : database) (c : Z) : Prop :=
  match trackers db !! d with
  | None => c = 0
  | Some t => install_count t = 0 /\ deleted_count t = c /\ device_id t = d
  end.

Lemma one_round db c :
  uninstalled_with db c ->
  uninstalled_with
    (step db_text (step db_text db (Install ri)) (Uninstall ru)) (c + 1).
Proof.
  unfold uninstalled_with. intros H. simpl.
  rewrite (track_uninstall_saves db_text _ ru d Hru).
  rewrite (track_install_saves db_text db ri d Hri).
  destruct (trackers db !! d) as [t|] eqn:Ht.
  - destruct H as (H0 & Hc & Hid). unfold installed_row. rewrite H0. simpl.
    rewrite Hid, lookup_insert_eq. simpl. rewrite lookup_insert_eq.
    simpl. split; [done|]. split; [lia|done].
  - unfold installed_row. simpl. rewrite lookup_insert_eq. simpl.
    rewrite lookup_insert_eq. simpl. split; [done|]. split; [lia|done].
Qed.

Lemma rounds_from db c n :
  uninstalled_with db c ->
  uninstalled_with
    (run_calls db_text db (install_uninstall_rounds n ri ru))
    (c + Z.of_nat n).
Proof.
  revert db c. induction n as [|n IH]; intros db c H.
  - simpl. by rewrite Z.add_0_r.
  - change (run_calls db_text db (install_uninstall_rounds (S n) ri ru))
      with (run_calls db_text
              (step db_text (step db_text db (Install ri)) (Uninstall ru))
              (install_uninstall_rounds n ri ru)).
    replace (c + Z.of_nat (S n)) with (c + 1 + Z.of_nat n) by lia.
    apply IH. by apply one_round.
Qed.

Lemma rounds_of_new_device db n :
  trackers db !! d = None ->
  (0 < n)%nat ->
  exists t,
    trackers (run_calls db_text db (install_uninstall_rounds n ri ru)) !! d
    = Some t
    /\ install_count t = 0
    /\ deleted_count t = Z.of_nat n.
Proof.
  intros Hnone Hn.
  assert (uninstalled_with db 0) as H0
    by (unfold uninstalled_with; by rewrite Hnone).
  destruct n as [|n]; [lia|].
  pose proof (rounds_from _ _ n (one_round db 0 H0)) as H.
  change (run_calls db_text db (install_uninstall_rounds (S n) ri ru))
    with (run_calls db_text
            (step db_text (step db_text db (Install ri)) (Uninstall ru))
            (install_uninstall_rounds n ri ru)).
  unfold uninstalled_with in H.
  destruct (trackers
              (run_calls db_text
                 (step db_text (step db_text db (Install ri)) (Uninstall ru))
                 (install_uninstall_rounds n ri ru)) !! d) as [t|]; [|lia].
  exists t. split; [done|]. destruct H as (? & ? & _). split; [done|lia].
Qed.

End Rounds.

(** X16: [deleted_count] counts the uninstalls that followed an install:
    after [n] rounds of install then uninstall for a device that had no row,
    its row has [install_count] 0 and [deleted_count] [n]. *)
Theorem deleted_count_counts_rounds
    (db_text : json -> string) (db : database) (ri ru : request) (d : string)
    (n : nat) :
  names_device db_text ri d ->
  names_device db_text ru d ->
  trackers db !! d = None ->
  (0 < n)%nat ->
  exists t,
    trackers (run_calls db_text db (install_uninstall_rounds n ri ru)) !! d
    = Some t
    /\ install_count t = 0
    /\ deleted_count t = Z.of_nat n.
Proof. intros Hri Hru. by apply rounds_of_new_device. Qed.

Lemma deleted_count_counts_rounds_witness :
  names_device column_text sample_install "abc"
  /\ names_device column_text sample_uninstall "abc"
  /\ trackers empty_db !! "abc"%string = None
  /\ exists t,
       trackers (run_calls column_text empty_db
                   (install_uninstall_rounds 3 sample_install
                      sample_uninstall)) !! "abc"%string = Some t
       /\ install_count t = 0
       /\ deleted_count t = 3.
Proof.
  split; [exact sample_install_names|].
  split; [exact sample_uninstall_names|]. split; [reflexivity|].
  apply (deleted_count_counts_rounds column_text empty_db sample_install
           sample_uninstall "abc" 3 sample_install_names
           sample_uninstall_names eq_refl).
  lia.
Defined.

(** X17: the reset run by a staff user empties the tracker table and
    nothing else, so the history of a device is lost: the next install of
    any device is a new install with [deleted_count] 0 and the count of
    active installs is 1. A user who is not staff changes nothing and is
    sent to the login page. *)
Theorem reset_forgets_devices
    (db_text : json -> string) (login : string) (db : database)
    (r : request) (d : string) :
  names_device db_text r d ->
  let db0 := (reset_install_data true login db).1 in
  trackers db0 = ∅
  /\ playlists db0 = playlists db
  /\ movies db0 = movies db
  /\ download_logs db0 = download_logs db
  /\ total_active_installs db0 = 0
  /\ trackers (track_install db_text db0 r).1
     = {[ d := MkInstallTracker d 1 0 (request_device_name db_text r)
                 (meta_user_agent r) "install" (now r) ]}
  /\ total_active_installs (track_install db_text db0 r).1 = 1
  /\ reset_install_data false login db = (db, Redirect login).
Proof.
  intros Hd db0. subst db0. simpl.
  do 4 (split; [done|]). split; [done|].
  rewrite (track_install_saves db_text _ r d Hd). simpl.
  rewrite lookup_empty. simpl. unfold save_tracker. simpl.
  rewrite insert_empty. split; [done|]. split; [|done].
  unfold total_active_installs. simpl.
  rewrite map_filter_singleton_True by done. by rewrite map_size_singleton.
Qed.

Lemma reset_forgets_devices_witness :
  names_device column_text sample_install "abc"
  /\ (deleted_count <$>
        trackers (track_install column_text
                    (reset_install_data true "/admin/login/"
                       (run_calls column_text sample_db
                          [Uninstall sample_uninstall])).1
                    sample_install).1 !! "abc"%string) = Some 0
  /\ (deleted_count <$>
        trackers (run_calls column_text sample_db
                    [Uninstall sample_uninstall]) !! "abc"%string) = Some 1.
Proof.
  split; [exact sample_install_names|]. split; [|reflexivity].
  destruct (reset_forgets_devices column_text "/admin/login/"
              (run_calls column_text sample_db [Uninstall sample_uninstall])
              sample_install "abc" sample_install_names)
    as (_ & _ & _ & _ & _ & Hrow & _).
  rewrite Hrow. by rewrite lookup_singleton_eq.
Defined.

(** ** Runs of downloads *)

Lemma download_movie_tables reverse url_scheme db r id :
  let db' := (download_movie reverse url_scheme db r id).1 in
  playlists db' = playlists db
  /\ movies db' = movies db
  /\ trackers db' = trackers db
  /\ exists rows,
       download_logs db' = download_logs db ++ rows
       /\ map download_time rows
          = match get_movie db id with Some _ => [now r] | None => [] end.
Proof.
  unfold download_movie. destruct (get_movie db id) as [m|]; simpl.
  - do 3 (split; [done|]). by eexists.
  - do 3 (split; [done|]). exists []. by rewrite app_nil_r.
Qed.

Lemma get_movie_same_movies db db' id :
  movies db' = movies db -> get_movie db' id = get_movie db id.
Proof. unfold get_movie. by intros ->. Qed.

(** X18: the download log only grows: a run of [download_movie] calls
    keeps the rows that were there, in front and unchanged, and adds one row
    per call that finds its movie, in the order of the calls and stamped
    with their times, whatever [redirect] does with the links; calls for a
    missing movie add nothing, and the other tables stay as they were. *)
Theorem download_log_is_append_only
    (reverse url_scheme : string -> option string)
    (db : database) (calls : list (request * Z)) :
  let db' := run_downloads reverse url_scheme db calls in
  playlists db' = playlists db
  /\ movies db' = movies db
  /\ trackers db' = trackers db
  /\ exists rows,
       download_logs db' = download_logs db ++ rows
       /\ map download_time rows
          = map (fun c => now c.1) (downloads_found db calls).
Proof.
  revert db. induction calls as [|[r id] calls IH]; intros db; simpl.
  - do 3 (split; [done|]). exists []. by rewrite app_nil_r.
  - destruct (download_movie_tables reverse url_scheme db r id)
      as (Hp & Hm & Ht & rows1 & Hl & Htimes).
    destruct (IH (download_movie reverse url_scheme db r id).1)
      as (Hp' & Hm' & Ht' & rows2 & Hl' & Htimes').
    unfold run_downloads in *. simpl in *.
    rewrite Hp', Hm', Ht'. do 3 (split; [done|]).
    exists (rows1 ++ rows2). split.
    + by rewrite Hl', Hl, app_assoc.
    + rewrite map_app, Htimes, Htimes'.
      assert (downloads_found (download_movie reverse url_scheme db r id).1
                calls
              = downloads_found db calls) as ->.
      { unfold downloads_found. apply filter_ext. intros c.
        by rewrite (get_movie_same_movies db _ _ Hm). }
      by destruct (get_movie db id).
Qed.

(** Three calls on the sample catalogue, the second for a missing movie. *)
Example download_log_sample :
  map download_time
    (download_logs
       (run_downloads no_url_names sample_url_scheme sample_catalog
          [(sample_download, 13); (sample_download, 99);
           (post JSONDecodeError 80, 11)]))
  = [70; 80].
Proof. reflexivity. Qed.

(** ** The client address *)

Lemma split_head_join first others :
  ~ In ","%char first ->
  split_head "," (join_entries first others) = first.
Proof.
  intros Hno. destruct others as [|e rest]; simpl.
  - induction first as [|c first IH]; simpl; [done|].
    destruct (Ascii.eqb_spec c ",") as [->|_].
    + destruct Hno. by left.
    + f_equal. apply IH. intros H. apply Hno. by right.
  - generalize (join_entries e rest). intros tail.
    induction first as [|c first IH]; simpl; [done|].
    destruct (Ascii.eqb_spec c ",") as [->|_].
    + destruct Hno. by left.
    + f_equal. apply IH. intros H. apply Hno. by right.
Qed.

(** X19: when [X-Forwarded-For] is a non-empty list of entries joined by
    commas, the client address is its first entry as it stands, not
    trimmed; an empty first entry gives the empty address and not the
    remote address. *)
Theorem get_client_ip_of_joined
    (r : request) (first : str) (others : list str) :
  HTTP_X_FORWARDED_FOR r = Some (to_string (join_entries first others)) ->
  first <> [] \/ others <> [] ->
  ~ In ","%char first ->
  get_client_ip r = Some (to_string first).
Proof.
  intros Hx Hne Hno. unfold get_client_ip. rewrite Hx.
  assert (String.eqb (to_string (join_entries first others)) "" = false)
    as ->.
  { apply String.eqb_neq.
    destruct first as [|c first]; [|by destruct others].
    destruct others as [|e rest]; [by destruct Hne|done]. }
  simpl. do 2 f_equal. unfold of_string, to_string.
  rewrite list_ascii_of_string_of_list_ascii. by apply split_head_join.
Qed.

Lemma get_client_ip_of_joined_witness :
  HTTP_X_FORWARDED_FOR sample_download
  = Some (to_string (join_entries (py "203.0.113.7") [py " 10.0.0.1"]))
  /\ ~ In ","%char (py "203.0.113.7")
  /\ get_client_ip sample_download = Some "203.0.113.7"%string.
Proof.
  assert (~ In ","%char (py "203.0.113.7")) as Hno.
  { simpl. intros H. repeat (destruct H as [H|H]; [discriminate H|]). done. }
  split; [reflexivity|]. split; [exact Hno|].
  apply (get_client_ip_of_joined sample_download (py "203.0.113.7")
           [py " 10.0.0.1"] eq_refl); [left; discriminate|exact Hno].
Defined.

(** ** More on the title helpers *)

Lemma digits_value_nonneg acc ds :
  0 <= acc -> Forall (fun c => is_digit c = true) ds ->
  0 <= digits_value acc ds.
Proof.
  intros Hacc H. revert acc Hacc.
  induction H as [|c ds Hc _ IH]; intros acc Hacc; simpl; [done|].
  apply IH. assert (0 <= digit_value c) by (revert Hc; by_cases_on_char c).
  lia.
Qed.

Lemma all_digits_nonneg ds : all_digits ds -> 0 <= digits_value 0 ds.
Proof. intros [_ H]. by apply digits_value_nonneg. Qed.

Lemma number_of_nonneg dflt ds :
  0 <= dflt -> all_digits ds -> 0 <= default dflt (number_of ds).
Proof.
  intros Hd H. unfold number_of. destruct (_ <=? _); simpl; [|done].
  by apply all_digits_nonneg.
Qed.

(** X20: the numbers read from a title are never negative: the order
    number, the season and the episode are all at least 0. *)
Theorem title_numbers_are_not_negative (title : option string) :
  0 <= extract_movie_order_number title
  /\ 0 <= (extract_episode_number title).1
  /\ 0 <= (extract_episode_number title).2.
Proof.
  split.
  { rewrite extract_movie_order_number_eq.
    destruct (leading_order_token _) as [ds|] eqn:E; [|lia].
    apply leading_order_token_spec in E as [Hd _].
    by apply number_of_nonneg. }
  rewrite extract_episode_number_eq. cbv zeta. cbn [fst snd].
  set (t := lower (or_empty title)).
  assert (0 <= default 9999 (marker_number (first_marker "e" (py "pisode") t)))
    as Hfound.
  { destruct (first_marker "e" (py "pisode") t) as [[text ds]|] eqn:E;
      [|simpl; lia].
    apply number_of_nonneg; [lia|]. by eapply first_marker_digits. }
  destruct (first_marker "s" (py "eason") t) as [[text ds]|] eqn:E.
  - split.
    { apply number_of_nonneg; [lia|]. by eapply first_marker_digits. }
    destruct (_ =? 9999); [|done].
    destruct (first_standalone false (remove_all text t)) as [ds'|] eqn:E';
      [|done].
    apply number_of_nonneg; [done|]. by eapply first_standalone_digits.
  - split; [simpl; lia|done].
Qed.

Lemma marker_here_absent letter word s :
  ~ In letter s -> marker_here letter word s = None.
Proof.
  destruct s as [|c rest]; simpl; [done|]. intros Hno.
  destruct (Ascii.eqb_spec c letter) as [->|_]; [|done].
  destruct Hno. by left.
Qed.

Lemma first_marker_absent letter word s :
  ~ In letter s -> first_marker letter word s = None.
Proof.
  induction s as [|c s IH]; intros Hno.
  - done.
  - change (first_marker letter word (c :: s))
      with (match marker_here letter word (c :: s) with
            | Some m => Some m
            | None => first_marker letter word s
            end).
    rewrite marker_here_absent by done. apply IH.
    intros H. apply Hno. by right.
Qed.

(** X21: a title in which neither the letter s nor the letter e occurs, in
    either case, gets the defaults (1, 9999) whatever numbers it holds: a
    number alone is never taken for an episode. *)
Theorem title_without_s_and_e_gets_defaults (title : option string) :
  ~ In "s"%char (lower (or_empty title)) ->
  ~ In "e"%char (lower (or_empty title)) ->
  extract_episode_number title = (1, 9999).
Proof.
  intros Hs He. rewrite extract_episode_number_eq. cbv zeta.
  by rewrite (first_marker_absent _ _ _ Hs), (first_marker_absent _ _ _ He).
Qed.

Lemma title_without_s_and_e_gets_defaults_witness :
  ~ In "s"%char (lower (or_empty (Some "2012 PART 3"%string)))
  /\ ~ In "e"%char (lower (or_empty (Some "2012 PART 3"%string)))
  /\ extract_episode_number (Some "2012 PART 3"%string) = (1, 9999).
Proof.
  assert (forall c, forallb (fun x => negb (Ascii.eqb x c))
                      (lower (or_empty (Some "2012 PART 3"%string))) = true ->
                    ~ In c (lower (or_empty (Some "2012 PART 3"%string))))
    as Hno.
  { intros c H Hin. rewrite forallb_forall in H. specialize (H c Hin).
    by rewrite Ascii.eqb_refl in H. }
  split; [by apply Hno|]. split; [by apply Hno|].
  apply title_without_s_and_e_gets_defaults; by apply Hno.
Defined.

Lemma lstrip_spaces ws s :
  Forall (fun c => is_space c = true) ws -> lstrip (ws ++ s) = lstrip s.
Proof. induction 1 as [|c ws Hc _ IH]; simpl; [done|]. by rewrite Hc. Qed.

Lemma lstrip_then_spaces s ws :
  Forall (fun c => is_space c = true) ws ->
  lstrip (s ++ ws) = match lstrip s with [] => [] | _ :: _ => lstrip s ++ ws end.
Proof.
  intros Hws. induction s as [|c s IH]; simpl.
  - rewrite <- (app_nil_r ws). by rewrite lstrip_spaces.
  - by destruct (is_space c).
Qed.

Lemma rstrip_spaces s ws :
  Forall (fun c => is_space c = true) ws -> rstrip (s ++ ws) = rstrip s.
Proof.
  intros Hws. unfold rstrip. rewrite rev_app_distr.
  rewrite lstrip_spaces; [done|]. by apply Forall_rev.
Qed.

Lemma strip_outer_spaces ws1 s ws2 :
  Forall (fun c => is_space c = true) ws1 ->
  Forall (fun c => is_space c = true) ws2 ->
  strip (ws1 ++ s ++ ws2) = strip s.
Proof.
  intros H1 H2. unfold strip.
  rewrite (lstrip_spaces ws1 _ H1), (lstrip_then_spaces s ws2 H2).
  destruct (lstrip s) as [|c l] eqn:E; [done|].
  by rewrite (rstrip_spaces _ ws2 H2).
Qed.

(** X22: whitespace before and after a title does not change its order
    number. *)
Theorem order_number_ignores_outer_whitespace
    (title title' : option string) (ws1 ws2 : str) :
  Forall (fun c => is_space c = true) ws1 ->
  Forall (fun c => is_space c = true) ws2 ->
  or_empty title' = ws1 ++ or_empty title ++ ws2 ->
  extract_movie_order_number title' = extract_movie_order_number title.
Proof.
  intros H1 H2 Heq. unfold extract_movie_order_number.
  by rewrite Heq, (strip_outer_spaces ws1 _ ws2 H1 H2).
Qed.

Lemma order_number_ignores_outer_whitespace_witness :
  Forall (fun c => is_space c = true) (py "  ")
  /\ Forall (fun c => is_space c = true) [" "%char; "009"%char]
  /\ extract_movie_order_number (Some "  12. Twelve 	"%string)
     = extract_movie_order_number (Some "12. Twelve"%string)
  /\ extract_movie_order_number (Some "12. Twelve"%string) = 12.
Proof.
  assert (Forall (fun c => is_space c = true) (py "  ")) as H1
    by (repeat constructor).
  assert (Forall (fun c => is_space c = true) [" "%char; "009"%char]) as H2
    by (repeat constructor).
  split; [exact H1|]. split; [exact H2|]. split; [|reflexivity].
  apply (order_number_ignores_outer_whitespace (Some "12. Twelve"%string)
           (Some "  12. Twelve 	"%string) (py "  ") [" "%char; "009"%char]
           H1 H2).
  reflexivity.
Defined.

(** ** Ties in a playlist *)

Lemma sort_by_keeps_ties {A K : Type} (leb eqb : K -> K -> bool)
    (key : A -> K) (k : K) (l : list A) :
  (forall a b, eqb a k = true -> eqb b k = true -> leb a b = true) ->
  List.filter (fun x => eqb (key x) k) (sort_by leb key l)
  = List.filter (fun x => eqb (key x) k) l.
Proof. intros H. apply (sort_by_stable leb key (fun a => eqb a k) l H). Qed.

(** X23: the sort of [playlist_detail] is stable: the movies that share a
    sort key (the same order number, or the same season and episode) are
    shown in the order in which they were fetched. *)
Theorem playlist_detail_keeps_ties (db : database) (id : Z) (pl : Playlist) :
  get_playlist db id = Some pl ->
  let ms := movies_of_playlist db pl in
  exists sorted,
    playlist_detail db id = Rendered "playlist_detail.html" (pl, sorted)
    /\ (Exists (fun m => extract_movie_order_number (title m) <> 9999)
          (take 5 ms) ->
        forall n,
          List.filter
            (fun m => extract_movie_order_number (title m) =? n) sorted
          = List.filter
              (fun m => extract_movie_order_number (title m) =? n) ms)
    /\ (Forall (fun m => extract_movie_order_number (title m) = 9999)
          (take 5 ms) ->
        forall season episode,
          List.filter
            (fun m => ((extract_episode_number (title m)).1 =? season)
                      && ((extract_episode_number (title m)).2 =? episode))
            sorted
          = List.filter
              (fun m => ((extract_episode_number (title m)).1 =? season)
                        && ((extract_episode_number (title m)).2 =? episode))
              ms).
Proof.
  intros Hpl ms. exists (sort_movies ms).
  unfold playlist_detail. rewrite Hpl. fold ms. split; [done|].
  unfold sort_movies.
  replace (slice ms 0 5) with (take 5 ms)
    by (symmetry; apply (slice_prefix ms 5)).
  split; intros H.
  - apply has_numeric_order_loop_true in H. rewrite H. intros n.
    apply (sort_by_keeps_ties Z.leb Z.eqb
             (fun m => extract_movie_order_number (title m)) n).
    intros a b Ha Hb. lia.
  - apply has_numeric_order_loop_false in H. rewrite H. intros season episode.
    apply (sort_by_keeps_ties pair_leb
             (fun a k => (a.1 =? k.1) && (a.2 =? k.2))
             (fun m => extract_episode_number (title m)) (season, episode)).
    intros a b Ha Hb. apply pair_leb_le. unfold pair_le.
    simpl in Ha, Hb. lia.
Qed.

Lemma playlist_detail_keeps_ties_witness :
  get_playlist sample_twice 1 = Some (MkPlaylist 1 "Series" None (Some 1))
  /\ map (fun m => extract_episode_number (title m))
       (movies_of_playlist sample_twice (MkPlaylist 1 "Series" None (Some 1)))
     = [(1, 2); (1, 1); (1, 2)]
  /\ exists sorted,
       playlist_detail sample_twice 1
       = Rendered "playlist_detail.html"
           (MkPlaylist 1 "Series" None (Some 1), sorted)
       /\ map movie_id sorted = [42; 41; 43]
       /\ map movie_id
            (List.filter
               (fun m => ((extract_episode_number (title m)).1 =? 1)
                         && ((extract_episode_number (title m)).2 =? 2))
               sorted)
          = [41; 43].
Proof.
  split; [reflexivity|]. split; [by vm_compute|].
  destruct (playlist_detail_keeps_ties sample_twice 1
              (MkPlaylist 1 "Series" None (Some 1)) eq_refl)
    as (sorted & Hr & _ & Hties).
  exists sorted. split; [exact Hr|].
  split.
  - vm_compute in Hr. by injection Hr as <-.
  - rewrite (Hties ltac:(repeat constructor) 1 2). reflexivity.
Defined.
